(** * Watch marketplace: ownership transfer, tokenization and escrow

    A shallow embedding of the route handlers of [app/routers/watches.py],
    [app/routers/stellar_contracts.py] and [app/auth.py], and the properties
    of the sale workflow stated over them.

    Conventions.
    - A Python [float] is a binary64 value: [PrimFloat.float].
    - An ORM object is a record; the primary key is [option Z] because a
      freshly constructed object reads [None] for [id] until the session
      flushes it.
    - A SQLAlchemy session is a working copy of the tables plus the list of
      objects handed to [db.add]; [db.commit()] writes both to the database.
    - A handler is a computation over that session which either returns a
      value or raises; what it did to the outside world (adapter calls,
      commits, notifications) is recorded in a trace. *)

From Stdlib Require Import ZArith List String Bool Lia DecimalString.
From Stdlib Require Import Floats.PrimFloat.
Import ListNotations.

#[local] Set Warnings "-inexact-float".  (* 0.03 is read as its nearest binary64 *)

Local Open Scope string_scope.
Local Open Scope Z_scope.

(** ** Python values *)

(** [str(n)] for an [int]. *)
Definition str_int (z : Z) : string := NilZero.string_of_int (Z.to_int z).

(** [f"{x}"] for an attribute that holds an [int] or [None]. *)
Definition str_opt_int (o : option Z) : string :=
  match o with
  | Some z => str_int z
  | None => "None"
  end.

(** Truth value of an optional string: [None] and the empty string are falsy. *)
Definition truthy_str (o : option string) : bool :=
  match o with
  | Some s => negb (s =? "")%string
  | None => false
  end.

(** Truth value of a float: zero (of either sign) is falsy, NaN is truthy. *)
Definition truthy_float (x : float) : bool := negb (PrimFloat.eqb x 0%float).

(** [o or d] for an optional float. *)
Definition float_or (o : option float) (d : float) : float :=
  match o with
  | Some x => if truthy_float x then x else d
  | None => d
  end.

(** [o or d] for an optional int. *)
Definition int_or (o : option Z) (d : Z) : Z :=
  match o with
  | Some n => if n =? 0 then d else n
  | None => d
  end.

(** [o or d] for an optional string. *)
Definition str_or (o : option string) (d : string) : string :=
  if truthy_str o then match o with Some s => s | None => d end else d.

Definition opt_Z_eqb (o : option Z) (k : Z) : bool :=
  match o with
  | Some z => z =? k
  | None => false
  end.

(** [all([...])] over optional strings. *)
Definition all_truthy (l : list (option string)) : bool := forallb truthy_str l.

(** ** Exceptions *)

Inductive exn : Type :=
| HTTPException (status_code : Z) (detail : string)
| NameError (name : string)
| PyError (cls : string) (msg : string).

Inductive Res (A : Type) : Type :=
| Ok (a : A)
| Raise (e : exn).
Arguments Ok {A} a.
Arguments Raise {A} e.

(** ** The ledger: ORM records

    [app/models.py] is not part of the sources at hand; the columns are the
    keyword arguments and attributes the handlers use. *)

Module User.
Record t : Type := mk {
    id : option Z;
    full_name : string;
    email : string;
    password_hash : string;
    role : string;
    stellar_public_key : option string;
    stellar_secret : option string
  }.
Definition with_id (k : Z) (u : t) : t :=
    mk (Some k) (full_name u) (email u) (password_hash u) (role u)
       (stellar_public_key u) (stellar_secret u).
Definition with_stellar_public_key (pk : option string) (u : t) : t :=
    mk (id u) (full_name u) (email u) (password_hash u) (role u)
       pk (stellar_secret u).
End User.

Module Store.
Record t : Type := mk {
    id : option Z;
    user_id : Z;
    name : string;
    commission_rate : float;
    credentialed : bool
  }.
Definition with_id (k : Z) (s : t) : t :=
    mk (Some k) (user_id s) (name s) (commission_rate s) (credentialed s).
End Store.

Module Evaluator.
Record t : Type := mk {
    id : option Z;
    user_id : Z;
    store_id : option Z
  }.
Definition with_id (k : Z) (e : t) : t := mk (Some k) (user_id e) (store_id e).
End Evaluator.

Module Watch.
Record t : Type := mk {
    id : option Z;
    serial_number : string;
    brand : string;
    model : string;
    year : option Z;
    condition : option string;
    description : option string;
    purchase_price_brl : option float;
    current_value_brl : option float;
    current_owner_user_id : Z;
    status : string;
    store_id : option Z;
    nft_code : option string;
    nft_issuer : option string;
    blockchain_address : option string;
    price_brl : option float
  }.
Definition with_id (k : Z) (w : t) : t :=
    mk (Some k) (serial_number w) (brand w) (model w) (year w) (condition w)
       (description w) (purchase_price_brl w) (current_value_brl w)
       (current_owner_user_id w) (status w) (store_id w) (nft_code w)
       (nft_issuer w) (blockchain_address w) (price_brl w).
Definition with_status (s : string) (w : t) : t :=
    mk (id w) (serial_number w) (brand w) (model w) (year w) (condition w)
       (description w) (purchase_price_brl w) (current_value_brl w)
       (current_owner_user_id w) s (store_id w) (nft_code w)
       (nft_issuer w) (blockchain_address w) (price_brl w).
Definition with_current_owner_user_id (o : Z) (w : t) : t :=
    mk (id w) (serial_number w) (brand w) (model w) (year w) (condition w)
       (description w) (purchase_price_brl w) (current_value_brl w)
       o (status w) (store_id w) (nft_code w)
       (nft_issuer w) (blockchain_address w) (price_brl w).
Definition with_price_brl (p : option float) (w : t) : t :=
    mk (id w) (serial_number w) (brand w) (model w) (year w) (condition w)
       (description w) (purchase_price_brl w) (current_value_brl w)
       (current_owner_user_id w) (status w) (store_id w) (nft_code w)
       (nft_issuer w) (blockchain_address w) p.
Definition with_nft (code issuer address : option string) (w : t) : t :=
    mk (id w) (serial_number w) (brand w) (model w) (year w) (condition w)
       (description w) (purchase_price_brl w) (current_value_brl w)
       (current_owner_user_id w) (status w) (store_id w) code
       issuer address (price_brl w).
End Watch.

Module OwnershipTransfer.
Record t : Type := mk {
    id : option Z;
    watch_id : option Z;
    from_user_id : Z;
    to_user_id : Z;
    stellar_tx_hash : string;
    type : string;
    price_brl : float;
    admin_fee_brl : float
  }.
Definition with_id (k : Z) (x : t) : t :=
    mk (Some k) (watch_id x) (from_user_id x) (to_user_id x)
       (stellar_tx_hash x) (type x) (price_brl x) (admin_fee_brl x).
End OwnershipTransfer.

Module Commission.
Record t : Type := mk {
    id : option Z;
    transaction_id : option Z;
    transaction_type : string;
    recipient_user_id : Z;
    amount_brl : float;
    description : string
  }.
Definition with_id (k : Z) (c : t) : t :=
    mk (Some k) (transaction_id c) (transaction_type c) (recipient_user_id c)
       (amount_brl c) (description c).
End Commission.

(** The two confirmation flags of a new escrow are unset. *)
Module Escrow.
Record t : Type := mk {
    id : option Z;
    watch_id : option Z;
    buyer_id : option Z;
    seller_id : option Z;
    amount_brl : option float;
    status : string;
    seller_confirmed : bool;
    evaluator_confirmed : bool
  }.
Definition with_id (k : Z) (e : t) : t :=
    mk (Some k) (watch_id e) (buyer_id e) (seller_id e) (amount_brl e)
       (status e) (seller_confirmed e) (evaluator_confirmed e).
Definition with_status (s : string) (e : t) : t :=
    mk (id e) (watch_id e) (buyer_id e) (seller_id e) (amount_brl e)
       s (seller_confirmed e) (evaluator_confirmed e).
Definition with_seller_confirmed (b : bool) (e : t) : t :=
    mk (id e) (watch_id e) (buyer_id e) (seller_id e) (amount_brl e)
       (status e) b (evaluator_confirmed e).
Definition with_evaluator_confirmed (b : bool) (e : t) : t :=
    mk (id e) (watch_id e) (buyer_id e) (seller_id e) (amount_brl e)
       (status e) (seller_confirmed e) b.
End Escrow.

(** The tables, each in insertion order. *)
Record DB : Type := mkDB {
  users : list User.t;
  stores : list Store.t;
  evaluators : list Evaluator.t;
  watches : list Watch.t;
  transfers : list OwnershipTransfer.t;
  commissions : list Commission.t;
  escrows : list Escrow.t
}.

Definition empty_db : DB := mkDB [] [] [] [] [] [] [].

(** An object handed to [db.add]. *)
Inductive Obj : Type :=
| ObjUser (u : User.t)
| ObjStore (s : Store.t)
| ObjEvaluator (e : Evaluator.t)
| ObjWatch (w : Watch.t)
| ObjTransfer (x : OwnershipTransfer.t)
| ObjCommission (c : Commission.t)
| ObjEscrow (e : Escrow.t).

(** The key an autoincrement column gives the next row. *)
Definition next_id {A : Type} (id : A -> option Z) (tbl : list A) : Z :=
  1 + fold_right (fun r m => match id r with Some k => Z.max k m | None => m end) 0 tbl.

(** INSERT: the row goes to the end of its table under a fresh key. *)
Definition insert {A : Type} (id : A -> option Z) (with_id : Z -> A -> A)
    (tbl : list A) (row : A) : list A :=
  tbl ++ [with_id (next_id id tbl) row].

(** UPDATE ... WHERE id = k. *)
Definition update {A : Type} (id : A -> option Z) (k : option Z) (row : A)
    (tbl : list A) : list A :=
  map (fun r => match k with
                | Some z => if opt_Z_eqb (id r) z then row else r
                | None => r
                end) tbl.

Definition insert_obj (db : DB) (o : Obj) : DB :=
  match o with
  | ObjUser u =>
      mkDB (insert User.id User.with_id (users db) u) (stores db) (evaluators db)
           (watches db) (transfers db) (commissions db) (escrows db)
  | ObjStore s =>
      mkDB (users db) (insert Store.id Store.with_id (stores db) s) (evaluators db)
           (watches db) (transfers db) (commissions db) (escrows db)
  | ObjEvaluator e =>
      mkDB (users db) (stores db) (insert Evaluator.id Evaluator.with_id (evaluators db) e)
           (watches db) (transfers db) (commissions db) (escrows db)
  | ObjWatch w =>
      mkDB (users db) (stores db) (evaluators db)
           (insert Watch.id Watch.with_id (watches db) w)
           (transfers db) (commissions db) (escrows db)
  | ObjTransfer x =>
      mkDB (users db) (stores db) (evaluators db) (watches db)
           (insert OwnershipTransfer.id OwnershipTransfer.with_id (transfers db) x)
           (commissions db) (escrows db)
  | ObjCommission c =>
      mkDB (users db) (stores db) (evaluators db) (watches db) (transfers db)
           (insert Commission.id Commission.with_id (commissions db) c) (escrows db)
  | ObjEscrow e =>
      mkDB (users db) (stores db) (evaluators db) (watches db) (transfers db)
           (commissions db) (insert Escrow.id Escrow.with_id (escrows db) e)
  end.

Definition set_watches (ws : list Watch.t) (db : DB) : DB :=
  mkDB (users db) (stores db) (evaluators db) ws
       (transfers db) (commissions db) (escrows db).

Definition set_users (us : list User.t) (db : DB) : DB :=
  mkDB us (stores db) (evaluators db) (watches db)
       (transfers db) (commissions db) (escrows db).

Definition set_escrows (es : list Escrow.t) (db : DB) : DB :=
  mkDB (users db) (stores db) (evaluators db) (watches db)
       (transfers db) (commissions db) es.

(** ** External collaborators

    [app/stellar.py] (payment and blockchain adapters) and
    [app/routers/notifications.py] are black boxes with a request/response
    contract: each call either returns a result dictionary or raises. *)

Module PaymentResult.
Record t : Type := mk {
  status : string;
  tx_hash : string;
  fees : list (string * float)
}.
End PaymentResult.

Module TransferResult.
Record t : Type := mk {
  status : string;
  tx_hash : string
}.
End TransferResult.

Module NftResult.
Record t : Type := mk {
  status : string;
  asset_code : string;
  issuer : string;
  blockchain_address : option string
}.
End NftResult.

Record Adapters : Type := mkAdapters {
  (** [app.stellar.simulate_payment_conversion(amount, method, installments)] *)
  simulate_payment_conversion : float -> string -> Z -> Res PaymentResult.t;
  (** [app.stellar.transfer_nft(asset_code, from_secret, to_public)] *)
  transfer_nft : string -> string -> string -> Res TransferResult.t;
  (** [app.stellar.create_nft_asset(watch_id, brand, model, serial_number, receiver_public)] *)
  create_nft_asset : option Z -> string -> string -> string -> option string -> Res NftResult.t;
  (** [app.stellar.MARKETPLACE_KEYPAIR_PUBLIC] *)
  MARKETPLACE_KEYPAIR_PUBLIC : string;
  (** [str(e)] for a caught exception *)
  py_str : exn -> string;
  (** the format specifications [.2f] and [,.2f] *)
  fmt_2f : float -> string;
  fmt_c2f : float -> string
}.

(** What a handler did to the outside world, in order. *)
Inductive Event : Type :=
| PaymentCall (amount : float) (method : string) (installments : Z)
    (out : Res PaymentResult.t)
| TransferCall (asset_code from_secret to_public : string)
    (out : Res TransferResult.t)
| NftCall (watch_id : option Z) (brand model serial_number : string)
    (receiver_public : option string) (out : Res NftResult.t)
| Committed (snapshot : DB)
| Notified (user_id : Z) (title message type : string).

(** ** Sessions and handlers *)

Record World : Type := mkWorld {
  committed : DB;        (* what the database holds *)
  working : DB;          (* the session's view: loaded rows with their edits *)
  pending : list Obj;    (* objects given to db.add, not yet flushed *)
  trace : list Event
}.

Definition M (A : Type) : Type := World -> Res A * World.

Definition ret {A : Type} (a : A) : M A := fun w => (Ok a, w).

Definition raise {A : Type} (e : exn) : M A := fun w => (Raise e, w).

Definition bind {A B : Type} (m : M A) (k : A -> M B) : M B :=
  fun w =>
    match m w with
    | (Ok a, w') => k a w'
    | (Raise e, w') => (Raise e, w')
    end.

(** [try: m except Exception as e: h e] *)
Definition try_except {A : Type} (m : M A) (h : exn -> M A) : M A :=
  fun w =>
    match m w with
    | (Ok a, w') => (Ok a, w')
    | (Raise e, w') => h e w'
    end.

Declare Scope py_scope.
Delimit Scope py_scope with py.
Notation "x <- m ;; k" := (bind m (fun x => k))
  (at level 61, m at next level, right associativity) : py_scope.
Notation "m ;; k" := (bind m (fun _ => k))
  (at level 61, right associativity) : py_scope.
Local Open Scope py_scope.

Definition emit (ev : Event) : M unit :=
  fun w => (Ok tt, mkWorld (committed w) (working w) (pending w) (trace w ++ [ev])).

(** Name lookup: a name that is neither local nor bound at module scope
    raises [NameError]. *)
Definition load_name (scope : list string) (name : string) : M unit :=
  if existsb (String.eqb name) scope then ret tt else raise (NameError name).

(** [db.query(Model).filter(p).first()] *)
Definition query_first {A : Type} (scope : list string) (model : string)
    (tbl : DB -> list A) (p : A -> bool) : M (option A) :=
  load_name scope model ;;
  fun w => (Ok (find p (tbl (working w))), w).

(** [db.add(obj)] *)
Definition db_add (o : Obj) : M unit :=
  fun w => (Ok tt, mkWorld (committed w) (working w) (pending w ++ [o]) (trace w)).

(** Attribute assignment on a loaded [Watch]: the session tracks the edit. *)
Definition db_set_watch (watch : Watch.t) : M unit :=
  fun w => (Ok tt, mkWorld (committed w)
                     (set_watches (update Watch.id (Watch.id watch) watch
                                     (watches (working w))) (working w))
                     (pending w) (trace w)).

(** The present state of a loaded [Watch] object, edits included. *)
Definition loaded_watch (k : option Z) : M (option Watch.t) :=
  fun w => (Ok (find (fun r => match k with
                               | Some z => opt_Z_eqb (Watch.id r) z
                               | None => false
                               end) (watches (working w))), w).

(** Attribute assignment on a loaded [User]. *)
Definition db_set_user (user : User.t) : M unit :=
  fun w => (Ok tt, mkWorld (committed w)
                     (set_users (update User.id (User.id user) user
                                   (users (working w))) (working w))
                     (pending w) (trace w)).

(** [db.commit()]: edits and pending inserts reach the database together. *)
Definition db_commit : M unit :=
  fun w =>
    let db' := fold_left insert_obj (pending w) (working w) in
    (Ok tt, mkWorld db' db' [] (trace w ++ [Committed db'])).

(** The row a just-committed object stands for: the last of its table. *)
Definition refreshed {A : Type} (tbl : DB -> list A) : M (option A) :=
  fun w => (Ok (last (map Some (tbl (committed w))) None), w).

(** A request runs in a session of its own; when the handler is done the
    session is closed and what was not committed is dropped. *)
Definition run {A : Type} (h : M A) (db : DB) : Res A * DB * list Event :=
  match h (mkWorld db db [] []) with
  | (r, w) => (r, committed w, trace w)
  end.

Definition result_of {A : Type} (x : Res A * DB * list Event) : Res A := fst (fst x).
Definition db_of {A : Type} (x : Res A * DB * list Event) : DB := snd (fst x).
Definition trace_of {A : Type} (x : Res A * DB * list Event) : list Event := snd x.

(** ** [app/auth.py] *)

(** The decoded token: [sub] holds [int(current_user["sub"])]. *)
Record Payload : Type := mkPayload {
  sub : Z;
  token_email : string;
  token_role : string
}.

(** [require_role(required_roles)] applied to a decoded token. *)
Definition require_role (required_roles : list string) (payload : Payload) : M Payload :=
  if existsb (String.eqb (token_role payload)) required_roles
  then ret payload
  else raise (HTTPException 403 "Permissão negada").

(** ** [app/routers/watches.py] *)

(** Request bodies ([app/schemas.py]). *)
Module WatchCreate.
Record t : Type := mk {
  serial_number : string;
  brand : string;
  model : string;
  year : option Z;
  condition : option string;
  description : option string;
  purchase_price_brl : option float;
  current_value_brl : option float
}.
End WatchCreate.

Module PurchasePayload.
Record t : Type := mk {
  payment_method : string;
  installments : option Z;
  card_number : option string;
  card_name : option string;
  card_expiry : option string;
  card_cvv : option string;
  cpf : option string
}.
End PurchasePayload.

(** The body returned by a completed purchase. *)
Module PurchaseResponse.
Record t : Type := mk {
  message : string;
  transfer_id : option Z;
  payment_hash : string;
  nft_transfer_hash : string;
  price_brl : float;
  payment_method : string;
  installments : Z;
  payment_fees : list (string * float);
  buyer_id : option Z;
  buyer_name : string;
  seller_id : option Z;
  seller_name : string;
  watch_id : option Z;
  watch_brand : string;
  watch_model : string
}.
End PurchaseResponse.

(** The names bound at module scope: lines 2-13 of the file, the router and
    the handlers themselves. *)
Definition watches_globals : list string :=
  [ "os"; "APIRouter"; "Depends"; "UploadFile"; "File"; "Form"; "HTTPException";
    "JSONResponse"; "Session"; "List";
    "WatchCreate"; "WatchOut"; "MarketplaceListing"; "PurchasePayload";
    "OwnershipTransferOut"; "StoreOut";
    "require_role"; "get_db";
    "Watch"; "User"; "OwnershipTransfer"; "Notification"; "Commission"; "Store";
    "create_nft_asset"; "transfer_nft"; "get_nft_history";
    "simulate_payment_conversion";
    "create_notification"; "uuid4"; "router";
    "create_watch"; "tokenize_watch"; "create_watch_with_image"; "list_watches";
    "list_watches_for_sale"; "my_watches"; "marketplace_watches"; "get_watch";
    "list_for_sale"; "purchase_watch"; "watch_history"; "watch_blockchain_history";
    "put_watch_for_sale"; "get_store_info"; "store_sales_history" ].

(** Modelled from the spec: [create_notification] of
    [app/routers/notifications.py], which is not among the sources. The
    notification emitter records a message for a user, fire-and-forget; no
    return value is consumed by the workflow. *)
Definition create_notification (user_id : Z) (title message type : string) : M unit :=
  emit (Notified user_id title message type).

Definition the_id (o : option Z) : Z :=
  match o with Some k => k | None => 0 end.

Section Watches.

Variable env : Adapters.

(** The adapter calls, recorded in the trace. *)
Definition call_payment (amount : float) (method : string) (installments : Z)
  : M PaymentResult.t :=
  let out := simulate_payment_conversion env amount method installments in
  emit (PaymentCall amount method installments out) ;;
  match out with
  | Ok r => ret r
  | Raise e => raise e
  end.

Definition call_transfer (asset_code from_secret to_public : string)
  : M TransferResult.t :=
  let out := transfer_nft env asset_code from_secret to_public in
  emit (TransferCall asset_code from_secret to_public out) ;;
  match out with
  | Ok r => ret r
  | Raise e => raise e
  end.

Definition call_create_nft (watch_id : option Z) (brand model serial_number : string)
    (receiver_public : option string) : M NftResult.t :=
  let out := create_nft_asset env watch_id brand model serial_number receiver_public in
  emit (NftCall watch_id brand model serial_number receiver_public out) ;;
  match out with
  | Ok r => ret r
  | Raise e => raise e
  end.

(** [POST /watches/], lines 17-92. The import of [Evaluator] and [Store] on
    line 43 makes both names local to this function, bound only once the
    evaluator branch has run. *)
Definition create_watch (watch : WatchCreate.t) (current_user : Payload)
  : M (option Watch.t) :=
  existing_watch <- query_first watches_globals "Watch" watches
    (fun w => (Watch.serial_number w =? WatchCreate.serial_number watch)%string) ;;
  match existing_watch with
  | Some _ => raise (HTTPException 400 "Número de série já cadastrado")
  | None =>
    let user_role := token_role current_user in
    let initial_status :=
      if (user_role =? "admin")%string then "registered"
      else if (user_role =? "evaluator")%string then "for_sale"
      else "registered" in
    let locals := (["Evaluator"; "Store"] ++ watches_globals)%list in
    linked <-
      (if (user_role =? "evaluator")%string then
         evaluator <- query_first locals "Evaluator" evaluators
           (fun e => Evaluator.user_id e =? sub current_user) ;;
         match evaluator with
         | Some ev =>
             match Evaluator.store_id ev with
             | Some sid =>
                 if sid =? 0 then ret (None, sub current_user)
                 else
                   store <- query_first locals "Store" stores
                     (fun s => opt_Z_eqb (Store.id s) sid) ;;
                   match store with
                   | Some s => ret (Some sid, Store.user_id s)
                   | None => ret (Some sid, sub current_user)
                   end
             | None => ret (None, sub current_user)
             end
         | None => ret (None, sub current_user)
         end
       else ret (None, sub current_user)) ;;
    let evaluator_store_id : option Z := fst linked in
    let owner_user_id : Z := snd linked in
    (if (user_role =? "store")%string
     then raise (PyError "UnboundLocalError" "Store")
     else ret tt) ;;
    let db_watch :=
      Watch.mk None (WatchCreate.serial_number watch) (WatchCreate.brand watch)
        (WatchCreate.model watch) (WatchCreate.year watch)
        (WatchCreate.condition watch) (WatchCreate.description watch)
        (WatchCreate.purchase_price_brl watch) (WatchCreate.current_value_brl watch)
        owner_user_id initial_status evaluator_store_id None None None None in
    db_add (ObjWatch db_watch) ;;
    db_commit ;;
    db_watch <- refreshed watches ;;
    let notification_message :=
      if (user_role =? "evaluator")%string
      then "Relógio " ++ WatchCreate.brand watch ++ " " ++ WatchCreate.model watch
           ++ " avaliado. Use /watches/"
           ++ str_opt_int (match db_watch with Some w => Watch.id w | None => None end)
           ++ "/tokenize para tokenizar"
      else "Relógio " ++ WatchCreate.brand watch ++ " " ++ WatchCreate.model watch
           ++ " registrado com sucesso" in
    create_notification (sub current_user) "Relógio Registrado"
      notification_message "info" ;;
    ret db_watch
  end.

(** [POST /watches/{watch_id}/tokenize], lines 94-173. *)
Definition tokenize_watch (watch_id : Z) (current_user : Payload) : M Watch.t :=
  watch <- query_first watches_globals "Watch" watches
    (fun w => opt_Z_eqb (Watch.id w) watch_id) ;;
  match watch with
  | None => raise (HTTPException 404 "Relógio não encontrado")
  | Some watch =>
    evaluator <- query_first watches_globals "Evaluator" evaluators
      (fun e => Evaluator.user_id e =? sub current_user) ;;
    match evaluator with
    | None => raise (HTTPException 403 "Usuário não é um avaliador credenciado")
    | Some _ =>
      if (Watch.status watch =? "tokenized")%string
      then raise (HTTPException 400 "Relógio já foi tokenizado")
      else if negb (existsb (String.eqb (Watch.status watch)) ["evaluated"; "registered"])
      then raise (HTTPException 400 "Relógio deve estar avaliado para ser tokenizado")
      else
        user <- query_first watches_globals "User" users
          (fun u => opt_Z_eqb (User.id u) (sub current_user)) ;;
        user <- match user with
                | Some u =>
                    if negb (truthy_str (User.stellar_public_key u)) then
                      let u' := User.with_stellar_public_key
                                  (Some (MARKETPLACE_KEYPAIR_PUBLIC env)) u in
                      db_set_user u' ;; db_commit ;; ret (Some u')
                    else ret (Some u)
                | None => ret None
                end ;;
        try_except
          (receiver_public <-
             match user with
             | Some u => ret (User.stellar_public_key u)
             | None => raise (PyError "AttributeError" "stellar_public_key")
             end ;;
           nft_result <- call_create_nft (Watch.id watch) (Watch.brand watch)
             (Watch.model watch) (Watch.serial_number watch) receiver_public ;;
           if (NftResult.status nft_result =? "success")%string then
             let watch' :=
               Watch.with_status "tokenized"
                 (Watch.with_nft (Some (NftResult.asset_code nft_result))
                    (Some (NftResult.issuer nft_result))
                    (Some (match NftResult.blockchain_address nft_result with
                           | Some a => a
                           | None => NftResult.issuer nft_result
                           end)) watch) in
             db_set_watch watch' ;;
             tokenization_fee <-
               match Watch.current_value_brl watch' with
               | Some v => ret (PrimFloat.mul v 0.001%float)
               | None => raise (PyError "TypeError" "unsupported operand type(s) for *")
               end ;;
             db_commit ;;
             create_notification (sub current_user) "Relógio Tokenizado"
               ("NFT criado: " ++ Watch.brand watch' ++ " " ++ Watch.model watch'
                ++ " tokenizado na Stellar blockchain. Fee: R$ "
                ++ fmt_2f env tokenization_fee) "success" ;;
             ret watch'
           else
             db_set_watch (Watch.with_status "nft_error" watch) ;;
             db_commit ;;
             raise (HTTPException 500 "Falha na tokenização NFT"))
          (fun e =>
             current <- loaded_watch (Watch.id watch) ;;
             db_set_watch (Watch.with_status "nft_failed"
                             (match current with Some c => c | None => watch end)) ;;
             db_commit ;;
             raise (HTTPException 500 ("Erro na tokenização: " ++ py_str env e)))
    end
  end.

(** [POST /watches/{watch_id}/list-for-sale], lines 311-335. *)
Definition list_for_sale (watch_id : Z) (listing_price_brl : float)
    (current_user : Payload) : M (string * float) :=
  user <- query_first watches_globals "User" users
    (fun u => opt_Z_eqb (User.id u) (sub current_user)) ;;
  match user with
  | None => raise (PyError "AttributeError" "role")
  | Some user =>
    if negb (User.role user =? "store")%string
    then raise (HTTPException 403 "Apenas lojas podem listar relógios para venda direta")
    else
      watch <- query_first watches_globals "Watch" watches
        (fun w => opt_Z_eqb (Watch.id w) watch_id
                  && (Watch.current_owner_user_id w =? sub current_user)) ;;
      match watch with
      | None =>
          raise (HTTPException 404 "Relógio não encontrado ou você não é o proprietário")
      | Some watch =>
          db_set_watch (Watch.with_status "for_sale" watch) ;;
          db_commit ;;
          ret ("Relógio listado para venda pela loja", listing_price_brl)
      end
  end.

(** The first purchase handler, lines 337-471, in the order of its own
    section comments: payment, token transfer, ledger update, notifications. *)

(** Lines 366-373: validation by payment method. *)
Definition validate_payment (purchase : PurchasePayload.t) : M unit :=
  if (PurchasePayload.payment_method purchase =? "credit_card")%string then
    if negb (all_truthy [PurchasePayload.card_number purchase;
                         PurchasePayload.card_name purchase;
                         PurchasePayload.card_expiry purchase;
                         PurchasePayload.card_cvv purchase])
    then raise (HTTPException 400 "Dados do cartão incompletos")
    else if negb (truthy_str (PurchasePayload.cpf purchase))
    then raise (HTTPException 400 "CPF é obrigatório para pagamento com cartão")
    else ret tt
  else if (PurchasePayload.payment_method purchase =? "pix")%string then
    if negb (truthy_str (PurchasePayload.cpf purchase))
    then raise (HTTPException 400 "CPF é obrigatório para PIX")
    else ret tt
  else ret tt.

(** Lines 362-378: the [try] block around validation and the payment
    adapter; whatever is raised inside comes out as a 500. *)
Definition process_payment (price_brl : float) (purchase : PurchasePayload.t)
  : M (Z * PaymentResult.t) :=
  try_except
    (let installments := int_or (PurchasePayload.installments purchase) 1 in
     validate_payment purchase ;;
     payment_result <- call_payment price_brl
       (PurchasePayload.payment_method purchase) installments ;;
     ret (installments, payment_result))
    (fun e =>
       raise (HTTPException 500
                ("Erro na simulação de pagamento: " ++ py_str env e))).

(** Lines 396-399: the result put in place of a transfer that raised. *)
Definition simulated_transfer (watch : Watch.t) (current_user : Payload)
  : TransferResult.t :=
  TransferResult.mk "success"
    ("simulated_transfer_" ++ str_opt_int (Watch.id watch) ++ "_"
     ++ str_int (sub current_user)).

(** Lines 388-399: the token transfer and its fallback. *)
Definition transfer_token (watch : Watch.t) (seller buyer : User.t)
    (current_user : Payload) : M TransferResult.t :=
  try_except
    (call_transfer
       (str_or (Watch.nft_code watch) ("NFT" ++ str_opt_int (Watch.id watch)))
       (str_or (User.stellar_secret seller) "SIMULATED_SECRET")
       (str_or (User.stellar_public_key buyer) "SIMULATED_PUBLIC"))
    (fun e => ret (simulated_transfer watch current_user)).

(** Lines 402-428: the transfer row, the new owner and status, the
    commission row, and the commit. Returns the edited watch. *)
Definition record_sale (watch : Watch.t) (current_user : Payload)
    (price_brl : float) (transfer_result : TransferResult.t) : M Watch.t :=
  let transfer :=
    OwnershipTransfer.mk None (Watch.id watch)
      (Watch.current_owner_user_id watch) (sub current_user)
      (TransferResult.tx_hash transfer_result) "sale" price_brl
      (PrimFloat.mul price_brl 0.03%float) in
  db_add (ObjTransfer transfer) ;;
  let watch' :=
    Watch.with_status "sold"
      (Watch.with_current_owner_user_id (sub current_user) watch) in
  db_set_watch watch' ;;
  let commission :=
    Commission.mk None (OwnershipTransfer.id transfer) "sale" 1
      (PrimFloat.mul price_brl 0.03%float)
      ("Comissão da venda do relógio " ++ Watch.brand watch' ++ " "
       ++ Watch.model watch') in
  db_add (ObjCommission commission) ;;
  db_commit ;;
  ret watch'.

(** Lines 430-445: one notification to each party. *)
Definition notify_sale (watch : Watch.t) (seller buyer : User.t)
    (price_brl : float) : M unit :=
  create_notification (the_id (User.id seller)) "Relógio Vendido"
    ("Seu relógio " ++ Watch.brand watch ++ " " ++ Watch.model watch
     ++ " foi vendido por R$ " ++ fmt_c2f env price_brl) "success" ;;
  create_notification (the_id (User.id buyer)) "Compra Realizada"
    ("Você comprou o relógio " ++ Watch.brand watch ++ " "
     ++ Watch.model watch ++ " por R$ " ++ fmt_c2f env price_brl) "success".

(** Line 471: what is raised when no branch above has returned. *)
Definition falha_no_pagamento {A : Type} : M A :=
  raise (HTTPException 400 "Falha no pagamento").

(** [POST /watches/{watch_id}/purchase], first definition, lines 337-471. *)
Definition purchase_watch (watch_id : Z) (purchase : PurchasePayload.t)
    (current_user : Payload) : M PurchaseResponse.t :=
  watch <- query_first watches_globals "Watch" watches
    (fun w => opt_Z_eqb (Watch.id w) watch_id && (Watch.status w =? "for_sale")%string) ;;
  match watch with
  | None => raise (HTTPException 404 "Relógio não disponível para venda")
  | Some watch =>
    owner <- query_first watches_globals "User" users
      (fun u => opt_Z_eqb (User.id u) (Watch.current_owner_user_id watch)) ;;
    if match owner with
       | None => true
       | Some owner => negb (User.role owner =? "store")%string
       end
    then raise (HTTPException 400 "Usuários só podem comprar relógios de lojas credenciadas")
    else if Watch.current_owner_user_id watch =? sub current_user
    then raise (HTTPException 400 "Você não pode comprar seu próprio relógio")
    else
      let price_brl := float_or (Watch.current_value_brl watch) 50000%float in
      paid <- process_payment price_brl purchase ;;
      let installments : Z := fst paid in
      let payment_result : PaymentResult.t := snd paid in
      if (PaymentResult.status payment_result =? "success")%string then
        buyer <- query_first watches_globals "User" users
          (fun u => opt_Z_eqb (User.id u) (sub current_user)) ;;
        seller <- query_first watches_globals "User" users
          (fun u => opt_Z_eqb (User.id u) (Watch.current_owner_user_id watch)) ;;
        match buyer, seller with
        | Some buyer, Some seller =>
          transfer_result <- transfer_token watch seller buyer current_user ;;
          if (TransferResult.status transfer_result =? "success")%string then
            watch' <- record_sale watch current_user price_brl transfer_result ;;
            notify_sale watch' seller buyer price_brl ;;
            transfer <- refreshed transfers ;;
            ret (PurchaseResponse.mk "Compra realizada com sucesso"
                   (match transfer with
                    | Some x => OwnershipTransfer.id x
                    | None => None
                    end)
                   (PaymentResult.tx_hash payment_result)
                   (TransferResult.tx_hash transfer_result)
                   price_brl (PurchasePayload.payment_method purchase) installments
                   (PaymentResult.fees payment_result)
                   (User.id buyer) (User.full_name buyer)
                   (User.id seller) (User.full_name seller)
                   (Watch.id watch') (Watch.brand watch') (Watch.model watch'))
          else falha_no_pagamento
        | _, _ => raise (HTTPException 404 "Usuário não encontrado")
        end
      else falha_no_pagamento
  end.

(** The body of [POST /watches/{watch_id}/sell] is an untyped JSON object
    ([sale_data: dict]), of which the handler reads the entry under
    ["price_brl"]: the key can be missing, carry [null], or carry a number.
    An entry of another JSON type (a string, a list, ...) is written to the
    column as it is, and what the column makes of it is decided by the
    database driver, not by this file; such bodies are not represented. *)
Inductive SaleData : Type :=
| NoPrice
| PriceNull
| PriceNumber (price_brl : float).

(** [sale_data.get("price_brl", default)]: the default is taken only when the
    key is missing; a [null] entry is returned as [None]. *)
Definition sale_data_get_price (sale_data : SaleData) (default : option float)
  : option float :=
  match sale_data with
  | NoPrice => default
  | PriceNull => None
  | PriceNumber x => Some x
  end.

(** [POST /watches/{watch_id}/sell], lines 494-535. *)
Definition put_watch_for_sale (watch_id : Z) (sale_data : SaleData)
    (current_user : Payload) : M (option Z * option float) :=
  let user_role := token_role current_user in
  watch <-
    (if (user_role =? "store")%string then
       store <- query_first ("Store" :: watches_globals) "Store" stores
         (fun s => Store.user_id s =? sub current_user) ;;
       match store with
       | None => raise (HTTPException 404 "Loja não encontrada")
       | Some store =>
           query_first watches_globals "Watch" watches
             (fun w => opt_Z_eqb (Watch.id w) watch_id
                       && match Watch.store_id w, Store.id store with
                          | Some a, Some b => a =? b
                          | _, _ => false
                          end)
       end
     else
       query_first watches_globals "Watch" watches
         (fun w => opt_Z_eqb (Watch.id w) watch_id)) ;;
  match watch with
  | None => raise (HTTPException 404 "Relógio não encontrado ou não autorizado")
  | Some watch =>
      let watch' :=
        Watch.with_price_brl
          (sale_data_get_price sale_data (Watch.current_value_brl watch))
          (Watch.with_status "for_sale" watch) in
      db_set_watch watch' ;;
      db_commit ;;
      ret (Watch.id watch', Watch.price_brl watch')
  end.

(** [POST /watches/{watch_id}/purchase], second definition, lines 537-577.
    The file defines [purchase_watch] twice on the same route; this is the
    function the module name is bound to once the file is loaded, and the
    one no request reaches (see [Request]). *)
Definition purchase_watch' (watch_id : Z) (current_user : Payload)
  : M (option Z * option float * Z) :=
  watch <- query_first watches_globals "Watch" watches
    (fun w => opt_Z_eqb (Watch.id w) watch_id && (Watch.status w =? "for_sale")%string) ;;
  match watch with
  | None => raise (HTTPException 404 "Relógio não encontrado ou não disponível")
  | Some watch =>
      let escrow :=
        Escrow.mk None (Some watch_id) (Some (sub current_user))
          (Some (Watch.current_owner_user_id watch)) (Watch.price_brl watch)
          "pending" false false in
      db_add (ObjEscrow escrow) ;;
      db_commit ;;
      escrow <- refreshed escrows ;;
      db_set_watch (Watch.with_status "sold" watch) ;;
      db_commit ;;
      ret (match escrow with Some e => Escrow.id e | None => None end,
           Watch.price_brl watch, watch_id)
  end.

End Watches.

(** ** [app/routers/auth.py] *)

Module UserCreate.
Record t : Type := mk {
  full_name : string;
  email : string;
  password : string;
  role : string
}.
End UserCreate.

Definition auth_globals : list string :=
  [ "APIRouter"; "Depends"; "HTTPException"; "status"; "OAuth2PasswordRequestForm";
    "Session"; "UserCreate"; "LoginPayload"; "UserOut"; "UserProfile";
    "get_password_hash"; "verify_password"; "create_access_token"; "require_role";
    "get_db"; "User"; "Store"; "Keypair"; "router";
    "register"; "login"; "get_current_user"; "get_user_profile" ].

(** [POST /auth/register], lines 12-35. The salted hash of the password and
    the random Stellar key pair are what the libraries drew for this call. *)
Definition register (user : UserCreate.t) (hashed public_key secret : string)
  : M (option User.t) :=
  existing <- query_first auth_globals "User" users
    (fun u => (User.email u =? UserCreate.email user)%string) ;;
  match existing with
  | Some _ => raise (HTTPException 400 "Email já cadastrado")
  | None =>
      let db_user :=
        User.mk None (UserCreate.full_name user) (UserCreate.email user) hashed
          (UserCreate.role user) (Some public_key) (Some secret) in
      db_add (ObjUser db_user) ;;
      db_commit ;;
      refreshed users
  end.

(** [login] puts the stored identity in the token, lines 50-52. *)
Definition token_of (user : User.t) : Payload :=
  mkPayload (the_id (User.id user)) (User.email user) (User.role user).

(** ** [app/routers/stellar_contracts.py]: escrow *)

Definition db_set_escrow (escrow : Escrow.t) : M unit :=
  fun w => (Ok tt, mkWorld (committed w)
                     (set_escrows (update Escrow.id (Escrow.id escrow) escrow
                                     (escrows (working w))) (working w))
                     (pending w) (trace w)).

(** Modelled from the spec: [confirm_delivery] of the escrow contract in
    [app/stellar_contracts.py], which is not among the sources (only its
    caller is). The spec gives the escrow the states pending, released and
    disputed, a seller-confirmed and an evaluator-confirmed flag, and one
    transition: pending -> (seller_confirmed and evaluator_confirmed) ->
    released, with no transition out of released. A confirmation records
    the flag of the confirming party and releases a pending escrow once both
    flags are set. *)
Definition escrow_confirm_delivery (escrow_id : Z) (confirmer_type : string)
  : M string :=
  escrow <- (fun w => (Ok (find (fun e => opt_Z_eqb (Escrow.id e) escrow_id)
                             (escrows (working w))), w)) ;;
  match escrow with
  | None => raise (PyError "ValueError" "Escrow não encontrado")
  | Some escrow =>
      let confirmed :=
        if (confirmer_type =? "seller")%string
        then Escrow.with_seller_confirmed true escrow
        else if (confirmer_type =? "evaluator")%string
        then Escrow.with_evaluator_confirmed true escrow
        else escrow in
      let escrow' :=
        if (Escrow.status confirmed =? "pending")%string
           && Escrow.seller_confirmed confirmed
           && Escrow.evaluator_confirmed confirmed
        then Escrow.with_status "released" confirmed
        else confirmed in
      db_set_escrow escrow' ;;
      db_commit ;;
      ret (Escrow.status escrow')
  end.

(** [POST /stellar/escrow/{escrow_id}/confirm-delivery], lines 195-226.
    [current_user] is the database user behind the token. *)
Definition confirm_delivery (env : Adapters) (escrow_id : Z) (current_user : User.t)
  : M string :=
  try_except
    (confirmer_type <-
       (if (User.role current_user =? "user")%string then ret "seller"
        else if (User.role current_user =? "evaluator")%string then ret "evaluator"
        else raise (HTTPException 403
                      "Apenas vendedores e avaliadores podem confirmar entrega")) ;;
     escrow_confirm_delivery escrow_id confirmer_type)
    (fun e => raise (HTTPException 500 ("Erro na confirmação: " ++ py_str env e))).

(** ** The public operations

    A request names a route. [app/routers/watches.py] decorates two
    functions with [POST /watches/{watch_id}/purchase], lines 337 and 537;
    the router tries its routes in the order in which they were added, so
    every request for that route is handed to the first function and the
    second, [purchase_watch'], is served by no route. *)

Inductive Request : Type :=
| Register (user : UserCreate.t) (hashed public_key secret : string)
| CreateWatch (token : Payload) (watch : WatchCreate.t)
| TokenizeWatch (token : Payload) (watch_id : Z)
| ListForSale (token : Payload) (watch_id : Z) (price_brl : float)
| PurchaseWatch (token : Payload) (watch_id : Z) (purchase : PurchasePayload.t)
| PutWatchForSale (token : Payload) (watch_id : Z) (sale_data : SaleData)
| ConfirmDelivery (current_user : User.t) (escrow_id : Z).

(** The purchase and tokenize routes: the role gate, then the handler. *)
Definition post_purchase (env : Adapters) (token : Payload) (watch_id : Z)
    (purchase : PurchasePayload.t) : M PurchaseResponse.t :=
  current_user <- require_role ["user"] token ;;
  purchase_watch env watch_id purchase current_user.

Definition post_tokenize (env : Adapters) (token : Payload) (watch_id : Z)
  : M Watch.t :=
  current_user <- require_role ["evaluator"] token ;;
  tokenize_watch env watch_id current_user.

(** The database a request leaves behind. *)
Definition serve (env : Adapters) (req : Request) (db : DB) : DB :=
  match req with
  | Register user hashed pk sk =>
      db_of (run (register user hashed pk sk) db)
  | CreateWatch token watch =>
      db_of (run (cu <- require_role ["admin"; "evaluator"] token ;;
                  create_watch watch cu) db)
  | TokenizeWatch token watch_id =>
      db_of (run (post_tokenize env token watch_id) db)
  | ListForSale token watch_id price =>
      db_of (run (cu <- require_role ["store"] token ;;
                  list_for_sale watch_id price cu) db)
  | PurchaseWatch token watch_id purchase =>
      db_of (run (post_purchase env token watch_id purchase) db)
  | PutWatchForSale token watch_id sale_data =>
      db_of (run (cu <- require_role ["store"; "admin"] token ;;
                  put_watch_for_sale watch_id sale_data cu) db)
  | ConfirmDelivery current_user escrow_id =>
      db_of (run (confirm_delivery env escrow_id current_user) db)
  end.

(** The second [purchase_watch], called as a function behind the role gate
    its decorator names. *)
Definition shadowed_purchase (token : Payload) (watch_id : Z) (db : DB) : DB :=
  db_of (run (cu <- require_role ["user"] token ;; purchase_watch' watch_id cu) db).

(** The states the requests can produce from an empty database. *)
Inductive reachable (env : Adapters) : DB -> Prop :=
| reachable_empty : reachable env empty_db
| reachable_serve : forall db req,
    reachable env db -> reachable env (serve env req db).

(** ** Vocabulary of the properties *)

(** The row the purchase handlers look for. *)
Definition watch_for_sale (db : DB) (watch_id : Z) : option Watch.t :=
  find (fun w => opt_Z_eqb (Watch.id w) watch_id && (Watch.status w =? "for_sale")%string)
       (watches db).

Definition watch_by_id (db : DB) (watch_id : Z) : option Watch.t :=
  find (fun w => opt_Z_eqb (Watch.id w) watch_id) (watches db).

Definition user_by_id (db : DB) (user_id : Z) : option User.t :=
  find (fun u => opt_Z_eqb (User.id u) user_id) (users db).

Definition escrow_by_id (db : DB) (escrow_id : Z) : option Escrow.t :=
  find (fun e => opt_Z_eqb (Escrow.id e) escrow_id) (escrows db).

(** The price a purchase resolves, line 359. *)
Definition sale_price (watch : Watch.t) : float :=
  float_or (Watch.current_value_brl watch) 50000%float.

(** The platform rate of lines 410 and 423. *)
Definition platform_rate : float := 0.03%float.

(** The ownership transfers of type sale that reference a watch. *)
Definition sale_transfers_of (db : DB) (watch : Watch.t) : list OwnershipTransfer.t :=
  filter (fun x => match OwnershipTransfer.watch_id x, Watch.id watch with
                   | Some a, Some b => a =? b
                   | _, _ => false
                   end && (OwnershipTransfer.type x =? "sale")%string)
         (transfers db).

(** The ledger invariant of the spec: a sold watch is referenced by exactly
    one ownership transfer of type sale. *)
Definition sold_has_one_sale_transfer (db : DB) : Prop :=
  forall w, In w (watches db) -> Watch.status w = "sold" ->
            List.length (sale_transfers_of db w) = 1%nat.

(** The database snapshots a request committed, in order. *)
Definition commits (tr : list Event) : list DB :=
  flat_map (fun ev => match ev with Committed s => [s] | _ => [] end) tr.

(** The error classes the spec names in its section 7. A handler surfaces
    an error as an HTTP status code, and the class is read off that code:
    404 (not found) for a missing entity, 403 (forbidden) for a broken role
    rule, 400 (bad request) for a malformed or refused request, 409
    (conflict) for a resource that is not in the expected state. *)
Inductive ErrorClass : Type :=
| NotFound | PolicyViolation | InvalidRequest | ConflictState | Unclassified.

Definition error_class (e : exn) : ErrorClass :=
  match e with
  | HTTPException 404 _ => NotFound
  | HTTPException 403 _ => PolicyViolation
  | HTTPException 400 _ => InvalidRequest
  | HTTPException 409 _ => ConflictState
  | _ => Unclassified
  end.

(** ** Sample data: the end-to-end scenario of the spec

    Watch 42 is for sale at 95000.00 and owned by store user 7; user 9 pays
    by pix with a tax id. *)

Definition store_7 : User.t :=
  User.mk (Some 7) "Loja Sete" "loja@example.com" "h7" "store"
    (Some "GSTORE") (Some "SSTORE").

Definition user_9 : User.t :=
  User.mk (Some 9) "Cliente Nove" "cliente@example.com" "h9" "user"
    (Some "GUSER") (Some "SUSER").

Definition watch_42 : Watch.t :=
  Watch.mk (Some 42) "SN-42" "Rolex" "Submariner" (Some 2020) (Some "excellent")
    None None (Some 95000%float) 7 "for_sale" None (Some "RLX42") (Some "GISSUER")
    None None.

Definition evaluator_3 : User.t :=
  User.mk (Some 3) "Avaliador Tres" "avaliador3@example.com" "h3" "evaluator"
    (Some "GEVAL3") (Some "SEVAL3").

Definition demo_db : DB :=
  mkDB [evaluator_3; store_7; user_9] [] [Evaluator.mk (Some 1) 3 None]
       [watch_42] [] [] [].

Definition token_9 : Payload := token_of user_9.
Definition token_3 : Payload := token_of evaluator_3.

Definition pix_purchase : PurchasePayload.t :=
  PurchasePayload.mk "pix" None None None None None (Some "12345678909").

(** [str(e)] in the sample environments; an [HTTPException] prints as its
    status code and its detail. *)
Definition demo_str (e : exn) : string :=
  match e with
  | HTTPException status_code detail => str_int status_code ++ ": " ++ detail
  | NameError name => "name '" ++ name ++ "' is not defined"
  | PyError _ msg => msg
  end.

(** Adapters that accept every call. *)
Definition demo_env : Adapters :=
  mkAdapters
    (fun _ _ _ => Ok (PaymentResult.mk "success" "pay_tx_1" []))
    (fun _ _ _ => Ok (TransferResult.mk "success" "nft_tx_1"))
    (fun _ _ _ _ _ => Ok (NftResult.mk "success" "RLX" "GISSUER" None))
    "GMARKETPLACE" demo_str (fun _ => "0.00") (fun _ => "0.00").

(** The payment adapter declines. *)
Definition declining_env : Adapters :=
  mkAdapters
    (fun _ _ _ => Ok (PaymentResult.mk "failed" "" []))
    (transfer_nft demo_env) (create_nft_asset demo_env)
    "GMARKETPLACE" demo_str (fun _ => "0.00") (fun _ => "0.00").

(** The blockchain adapter cannot be reached. *)
Definition unreachable_env : Adapters :=
  mkAdapters
    (simulate_payment_conversion demo_env)
    (fun _ _ _ => Raise (PyError "ConnectionError" "horizon unreachable"))
    (create_nft_asset demo_env)
    "GMARKETPLACE" demo_str (fun _ => "0.00") (fun _ => "0.00").

(** Watch 42 after it was tokenized. *)
Definition tokenized_db : DB :=
  set_watches [Watch.with_status "tokenized" watch_42] demo_db.

(** Watch 42 after it was sold. *)
Definition sold_db : DB :=
  set_watches [Watch.with_status "sold" watch_42] demo_db.


(** ** The runs of the first purchase handler *)

(** The trace predicates: what the adapters answered during a run. *)

(** The payment adapter returned a result whose status is success. *)
Definition payment_succeeded (tr : list Event) : bool :=
  existsb (fun ev => match ev with
                     | PaymentCall _ _ _ (Ok r) =>
                         (PaymentResult.status r =? "success")%string
                     | _ => false
                     end) tr.

(** The payment adapter returned a result whose status is not success. *)
Definition payment_declined (tr : list Event) : bool :=
  existsb (fun ev => match ev with
                     | PaymentCall _ _ _ (Ok r) =>
                         negb (PaymentResult.status r =? "success")%string
                     | _ => false
                     end) tr.

(** The token-transfer call raised. *)
Definition transfer_raised (tr : list Event) : bool :=
  existsb (fun ev => match ev with
                     | TransferCall _ _ _ (Raise _) => true
                     | _ => false
                     end) tr.

(** The token transfer resolved: the adapter returned success, or it raised
    and the handler went on with the simulated result. *)
Definition transfer_resolved (tr : list Event) : bool :=
  existsb (fun ev => match ev with
                     | TransferCall _ _ _ (Ok x) =>
                         (TransferResult.status x =? "success")%string
                     | TransferCall _ _ _ (Raise _) => true
                     | _ => false
                     end) tr.

Definition logged (ev : Event) (w : World) : World :=
  mkWorld (committed w) (working w) (pending w) (trace w ++ [ev]).

(** The database after the commit of line 428, for a sale of [watch] to
    [buyer] under the transaction reference [tx_hash]. *)
Definition after_sale (db : DB) (watch : Watch.t) (buyer : Z) (tx_hash : string) : DB :=
  mkDB (users db) (stores db) (evaluators db)
    (update Watch.id (Watch.id watch)
       (Watch.with_status "sold" (Watch.with_current_owner_user_id buyer watch))
       (watches db))
    (insert OwnershipTransfer.id OwnershipTransfer.with_id (transfers db)
       (OwnershipTransfer.mk None (Watch.id watch) (Watch.current_owner_user_id watch)
          buyer tx_hash "sale" (sale_price watch)
          (PrimFloat.mul (sale_price watch) platform_rate)))
    (insert Commission.id Commission.with_id (commissions db)
       (Commission.mk None None "sale" 1
          (PrimFloat.mul (sale_price watch) platform_rate)
          ("Comissão da venda do relógio " ++ Watch.brand watch ++ " "
           ++ Watch.model watch)))
    (escrows db).

(** What the handler checks before it attempts payment, lines 345-356. *)
Definition purchasable (db : DB) (watch_id : Z) (cu : Payload)
    (w : Watch.t) (o : User.t) : Prop :=
  watch_for_sale db watch_id = Some w
  /\ user_by_id db (Watch.current_owner_user_id w) = Some o
  /\ User.role o = "store"
  /\ Watch.current_owner_user_id w <> sub cu.

Section Paths.

Variable env : Adapters.

Definition payment_call (w : Watch.t) (p : PurchasePayload.t) : Event :=
  PaymentCall (sale_price w) (PurchasePayload.payment_method p)
    (int_or (PurchasePayload.installments p) 1)
    (simulate_payment_conversion env (sale_price w)
       (PurchasePayload.payment_method p)
       (int_or (PurchasePayload.installments p) 1)).

Definition transfer_call (w : Watch.t) (seller buyer : User.t) : Event :=
  TransferCall
    (str_or (Watch.nft_code w) ("NFT" ++ str_opt_int (Watch.id w)))
    (str_or (User.stellar_secret seller) "SIMULATED_SECRET")
    (str_or (User.stellar_public_key buyer) "SIMULATED_PUBLIC")
    (transfer_nft env
       (str_or (Watch.nft_code w) ("NFT" ++ str_opt_int (Watch.id w)))
       (str_or (User.stellar_secret seller) "SIMULATED_SECRET")
       (str_or (User.stellar_public_key buyer) "SIMULATED_PUBLIC")).

(** The value of [transfer_result] on line 401. *)
Definition transfer_outcome (w : Watch.t) (seller buyer : User.t) (cu : Payload)
  : TransferResult.t :=
  match transfer_nft env
          (str_or (Watch.nft_code w) ("NFT" ++ str_opt_int (Watch.id w)))
          (str_or (User.stellar_secret seller) "SIMULATED_SECRET")
          (str_or (User.stellar_public_key buyer) "SIMULATED_PUBLIC") with
  | Ok r => r
  | Raise _ => simulated_transfer w cu
  end.

(** The ways through [purchase_watch]: for each, the conditions under which
    it is taken and the result, database and trace it ends with.
    [purchase_watch_paths] shows that every run takes one of them. *)
Inductive purchase_path (db : DB) (watch_id : Z) (p : PurchasePayload.t)
    (cu : Payload) : Res PurchaseResponse.t * DB * list Event -> Prop :=
| path_unavailable :
    watch_for_sale db watch_id = None ->
    purchase_path db watch_id p cu
      (Raise (HTTPException 404 "Relógio não disponível para venda"), db, [])
| path_not_a_store w :
    watch_for_sale db watch_id = Some w ->
    (forall o, user_by_id db (Watch.current_owner_user_id w) = Some o ->
               User.role o <> "store") ->
    purchase_path db watch_id p cu
      (Raise (HTTPException 400
                "Usuários só podem comprar relógios de lojas credenciadas"), db, [])
| path_own_watch w o :
    watch_for_sale db watch_id = Some w ->
    user_by_id db (Watch.current_owner_user_id w) = Some o ->
    User.role o = "store" ->
    Watch.current_owner_user_id w = sub cu ->
    purchase_path db watch_id p cu
      (Raise (HTTPException 400 "Você não pode comprar seu próprio relógio"), db, [])
| path_invalid_payment w o d :
    purchasable db watch_id cu w o ->
    purchase_path db watch_id p cu (Raise (HTTPException 500 d), db, [])
| path_payment_raised w o e d :
    purchasable db watch_id cu w o ->
    payment_call w p
    = PaymentCall (sale_price w) (PurchasePayload.payment_method p)
        (int_or (PurchasePayload.installments p) 1) (Raise e) ->
    purchase_path db watch_id p cu
      (Raise (HTTPException 500 d), db, [payment_call w p])
| path_payment_declined w o r :
    purchasable db watch_id cu w o ->
    payment_call w p
    = PaymentCall (sale_price w) (PurchasePayload.payment_method p)
        (int_or (PurchasePayload.installments p) 1) (Ok r) ->
    PaymentResult.status r <> "success" ->
    purchase_path db watch_id p cu
      (Raise (HTTPException 400 "Falha no pagamento"), db, [payment_call w p])
| path_buyer_missing w o r :
    purchasable db watch_id cu w o ->
    payment_call w p
    = PaymentCall (sale_price w) (PurchasePayload.payment_method p)
        (int_or (PurchasePayload.installments p) 1) (Ok r) ->
    PaymentResult.status r = "success" ->
    user_by_id db (sub cu) = None ->
    purchase_path db watch_id p cu
      (Raise (HTTPException 404 "Usuário não encontrado"), db, [payment_call w p])
| path_transfer_failed w o r b :
    purchasable db watch_id cu w o ->
    payment_call w p
    = PaymentCall (sale_price w) (PurchasePayload.payment_method p)
        (int_or (PurchasePayload.installments p) 1) (Ok r) ->
    PaymentResult.status r = "success" ->
    user_by_id db (sub cu) = Some b ->
    TransferResult.status (transfer_outcome w o b cu) <> "success" ->
    purchase_path db watch_id p cu
      (Raise (HTTPException 400 "Falha no pagamento"), db,
       [payment_call w p; transfer_call w o b])
| path_sold w o r b resp m1 m2 :
    purchasable db watch_id cu w o ->
    payment_call w p
    = PaymentCall (sale_price w) (PurchasePayload.payment_method p)
        (int_or (PurchasePayload.installments p) 1) (Ok r) ->
    PaymentResult.status r = "success" ->
    user_by_id db (sub cu) = Some b ->
    TransferResult.status (transfer_outcome w o b cu) = "success" ->
    PurchaseResponse.nft_transfer_hash resp
    = TransferResult.tx_hash (transfer_outcome w o b cu) ->
    purchase_path db watch_id p cu
      (Ok resp,
       after_sale db w (sub cu) (TransferResult.tx_hash (transfer_outcome w o b cu)),
       [payment_call w p; transfer_call w o b;
        Committed (after_sale db w (sub cu)
                     (TransferResult.tx_hash (transfer_outcome w o b cu)));
        Notified (the_id (User.id o)) "Relógio Vendido" m1 "success";
        Notified (the_id (User.id b)) "Compra Realizada" m2 "success"]).

End Paths.

(** ** A session of requests *)

Definition replay (env : Adapters) (reqs : list Request) (db : DB) : DB :=
  fold_left (fun d req => serve env req d) reqs db.

Definition evaluator_1 : UserCreate.t :=
  UserCreate.mk "Avaliador Um" "avaliador@example.com" "pw1" "evaluator".

Definition customer_2 : UserCreate.t :=
  UserCreate.mk "Cliente Dois" "cliente2@example.com" "pw2" "user".

Definition omega_watch : WatchCreate.t :=
  WatchCreate.mk "SN-1" "Omega" "Speedmaster" (Some 2019) (Some "good") None
    None (Some 40000%float).

(** An evaluator and a customer register; the evaluator enters a watch,
    which is for sale at once (lines 32-34) and owned by the evaluator. The
    tokens are the ones [login] issues to users 1 and 2. *)
Definition listing_session : list Request :=
  [ Register evaluator_1 "h1" "GEVAL" "SEVAL";
    Register customer_2 "h2" "GCUST" "SCUST";
    CreateWatch (mkPayload 1 "avaliador@example.com" "evaluator") omega_watch ].

Definition token_customer_2 : Payload := mkPayload 2 "cliente2@example.com" "user".

(** An escrow the seller has confirmed and the evaluator has not. *)
Definition escrow_5 : Escrow.t :=
  Escrow.mk (Some 5) (Some 42) (Some 9) (Some 7) (Some 95000%float)
    "pending" true false.

Definition escrow_db : DB := set_escrows [escrow_5] demo_db.

(** Watch 42 listed again while customer 9 owns it. *)
Definition relisted_db : DB :=
  set_watches [Watch.with_current_owner_user_id 9 watch_42] demo_db.

(** ** The remaining routes

    Read routes of [app/routers/watches.py], login of
    [app/routers/auth.py], and the store and evaluator administration of
    [app/routers/admin.py]. *)

(** [db.query(Model).filter(p).all()] *)
Definition query_all {A : Type} (scope : list string) (model : string)
    (tbl : DB -> list A) (p : A -> bool) : M (list A) :=
  load_name scope model ;;
  fun w => (Ok (filter p (tbl (working w))), w).

(** [Watch.status.in_(["tokenized", "evaluated"])] *)
Definition ready_for_sale (w : Watch.t) : bool :=
  existsb (String.eqb (Watch.status w)) ["tokenized"; "evaluated"].

(** [GET /watches/], lines 250-255. *)
Definition list_watches : M (list Watch.t) :=
  query_all watches_globals "Watch" watches (fun _ => true).

(** [GET /watches/available-for-sale], lines 257-280. *)
Definition list_watches_for_sale (current_user : Payload) : M (list Watch.t) :=
  let user_role := token_role current_user in
  if (user_role =? "store")%string then
    store <- query_first ("Store" :: watches_globals) "Store" stores
      (fun s => Store.user_id s =? sub current_user) ;;
    match store with
    | None => raise (HTTPException 404 "Loja não encontrada")
    | Some store =>
        query_all watches_globals "Watch" watches
          (fun w => match Watch.store_id w, Store.id store with
                    | Some a, Some b => a =? b
                    | _, _ => false
                    end && ready_for_sale w)
    end
  else
    query_all watches_globals "Watch" watches ready_for_sale.

(** [GET /watches/my], lines 282-287. *)
Definition my_watches (current_user : Payload) : M (list Watch.t) :=
  query_all watches_globals "Watch" watches
    (fun w => Watch.current_owner_user_id w =? sub current_user).

(** [GET /watches/marketplace], lines 289-297. *)
Definition marketplace_watches : M (list Watch.t) :=
  query_all watches_globals "Watch" watches
    (fun w => (Watch.status w =? "for_sale")%string).

(** [GET /watches/{watch_id}], lines 299-309. *)
Definition get_watch (watch_id : Z) : M Watch.t :=
  watch <- query_first watches_globals "Watch" watches
    (fun w => opt_Z_eqb (Watch.id w) watch_id) ;;
  match watch with
  | None => raise (HTTPException 404 "Relógio não encontrado")
  | Some watch => ret watch
  end.

(** [GET /watches/{watch_id}/history], lines 473-480. *)
Definition watch_history (watch_id : Z) : M (list OwnershipTransfer.t) :=
  query_all watches_globals "OwnershipTransfer" transfers
    (fun x => opt_Z_eqb (OwnershipTransfer.watch_id x) watch_id).

(** [POST /auth/login], lines 37-58. [verify_password] is the library check
    of a password against a stored hash; the returned token is given by its
    decoded content and the [WWW-Authenticate] header of the 401 is left
    out. *)
Definition login (verify_password : string -> string -> bool)
    (username password : string) : M (Payload * User.t) :=
  user <- query_first auth_globals "User" users
    (fun u => (User.email u =? username)%string) ;;
  match user with
  | None => raise (HTTPException 401 "Credenciais inválidas")
  | Some user =>
      if negb (verify_password password (User.password_hash user))
      then raise (HTTPException 401 "Credenciais inválidas")
      else ret (token_of user, user)
  end.

(** [GET /auth/me], lines 60-65. *)
Definition get_current_user (current_user : Payload) : M User.t :=
  user <- query_first auth_globals "User" users
    (fun u => opt_Z_eqb (User.id u) (sub current_user)) ;;
  match user with
  | None => raise (HTTPException 404 "Usuário não encontrado")
  | Some user => ret user
  end.

(** [app/routers/admin.py]: names bound at module scope, lines 1-10. *)
Definition admin_globals : list string :=
  [ "APIRouter"; "Depends"; "HTTPException"; "Session"; "func"; "List";
    "StoreCreate"; "StoreOut"; "EvaluatorCreate"; "EvaluatorOut"; "AdminDashboard";
    "OwnershipTransferOut"; "require_role"; "get_db";
    "Store"; "Evaluator"; "User"; "Commission"; "ResellOffer"; "Watch";
    "OwnershipTransfer"; "router";
    "create_store"; "list_stores"; "create_evaluator"; "list_evaluators";
    "admin_dashboard"; "detailed_dashboard"; "toggle_store_credential";
    "list_transfers"; "list_all_users" ].

Module StoreCreate.
Record t : Type := mk {
  user_id : Z;
  name : string;
  commission_rate : float
}.
End StoreCreate.

Module EvaluatorCreate.
Record t : Type := mk {
  user_id : Z;
  store_id : Z
}.
End EvaluatorCreate.

Definition set_stores (ss : list Store.t) (db : DB) : DB :=
  mkDB (users db) ss (evaluators db) (watches db)
       (transfers db) (commissions db) (escrows db).

(** Attribute assignment on a loaded [Store]. *)
Definition db_set_store (store : Store.t) : M unit :=
  fun w => (Ok tt, mkWorld (committed w)
                     (set_stores (update Store.id (Store.id store) store
                                    (stores (working w))) (working w))
                     (pending w) (trace w)).

(** [POST /admin/stores], lines 12-39. *)
Definition create_store (store : StoreCreate.t) : M (option Store.t) :=
  user <- query_first admin_globals "User" users
    (fun u => opt_Z_eqb (User.id u) (StoreCreate.user_id store)
              && (User.role u =? "store")%string) ;;
  match user with
  | None => raise (HTTPException 404 "Usuário não encontrado ou não é uma loja")
  | Some _ =>
      existing_store <- query_first admin_globals "Store" stores
        (fun s => Store.user_id s =? StoreCreate.user_id store) ;;
      match existing_store with
      | Some _ => raise (HTTPException 400 "Usuário já possui uma loja cadastrada")
      | None =>
          let db_store :=
            Store.mk None (StoreCreate.user_id store) (StoreCreate.name store)
              (StoreCreate.commission_rate store) true in
          db_add (ObjStore db_store) ;;
          db_commit ;;
          refreshed stores
      end
  end.

(** [POST /admin/evaluators], lines 64-86. *)
Definition create_evaluator (evaluator : EvaluatorCreate.t)
  : M (option Evaluator.t) :=
  user <- query_first admin_globals "User" users
    (fun u => opt_Z_eqb (User.id u) (EvaluatorCreate.user_id evaluator)
              && (User.role u =? "evaluator")%string) ;;
  match user with
  | None => raise (HTTPException 404 "Usuário não encontrado ou não é um avaliador")
  | Some _ =>
      store <- query_first admin_globals "Store" stores
        (fun s => opt_Z_eqb (Store.id s) (EvaluatorCreate.store_id evaluator)) ;;
      match store with
      | None => raise (HTTPException 404 "Loja não encontrada")
      | Some _ =>
          let db_evaluator :=
            Evaluator.mk None (EvaluatorCreate.user_id evaluator)
              (Some (EvaluatorCreate.store_id evaluator)) in
          db_add (ObjEvaluator db_evaluator) ;;
          db_commit ;;
          refreshed evaluators
      end
  end.

(** [PATCH /admin/stores/{store_id}/credential], lines 326-339. *)
Definition toggle_store_credential (store_id : Z) : M string :=
  store <- query_first admin_globals "Store" stores
    (fun s => opt_Z_eqb (Store.id s) store_id) ;;
  match store with
  | None => raise (HTTPException 404 "Loja não encontrada")
  | Some store =>
      let store' :=
        Store.mk (Store.id store) (Store.user_id store) (Store.name store)
          (Store.commission_rate store) (negb (Store.credentialed store)) in
      db_set_store store' ;;
      db_commit ;;
      ret ("Loja " ++ (if Store.credentialed store' then "credenciada"
                       else "descredenciada") ++ " com sucesso")
  end.

(** ** Derived vocabulary for the remaining routes *)

(** The store link [create_watch] resolves for its caller, lines 38-50: the
    store to file the watch under and the user who will own it. *)
Definition evaluator_link (db : DB) (current_user : Payload) : option Z * Z :=
  if (token_role current_user =? "evaluator")%string then
    match find (fun e => Evaluator.user_id e =? sub current_user) (evaluators db) with
    | Some ev =>
        match Evaluator.store_id ev with
        | Some sid =>
            if sid =? 0 then (None, sub current_user)
            else match find (fun s => opt_Z_eqb (Store.id s) sid) (stores db) with
                 | Some s => (Some sid, Store.user_id s)
                 | None => (Some sid, sub current_user)
                 end
        | None => (None, sub current_user)
        end
    | None => (None, sub current_user)
    end
  else (None, sub current_user).

(** The initial status of lines 29-36. *)
Definition initial_status (current_user : Payload) : string :=
  if (token_role current_user =? "admin")%string then "registered"
  else if (token_role current_user =? "evaluator")%string then "for_sale"
  else "registered".

(** The object [create_watch] hands to the session, lines 60-72. *)
Definition new_watch (db : DB) (watch : WatchCreate.t) (current_user : Payload)
  : Watch.t :=
  Watch.mk None (WatchCreate.serial_number watch) (WatchCreate.brand watch)
    (WatchCreate.model watch) (WatchCreate.year watch)
    (WatchCreate.condition watch) (WatchCreate.description watch)
    (WatchCreate.purchase_price_brl watch) (WatchCreate.current_value_brl watch)
    (snd (evaluator_link db current_user)) (initial_status current_user)
    (fst (evaluator_link db current_user)) None None None None.

Definition watch_by_serial (db : DB) (serial_number : string) : option Watch.t :=
  find (fun w => (Watch.serial_number w =? serial_number)%string) (watches db).

Definition user_by_email (db : DB) (email : string) : option User.t :=
  find (fun u => (User.email u =? email)%string) (users db).

Definition store_of_user (db : DB) (user_id : Z) : option Store.t :=
  find (fun s => Store.user_id s =? user_id) (stores db).

Definition store_by_id (db : DB) (store_id : Z) : option Store.t :=
  find (fun s => opt_Z_eqb (Store.id s) store_id) (stores db).

Definition evaluator_of_user (db : DB) (user_id : Z) : option Evaluator.t :=
  find (fun e => Evaluator.user_id e =? user_id) (evaluators db).

(** The rows [GET /watches/marketplace] selects. *)
Definition listed (db : DB) : list Watch.t :=
  filter (fun w => (Watch.status w =? "for_sale")%string) (watches db).

(** The payment adapter raised. *)
Definition payment_raised (tr : list Event) : bool :=
  existsb (fun ev => match ev with
                     | PaymentCall _ _ _ (Raise _) => true
                     | _ => false
                     end) tr.

(** The token-transfer adapter returned a result whose status is not
    success. *)
Definition transfer_refused (tr : list Event) : bool :=
  existsb (fun ev => match ev with
                     | TransferCall _ _ _ (Ok x) =>
                         negb (TransferResult.status x =? "success")%string
                     | _ => false
                     end) tr.

(** A store with its credential flag flipped, line 336. *)
Definition toggled (s : Store.t) : Store.t :=
  Store.mk (Store.id s) (Store.user_id s) (Store.name s)
    (Store.commission_rate s) (negb (Store.credentialed s)).

(** The body of the 500 that the purchase handler makes of a validation
    error, line 378. *)
Definition payment_error_500 (env : Adapters) (detail : string) : exn :=
  HTTPException 500
    ("Erro na simulação de pagamento: " ++ py_str env (HTTPException 400 detail)).

(** The escrow the second purchase handler opens, lines 555-561. *)
Definition new_escrow (watch_id : Z) (watch : Watch.t) (current_user : Payload)
  : Escrow.t :=
  Escrow.mk None (Some watch_id) (Some (sub current_user))
    (Some (Watch.current_owner_user_id watch)) (Watch.price_brl watch)
    "pending" false false.

(** The watch as [put_watch_for_sale] leaves it, lines 524-525. *)
Definition put_up (sale_data : SaleData) (watch : Watch.t) : Watch.t :=
  Watch.with_price_brl
    (sale_data_get_price sale_data (Watch.current_value_brl watch))
    (Watch.with_status "for_sale" watch).

(** The rows [GET /watches/{watch_id}/history] selects. *)
Definition history_of (db : DB) (watch_id : Z) : list OwnershipTransfer.t :=
  filter (fun x => opt_Z_eqb (OwnershipTransfer.watch_id x) watch_id) (transfers db).

(** ** The administration requests

    The store and evaluator routes of [app/routers/admin.py], each behind
    [require_role(["admin"])]. *)
Inductive AdminRequest : Type :=
| CreateStore (token : Payload) (store : StoreCreate.t)
| CreateEvaluator (token : Payload) (evaluator : EvaluatorCreate.t)
| ToggleStoreCredential (token : Payload) (store_id : Z).

Definition serve_admin (req : AdminRequest) (db : DB) : DB :=
  match req with
  | CreateStore token store =>
      db_of (run (_ <- require_role ["admin"] token ;; create_store store) db)
  | CreateEvaluator token evaluator =>
      db_of (run (_ <- require_role ["admin"] token ;; create_evaluator evaluator) db)
  | ToggleStoreCredential token store_id =>
      db_of (run (_ <- require_role ["admin"] token ;;
                  toggle_store_credential store_id) db)
  end.

(** The states that the requests of [serve] and [serve_admin] produce from
    an empty database, together with the second [purchase_watch]. What holds
    in all of them holds whichever of the two functions on the purchase route
    a router hands the requests to. *)
Inductive reachable_all (env : Adapters) : DB -> Prop :=
| reachable_all_empty : reachable_all env empty_db
| reachable_all_serve : forall db req,
    reachable_all env db -> reachable_all env (serve env req db)
| reachable_all_admin : forall db req,
    reachable_all env db -> reachable_all env (serve_admin req db)
| reachable_all_shadowed : forall db token watch_id,
    reachable_all env db -> reachable_all env (shadowed_purchase token watch_id db).

(** ** Tokens

    A token reaches a handler decoded, after [decode_token] of [app/auth.py]
    has checked its signature; the only code that signs one is [login],
    lines 50-52 of [app/routers/auth.py]. A token is issued in a state when
    some login in that state returns it. *)
Definition issued (verify_password : string -> string -> bool) (db : DB)
    (token : Payload) : Prop :=
  exists username password user,
    result_of (run (login verify_password username password) db) = Ok (token, user).

(** The request carries a token that [login] issued. [register] takes no
    token; [confirm_delivery] receives the user found for its token, of
    which nothing is asked here. *)
Definition authentic (verify_password : string -> string -> bool) (db : DB)
    (req : Request) : Prop :=
  match req with
  | Register _ _ _ _ => True
  | CreateWatch token _ => issued verify_password db token
  | TokenizeWatch token _ => issued verify_password db token
  | ListForSale token _ _ => issued verify_password db token
  | PurchaseWatch token _ _ => issued verify_password db token
  | PutWatchForSale token _ _ => issued verify_password db token
  | ConfirmDelivery _ _ => True
  end.

Definition admin_token (req : AdminRequest) : Payload :=
  match req with
  | CreateStore token _ => token
  | CreateEvaluator token _ => token
  | ToggleStoreCredential token _ => token
  end.

(** The states reachable through the routes, from an empty database, by
    requests whose tokens were issued by [login]. *)
Inductive reachable_public (env : Adapters)
    (verify_password : string -> string -> bool) : DB -> Prop :=
| public_empty : reachable_public env verify_password empty_db
| public_serve : forall db req,
    reachable_public env verify_password db ->
    authentic verify_password db req ->
    reachable_public env verify_password (serve env req db)
| public_admin : forall db req,
    reachable_public env verify_password db ->
    issued verify_password db (admin_token req) ->
    reachable_public env verify_password (serve_admin req db).

(** ** What a request can do to the database

    Every operation leaves the database as it was or changes it in one of
    these ways; [serve_effect], [serve_admin_effect] and
    [shadowed_purchase_effect] show it. [buyer_ok] is what is known of the
    user row of a buyer, and [shadowed] whether the second [purchase_watch]
    runs. *)
Section Effects.

Variable buyer_ok : User.t -> Prop.
Variable shadowed : Prop.

Inductive db_effect (db : DB) : DB -> Prop :=
| effect_none : db_effect db db
| effect_user u0 :
    user_by_email db (User.email u0) = None ->
    db_effect db (insert_obj db (ObjUser u0))
| effect_watch w0 :
    watch_by_serial db (Watch.serial_number w0) = None ->
    Watch.status w0 = "registered" \/ Watch.status w0 = "for_sale" ->
    db_effect db (insert_obj db (ObjWatch w0))
| effect_status w w' k :
    In w (watches db) ->
    Watch.id w = Some k ->
    Watch.id w' = Some k ->
    Watch.serial_number w' = Watch.serial_number w ->
    Watch.current_owner_user_id w' = Watch.current_owner_user_id w ->
    Watch.status w' = "for_sale" ->
    db_effect db (set_watches (update Watch.id (Some k) w' (watches db)) db)
| effect_sale w o b buyer tx_hash k :
    watch_for_sale db k = Some w ->
    user_by_id db (Watch.current_owner_user_id w) = Some o ->
    User.role o = "store" ->
    Watch.current_owner_user_id w <> buyer ->
    user_by_id db buyer = Some b ->
    buyer_ok b ->
    db_effect db (after_sale db w buyer tx_hash)
| effect_escrow_sale w e0 k :
    shadowed ->
    In w (watches db) ->
    Watch.id w = Some k ->
    db_effect db
      (set_watches (update Watch.id (Some k) (Watch.with_status "sold" w) (watches db))
         (insert_obj db (ObjEscrow e0)))
| effect_escrow e' k :
    Escrow.id e' = Some k ->
    db_effect db (set_escrows (update Escrow.id (Some k) e' (escrows db)) db)
| effect_store s0 u :
    store_of_user db (Store.user_id s0) = None ->
    In u (users db) ->
    User.id u = Some (Store.user_id s0) ->
    User.role u = "store" ->
    db_effect db (insert_obj db (ObjStore s0))
| effect_evaluator e0 u s k :
    In u (users db) ->
    User.id u = Some (Evaluator.user_id e0) ->
    User.role u = "evaluator" ->
    Evaluator.store_id e0 = Some k ->
    store_by_id db k = Some s ->
    db_effect db (insert_obj db (ObjEvaluator e0))
| effect_store_update s s' k :
    In s (stores db) ->
    Store.id s = Some k ->
    Store.id s' = Some k ->
    Store.user_id s' = Store.user_id s ->
    db_effect db (set_stores (update Store.id (Some k) s' (stores db)) db).

End Effects.

(** Primary keys: set and pairwise different. *)
Definition keys_ok {A : Type} (id : A -> option Z) (l : list A) : Prop :=
  NoDup (map id l) /\ ~ In None (map id l).

Definition db_keys_ok (db : DB) : Prop :=
  keys_ok User.id (users db)
  /\ keys_ok Store.id (stores db)
  /\ keys_ok Evaluator.id (evaluators db)
  /\ keys_ok Watch.id (watches db)
  /\ keys_ok OwnershipTransfer.id (transfers db)
  /\ keys_ok Commission.id (commissions db)
  /\ keys_ok Escrow.id (escrows db).

(** The unique columns the handlers check by hand: serial numbers of
    watches, e-mails of users, the user of a store. *)
Definition db_unique_ok (db : DB) : Prop :=
  NoDup (map Watch.serial_number (watches db))
  /\ NoDup (map User.email (users db))
  /\ NoDup (map Store.user_id (stores db)).

(** The statuses a watch is ever given by the operations of [serve]. *)
Definition status_in_use (s : string) : Prop :=
  s = "registered" \/ s = "for_sale" \/ s = "sold".

(** The transfer and commission ledgers, row by row. *)
Definition sale_row_ok (x : OwnershipTransfer.t) : Prop :=
  OwnershipTransfer.type x = "sale"
  /\ OwnershipTransfer.from_user_id x <> OwnershipTransfer.to_user_id x
  /\ OwnershipTransfer.admin_fee_brl x
     = PrimFloat.mul (OwnershipTransfer.price_brl x) platform_rate.

Definition commission_row_ok (c : Commission.t) : Prop :=
  Commission.transaction_id c = None
  /\ Commission.transaction_type c = "sale"
  /\ Commission.recipient_user_id c = 1.

Definition ledger_ok (db : DB) : Prop :=
  map Commission.amount_brl (commissions db)
  = map OwnershipTransfer.admin_fee_brl (transfers db)
  /\ Forall sale_row_ok (transfers db)
  /\ Forall commission_row_ok (commissions db)
  /\ forall x, In x (transfers db) ->
               In (OwnershipTransfer.watch_id x) (map Watch.id (watches db)).

(** Once sold, a watch belongs to a customer: a watch that some sale
    transfer references is owned by a user row of role user. The first
    [purchase_watch] sells only what a store row owns (lines 349-352), so a
    watch under this guard is not sold a second time. *)
Definition resale_guard (db : DB) : Prop :=
  forall w, In w (watches db) -> sale_transfers_of db w <> [] ->
            exists o, user_by_id db (Watch.current_owner_user_id w) = Some o
                      /\ User.role o = "user".

(** The stored row under a key. *)
Definition user_row (db : DB) (user_id : Z) (u : User.t) : Prop :=
  In u (users db) /\ User.id u = Some user_id.

Definition store_row (db : DB) (store_id : Z) (s : Store.t) : Prop :=
  In s (stores db) /\ Store.id s = Some store_id.

(** The references between the tables that the handlers check by hand: a
    store belongs to a stored user of role store, an evaluator is a stored
    user of role evaluator attached to a stored store, and a transfer goes
    from a stored user of role store to a stored user. *)
Definition references_ok (db : DB) : Prop :=
  (forall s, In s (stores db) ->
             exists u, user_row db (Store.user_id s) u /\ User.role u = "store")
  /\ (forall e, In e (evaluators db) ->
                (exists u, user_row db (Evaluator.user_id e) u
                           /\ User.role u = "evaluator")
                /\ exists k s, Evaluator.store_id e = Some k /\ store_row db k s)
  /\ (forall x, In x (transfers db) ->
                (exists o, user_row db (OwnershipTransfer.from_user_id x) o
                           /\ User.role o = "store")
                /\ exists b, user_row db (OwnershipTransfer.to_user_id x) b).

(** ** More sample data *)

Definition store_row_1 : Store.t := Store.mk (Some 1) 7 "Loja Sete" 0.05%float true.

(** The sample database with store 1 of user 7 and evaluator 3 working for
    it. *)
Definition linked_db : DB :=
  mkDB [evaluator_3; store_7; user_9] [store_row_1] [Evaluator.mk (Some 1) 3 (Some 1)]
       [watch_42] [] [] [].

Definition token_admin : Payload := mkPayload 1 "admin@example.com" "admin".

Definition seiko_watch : WatchCreate.t :=
  WatchCreate.mk "SN-77" "Seiko" "Prospex" (Some 2021) (Some "good") None
    None (Some 8000%float).

(** Sample requests and databases for the remaining routes. *)
Definition duplicate_watch : WatchCreate.t :=
  WatchCreate.mk "SN-42" "Rolex" "Datejust" None None None None None.

(** The sample database without the evaluator record. *)
Definition unlinked_db : DB :=
  mkDB [evaluator_3; store_7; user_9] [] [] [watch_42] [] [] [].

(** The sample database with watch 42 filed under store 1, sold and owned by
    customer 9. *)
Definition filed_db : DB :=
  set_watches
    [Watch.mk (Some 42) "SN-42" "Rolex" "Submariner" (Some 2020) (Some "excellent")
       None None (Some 95000%float) 9 "sold" (Some 1) (Some "RLX42") (Some "GISSUER")
       None None]
    linked_db.

(** The sample database with watch 42 carrying no current value. *)
Definition unpriced_db : DB :=
  set_watches
    [Watch.mk (Some 42) "SN-42" "Rolex" "Submariner" (Some 2020) (Some "excellent")
       None None None 7 "for_sale" None (Some "RLX42") (Some "GISSUER") None None]
    demo_db.

Definition token_store_7 : Payload := token_of store_7.

Definition token_99 : Payload := mkPayload 99 "ghost@example.com" "user".

Definition pix_without_cpf : PurchasePayload.t :=
  PurchasePayload.mk "pix" None None None None None None.

Definition boleto_purchase : PurchasePayload.t :=
  PurchasePayload.mk "boleto" (Some 3) None None None None None.

(** A password check for the samples: the stored hash is the password behind
    a prefix. *)
Definition sample_verify (password hashed : string) : bool :=
  (hashed =? "h-" ++ password)%string.

(** The payment adapter raises. *)
Definition failing_payment_env : Adapters :=
  mkAdapters
    (fun _ _ _ => Raise (PyError "TimeoutError" "gateway timeout"))
    (transfer_nft demo_env) (create_nft_asset demo_env)
    "GMARKETPLACE" demo_str (fun _ => "0.00") (fun _ => "0.00").

(** The blockchain adapter answers with a failure. *)
Definition refusing_env : Adapters :=
  mkAdapters
    (simulate_payment_conversion demo_env)
    (fun _ _ _ => Ok (TransferResult.mk "failed" ""))
    (create_nft_asset demo_env)
    "GMARKETPLACE" demo_str (fun _ => "0.00") (fun _ => "0.00").

(** A whole sale with the tokens [login] issues: a store owner, an
    evaluator, a customer and an admin register (users 1 to 4); the admin
    opens store 1 for user 1 and attaches the evaluator to it; the evaluator
    enters a watch, which is for sale at once and owned by user 1; the
    customer buys it through the first purchase handler. *)
Definition owner_1 : UserCreate.t :=
  UserCreate.mk "Loja Um" "loja1@example.com" "pw1" "store".

Definition appraiser_2 : UserCreate.t :=
  UserCreate.mk "Avaliador Dois" "avaliador2@example.com" "pw2" "evaluator".

Definition customer_3 : UserCreate.t :=
  UserCreate.mk "Cliente Tres" "cliente3@example.com" "pw3" "user".

Definition admin_4 : UserCreate.t :=
  UserCreate.mk "Admin Quatro" "admin4@example.com" "pw4" "admin".

Definition token_admin_4 : Payload := mkPayload 4 "admin4@example.com" "admin".

Definition setup_session : list (Request + AdminRequest) :=
  [ inl (Register owner_1 "h1" "GOWN" "SOWN");
    inl (Register appraiser_2 "h2" "GAPP" "SAPP");
    inl (Register customer_3 "h3" "GCUS" "SCUS");
    inl (Register admin_4 "h4" "GADM" "SADM");
    inr (CreateStore token_admin_4 (StoreCreate.mk 1 "Loja Um" 0.05%float));
    inr (CreateEvaluator token_admin_4 (EvaluatorCreate.mk 2 1));
    inl (CreateWatch (mkPayload 2 "avaliador2@example.com" "evaluator") omega_watch);
    inl (PurchaseWatch (mkPayload 3 "cliente3@example.com" "user") 1 pix_purchase) ].

Definition replay_all (env : Adapters) (reqs : list (Request + AdminRequest))
    (db : DB) : DB :=
  fold_left (fun d req => match req with
                          | inl r => serve env r d
                          | inr a => serve_admin a d
                          end) reqs db.

(** Every request of a session carries a token that was issued in the state
    the request arrives in. *)
Fixpoint authentic_all (env : Adapters) (verify_password : string -> string -> bool)
    (reqs : list (Request + AdminRequest)) (db : DB) : Prop :=
  match reqs with
  | [] => True
  | inl r :: rest =>
      authentic verify_password db r
      /\ authentic_all env verify_password rest (serve env r db)
  | inr a :: rest =>
      issued verify_password db (admin_token a)
      /\ authentic_all env verify_password rest (serve_admin a db)
  end.

(** The watch of the sale session once the customer has bought it. *)
Definition sold_omega : Watch.t :=
  Watch.mk (Some 1) "SN-1" "Omega" "Speedmaster" (Some 2019) (Some "good") None None
    (Some 40000%float) 3 "sold" (Some 1) None None None None.

(** A session with a token that [login] does not issue: user 3 registers
    with role store and presents a token of role user. Users 1, 2 and 4 are
    those of the sale session, user 5 is a customer. *)
Definition rival_3 : UserCreate.t :=
  UserCreate.mk "Loja Tres" "loja3@example.com" "pw3" "store".

Definition customer_5 : UserCreate.t :=
  UserCreate.mk "Cliente Cinco" "cliente5@example.com" "pw5" "user".

Definition forged_session : list (Request + AdminRequest) :=
  [ inl (Register owner_1 "h1" "GOWN" "SOWN");
    inl (Register appraiser_2 "h2" "GAPP" "SAPP");
    inl (Register rival_3 "h3" "GRIV" "SRIV");
    inl (Register admin_4 "h4" "GADM" "SADM");
    inl (Register customer_5 "h5" "GCUS" "SCUS");
    inr (CreateStore token_admin_4 (StoreCreate.mk 1 "Loja Um" 0.05%float));
    inr (CreateEvaluator token_admin_4 (EvaluatorCreate.mk 2 1));
    inl (CreateWatch (mkPayload 2 "avaliador2@example.com" "evaluator") omega_watch);
    inl (PurchaseWatch (mkPayload 3 "loja3@example.com" "user") 1 pix_purchase);
    inl (PutWatchForSale token_admin_4 1 NoPrice);
    inl (PurchaseWatch (mkPayload 5 "cliente5@example.com" "user") 1 pix_purchase) ].

(** The password check of the sale session, whose hashes are h1 to h4 for
    the passwords pw1 to pw4. *)
Definition session_verify (password hashed : string) : bool :=
  (hashed =? "h" ++ String.substring 2 1 password)%string.

(** ** Proof tactics *)

(** Reads the trace predicates off the trace of a path. *)
Ltac read_trace H :=
  unfold payment_declined, payment_succeeded, transfer_raised, transfer_resolved,
    trace_of in H;
  cbn [snd fst existsb] in H;
  repeat match goal with
         | E : payment_call _ _ _ = PaymentCall _ _ _ _ |- _ =>
             rewrite E in H; clear E
         | E : PaymentResult.status _ = "success" |- _ => rewrite E in H
         | E : PaymentResult.status _ <> "success" |- _ =>
             rewrite (proj2 (String.eqb_neq _ _) E) in H
         end;
  cbn in H.

(** Case analysis on the path a run has taken. *)
Ltac by_path Hpath :=
  destruct Hpath as
    [ Hnone
    | w0 Hw0 Hnostore
    | w0 o0 Hw0 Ho0 Hrole0 Hown
    | w0 o0 d0 Hp
    | w0 o0 e0 d0 Hp Hcall
    | w0 o0 r0 Hp Hcall Hstatus
    | w0 o0 r0 Hp Hcall Hstatus Hbuyer
    | w0 o0 r0 b0 Hp Hcall Hstatus Hbuyer Hrefused
    | w0 o0 r0 b0 resp0 m1 m2 Hp Hcall Hstatus Hbuyer Hdone Hresp ].

(** * Properties *)

(** ** Tables *)

Lemma string_eqb_false (a b : string) : (a =? b)%string = false -> a <> b.
Proof. intros H E. apply String.eqb_eq in E. congruence. Qed.

Lemma opt_Z_eqb_true (o : option Z) (k : Z) : opt_Z_eqb o k = true -> o = Some k.
Proof.
  destruct o as [z|]; cbn; [|discriminate].
  intros H. apply Z.eqb_eq in H. congruence.
Qed.

Lemma opt_Z_eqb_refl (k : Z) : opt_Z_eqb (Some k) k = true.
Proof. cbn. apply Z.eqb_refl. Qed.

(** A row found by primary key carries that key. *)
Lemma find_by_id_key {A : Type} (id : A -> option Z) (k : Z) (l : list A) (r : A) :
  find (fun x => opt_Z_eqb (id x) k) l = Some r -> id r = Some k.
Proof.
  intros H. apply find_some in H. apply opt_Z_eqb_true. apply H.
Qed.

(** After UPDATE ... WHERE id = k, the lookup by [k] gives the new row,
    provided some row had that key. *)
Lemma find_update_hit {A : Type} (id : A -> option Z) (k : Z) (row : A) (l : list A) :
  id row = Some k ->
  (exists r, In r l /\ id r = Some k) ->
  find (fun x => opt_Z_eqb (id x) k) (update id (Some k) row l) = Some row.
Proof.
  intros Hrow. induction l as [|a l IH]; intros (r & Hin & Hr).
  - destruct Hin.
  - cbn [update map find]. destruct (opt_Z_eqb (id a) k) eqn:Ha.
    + rewrite Hrow, opt_Z_eqb_refl. reflexivity.
    + rewrite Ha. apply IH. destruct Hin as [-> | Hin].
      * rewrite Hr, opt_Z_eqb_refl in Ha. discriminate.
      * exists r. split; assumption.
Qed.

(** The watch a purchase looks for is a row with the requested key. *)
Lemma watch_for_sale_row (db : DB) (watch_id : Z) (w : Watch.t) :
  watch_for_sale db watch_id = Some w ->
  In w (watches db) /\ Watch.id w = Some watch_id /\ Watch.status w = "for_sale".
Proof.
  intros H. apply find_some in H. destruct H as [Hin H].
  apply andb_true_iff in H. destruct H as [Hid Hst].
  split; [exact Hin|]. split.
  - apply opt_Z_eqb_true. exact Hid.
  - apply String.eqb_eq. exact Hst.
Qed.

(** ** Sessions *)

Lemma query_first_run {A : Type} (scope : list string) (name : string)
    (tbl : DB -> list A) (p : A -> bool) (w : World) :
  existsb (String.eqb name) scope = true ->
  query_first scope name tbl p w = (Ok (find p (tbl (working w))), w).
Proof.
  intros H. unfold query_first, load_name, bind. rewrite H. reflexivity.
Qed.

Lemma query_first_unbound {A : Type} (scope : list string) (name : string)
    (tbl : DB -> list A) (p : A -> bool) (w : World) :
  existsb (String.eqb name) scope = false ->
  query_first scope name tbl p w = (Raise (NameError name), w).
Proof.
  intros H. unfold query_first, load_name, bind. rewrite H. reflexivity.
Qed.

(** The role gate lets a token through unchanged or raises 403; it touches
    nothing. *)
Lemma require_role_run (roles : list string) (token : Payload) (w : World) :
  require_role roles token w
  = if existsb (String.eqb (token_role token)) roles
    then (Ok token, w)
    else (Raise (HTTPException 403 "Permissão negada"), w).
Proof.
  unfold require_role. destruct (existsb _ roles); reflexivity.
Qed.

(** ** The phases of the first purchase handler *)

Section PurchasePhases.

Variable env : Adapters.

Lemma validate_payment_cases (p : PurchasePayload.t) (w : World) :
  validate_payment p w = (Ok tt, w)
  \/ exists d, validate_payment p w = (Raise (HTTPException 400 d), w).
Proof.
  unfold validate_payment.
  repeat match goal with
         | |- context [if ?c then _ else _] => destruct c
         end; cbv [raise ret];
    first [left; reflexivity | right; eexists; reflexivity].
Qed.

Lemma process_payment_cases (price : float) (p : PurchasePayload.t) (w : World) :
  let method := PurchasePayload.payment_method p in
  let n := int_or (PurchasePayload.installments p) 1 in
  let out := simulate_payment_conversion env price method n in
  (exists d, process_payment env price p w = (Raise (HTTPException 500 d), w))
  \/ (exists e d, out = Raise e /\
        process_payment env price p w
        = (Raise (HTTPException 500 d), logged (PaymentCall price method n out) w))
  \/ (exists r, out = Ok r /\
        process_payment env price p w
        = (Ok (n, r), logged (PaymentCall price method n out) w)).
Proof.
  intros method n out. unfold process_payment, try_except, bind.
  destruct (validate_payment_cases p w) as [-> | [d ->]].
  - unfold call_payment, bind, emit. fold method n out.
    destruct out as [r | e] eqn:Hout.
    + right. right. exists r. split; reflexivity.
    + right. left. eexists e, _. split; reflexivity.
  - left. eexists. reflexivity.
Qed.

(** The token transfer never raises: a failed call is replaced. *)
Lemma transfer_token_run (watch : Watch.t) (seller buyer : User.t)
    (cu : Payload) (w : World) :
  transfer_token env watch seller buyer cu w
  = (Ok (transfer_outcome env watch seller buyer cu),
     logged (transfer_call env watch seller buyer) w).
Proof.
  unfold transfer_token, try_except, call_transfer, bind, emit,
    transfer_outcome, transfer_call, logged.
  destruct (transfer_nft env _ _ _); reflexivity.
Qed.

(** The ledger update is one commit. *)
Lemma record_sale_run (watch : Watch.t) (cu : Payload) (x : TransferResult.t)
    (db : DB) (tr : list Event) :
  let db' := after_sale db watch (sub cu) (TransferResult.tx_hash x) in
  record_sale watch cu (sale_price watch) x (mkWorld db db [] tr)
  = (Ok (Watch.with_status "sold" (Watch.with_current_owner_user_id (sub cu) watch)),
     mkWorld db' db' [] (tr ++ [Committed db'])).
Proof. reflexivity. Qed.

(** Every run of [purchase_watch] takes one of the listed paths. *)
Lemma purchase_watch_paths (db : DB) (watch_id : Z) (p : PurchasePayload.t)
    (cu : Payload) :
  purchase_path env db watch_id p cu (run (purchase_watch env watch_id p cu) db).
Proof.
  unfold run, purchase_watch, bind.
  rewrite query_first_run by reflexivity. cbn [working].
  destruct (find _ (watches db)) as [w|] eqn:Hw.
  2:{ cbn [raise committed trace]. apply path_unavailable. exact Hw. }
  rewrite query_first_run by reflexivity. cbn [working].
  destruct (find _ (users db)) as [o|] eqn:Ho.
  2:{ cbn [raise committed trace]. apply path_not_a_store with w; [exact Hw|].
      unfold user_by_id. rewrite Ho. discriminate. }
  destruct (User.role o =? "store")%string eqn:Hr; cbn [negb].
  2:{ cbn [raise committed trace]. apply path_not_a_store with w; [exact Hw|].
      unfold user_by_id. rewrite Ho. intros o' [= <-].
      apply string_eqb_false. exact Hr. }
  apply String.eqb_eq in Hr.
  destruct (Watch.current_owner_user_id w =? sub cu) eqn:Hs.
  { cbn [raise committed trace]. apply Z.eqb_eq in Hs.
    eapply path_own_watch; eauto. }
  apply Z.eqb_neq in Hs.
  assert (Hp : purchasable db watch_id cu w o) by (repeat split; assumption).
  fold (sale_price w).
  destruct (process_payment_cases (sale_price w) p (mkWorld db db [] []))
    as [[d ->] | [(e & d & Hout & ->) | (r & Hout & ->)]].
  - cbn [committed trace]. eapply path_invalid_payment; eauto.
  - cbn. eapply path_payment_raised; eauto.
    unfold payment_call. rewrite Hout. reflexivity.
  - assert (Hcall : payment_call env w p
      = PaymentCall (sale_price w) (PurchasePayload.payment_method p)
          (int_or (PurchasePayload.installments p) 1) (Ok r))
      by (unfold payment_call; rewrite Hout; reflexivity).
    cbn [fst snd].
    destruct (PaymentResult.status r =? "success")%string eqn:Hst.
    2:{ cbn. fold (payment_call env w p). eapply path_payment_declined; eauto.
        apply string_eqb_false. exact Hst. }
    apply String.eqb_eq in Hst.
    rewrite query_first_run by reflexivity. cbn [working logged].
    rewrite query_first_run by reflexivity. cbn [working logged].
    rewrite Ho.
    destruct (find (fun u => opt_Z_eqb (User.id u) (sub cu)) (users db))
      as [b|] eqn:Hb.
    2:{ cbn. fold (payment_call env w p). eapply path_buyer_missing; eauto. }
    rewrite transfer_token_run.
    destruct (TransferResult.status (transfer_outcome env w o b cu) =? "success")%string
      eqn:Hx.
    2:{ cbn. fold (payment_call env w p).
        eapply path_transfer_failed; eauto. apply string_eqb_false. exact Hx. }
    apply String.eqb_eq in Hx.
    unfold logged. cbn [committed working pending trace app].
    rewrite record_sale_run.
    cbn. fold (payment_call env w p).
    eapply path_sold; eauto.
Qed.

End PurchasePhases.

(** ** The purchase claims *)

Section PurchaseClaims.

Variable env : Adapters.

(** C2. When the payment adapter returns a status other than success, the
    purchase fails with the payment-failed error (400, "Falha no pagamento")
    and changes nothing: the database is the one it started from, nothing
    was committed, the watch is still the same for-sale row with the same
    owner, and no transfer or commission row was inserted. *)
Theorem purchase_payment_declined (db : DB) (watch_id : Z)
    (p : PurchasePayload.t) (cu : Payload) :
  payment_declined (trace_of (run (purchase_watch env watch_id p cu) db)) = true ->
  result_of (run (purchase_watch env watch_id p cu) db)
  = Raise (HTTPException 400 "Falha no pagamento")
  /\ db_of (run (purchase_watch env watch_id p cu) db) = db
  /\ commits (trace_of (run (purchase_watch env watch_id p cu) db)) = []
  /\ (exists w,
        watch_for_sale db watch_id = Some w
        /\ watch_for_sale (db_of (run (purchase_watch env watch_id p cu) db)) watch_id
           = Some w
        /\ Watch.status w = "for_sale")
  /\ transfers (db_of (run (purchase_watch env watch_id p cu) db)) = transfers db
  /\ commissions (db_of (run (purchase_watch env watch_id p cu) db)) = commissions db.
Proof.
  pose proof (purchase_watch_paths env db watch_id p cu) as Hpath.
  remember (run (purchase_watch env watch_id p cu) db) as r eqn:Hr. clear Hr.
  intros Hd.
  by_path Hpath; try (read_trace Hd; discriminate).
  (* what is left is the path on which the adapter declined *)
  unfold result_of, db_of, trace_of, commits. cbn [fst snd flat_map app].
  destruct Hp as (Hw & _).
  repeat split; try reflexivity.
  exists w0. repeat split; try assumption.
  apply watch_for_sale_row in Hw. apply Hw.
Qed.


(** The watch of a completed sale, looked up again. *)
Lemma after_sale_watch (db : DB) (watch_id : Z) (w : Watch.t) (buyer : Z)
    (tx_hash : string) :
  watch_for_sale db watch_id = Some w ->
  watch_by_id (after_sale db w buyer tx_hash) watch_id
  = Some (Watch.with_status "sold" (Watch.with_current_owner_user_id buyer w)).
Proof.
  intros Hw. apply watch_for_sale_row in Hw. destruct Hw as (Hin & Hid & _).
  unfold watch_by_id, after_sale. cbn [watches]. rewrite Hid.
  apply find_update_hit.
  - exact Hid.
  - exists w. split; assumption.
Qed.

(** On the paths that stop after a failed transfer the adapter had answered,
    and not with success. *)
Lemma failed_transfer_not_resolved (w : Watch.t) (o b : User.t) (cu : Payload)
    (ev : Event) :
  TransferResult.status (transfer_outcome env w o b cu) <> "success" ->
  transfer_resolved [ev; transfer_call env w o b]
  = transfer_resolved [ev] /\ transfer_raised [ev; transfer_call env w o b]
  = transfer_raised [ev].
Proof.
  unfold transfer_outcome, transfer_call, transfer_resolved, transfer_raised.
  cbn [existsb]. destruct (transfer_nft env _ _ _) as [x|e]; cbn [simulated_transfer TransferResult.status].
  - intros H. rewrite (proj2 (String.eqb_neq _ _) H). rewrite !orb_false_r. split; reflexivity.
  - intros H. exfalso. apply H. reflexivity.
Qed.

(** C1. When the watch exists and is for sale, its owner has role store, the
    buyer is not the owner, the payment adapter reported success and the
    token transfer resolved, the purchase inserts one OwnershipTransfer row
    of type sale with the resolved price and an admin fee of price times the
    0.03 platform rate, makes the buyer the owner of the watch and its status
    sold, and inserts one Commission row whose amount is that fee; the
    request commits once, and that commit holds all of it. *)
Theorem purchase_records_sale (db : DB) (watch_id : Z) (p : PurchasePayload.t)
    (cu : Payload) (w : Watch.t) (o : User.t) :
  watch_for_sale db watch_id = Some w ->
  user_by_id db (Watch.current_owner_user_id w) = Some o ->
  User.role o = "store" ->
  Watch.current_owner_user_id w <> sub cu ->
  payment_succeeded (trace_of (run (purchase_watch env watch_id p cu) db)) = true ->
  transfer_resolved (trace_of (run (purchase_watch env watch_id p cu) db)) = true ->
  exists t c w',
    transfers (db_of (run (purchase_watch env watch_id p cu) db)) = (transfers db ++ [t])%list
    /\ OwnershipTransfer.type t = "sale"
    /\ OwnershipTransfer.watch_id t = Some watch_id
    /\ OwnershipTransfer.from_user_id t = Watch.current_owner_user_id w
    /\ OwnershipTransfer.to_user_id t = sub cu
    /\ OwnershipTransfer.price_brl t = sale_price w
    /\ OwnershipTransfer.admin_fee_brl t = PrimFloat.mul (sale_price w) platform_rate
    /\ commissions (db_of (run (purchase_watch env watch_id p cu) db))
       = (commissions db ++ [c])%list
    /\ Commission.amount_brl c = OwnershipTransfer.admin_fee_brl t
    /\ watch_by_id (db_of (run (purchase_watch env watch_id p cu) db)) watch_id = Some w'
    /\ Watch.current_owner_user_id w' = sub cu
    /\ Watch.status w' = "sold"
    /\ commits (trace_of (run (purchase_watch env watch_id p cu) db))
       = [db_of (run (purchase_watch env watch_id p cu) db)].
Proof.
  intros Hw Ho Hrole Hself.
  pose proof (purchase_watch_paths env db watch_id p cu) as Hpath.
  remember (run (purchase_watch env watch_id p cu) db) as r eqn:Hr. clear Hr.
  intros Hpay Hres.
  by_path Hpath; try (read_trace Hpay; discriminate).
  - (* the transfer was refused *)
    unfold trace_of in Hres. cbn [snd] in Hres.
    rewrite (proj1 (failed_transfer_not_resolved _ _ _ _ _ Hrefused)) in Hres.
    read_trace Hres. discriminate.
  - (* the sale went through *)
    destruct Hp as (Hw' & _). rewrite Hw in Hw'. injection Hw' as <-.
    unfold db_of, trace_of, commits. cbn [fst snd].
    do 2 eexists.
    exists (Watch.with_status "sold" (Watch.with_current_owner_user_id (sub cu) w)).
    unfold after_sale at 1 2. cbn [transfers commissions insert].
    repeat split; try reflexivity.
    + cbn [OwnershipTransfer.with_id OwnershipTransfer.watch_id].
      apply watch_for_sale_row in Hw. apply Hw.
    + apply after_sale_watch. exact Hw.
Qed.

(** C6. When payment succeeded and the token-transfer call raised, the
    handler puts the synthetic reference simulated_transfer_<watch>_<buyer>
    in its place and the sale completes: the purchase returns normally, the
    inserted OwnershipTransfer row records the synthetic reference, and the
    watch is sold with the buyer as owner. *)
Theorem purchase_survives_unreachable_blockchain (db : DB) (watch_id : Z)
    (p : PurchasePayload.t) (cu : Payload) :
  payment_succeeded (trace_of (run (purchase_watch env watch_id p cu) db)) = true ->
  transfer_raised (trace_of (run (purchase_watch env watch_id p cu) db)) = true ->
  exists resp t w',
    result_of (run (purchase_watch env watch_id p cu) db) = Ok resp
    /\ PurchaseResponse.nft_transfer_hash resp
       = "simulated_transfer_" ++ str_int watch_id ++ "_" ++ str_int (sub cu)
    /\ transfers (db_of (run (purchase_watch env watch_id p cu) db))
       = (transfers db ++ [t])%list
    /\ OwnershipTransfer.type t = "sale"
    /\ OwnershipTransfer.stellar_tx_hash t
       = "simulated_transfer_" ++ str_int watch_id ++ "_" ++ str_int (sub cu)
    /\ watch_by_id (db_of (run (purchase_watch env watch_id p cu) db)) watch_id = Some w'
    /\ Watch.status w' = "sold"
    /\ Watch.current_owner_user_id w' = sub cu.
Proof.
  pose proof (purchase_watch_paths env db watch_id p cu) as Hpath.
  remember (run (purchase_watch env watch_id p cu) db) as r eqn:Hr. clear Hr.
  intros Hpay Hraised.
  by_path Hpath; try (read_trace Hraised; discriminate).
  - unfold trace_of in Hraised. cbn [snd] in Hraised.
    rewrite (proj2 (failed_transfer_not_resolved _ _ _ _ _ Hrefused)) in Hraised.
    read_trace Hraised. discriminate.
  - destruct Hp as (Hw & _).
    assert (Hout : transfer_outcome env w0 o0 b0 cu = simulated_transfer w0 cu).
    { unfold trace_of, transfer_raised, transfer_call in Hraised.
      cbn [snd existsb] in Hraised. rewrite Hcall in Hraised.
      unfold transfer_outcome.
      destruct (transfer_nft env _ _ _); [discriminate | reflexivity]. }
    pose proof (watch_for_sale_row _ _ _ Hw) as (_ & Hid & _).
    unfold result_of, db_of. cbn [fst snd].
    rewrite Hout in *. unfold simulated_transfer in *.
    cbn [TransferResult.tx_hash] in *. rewrite Hid in *. cbn [str_opt_int] in *.
    do 2 eexists.
    exists (Watch.with_status "sold" (Watch.with_current_owner_user_id (sub cu) w0)).
    unfold after_sale at 1. cbn [transfers insert].
    repeat split; try reflexivity.
    + exact Hresp.
    + apply after_sale_watch. exact Hw.
Qed.

(** C8. When the buyer is the current owner of the watch, whatever its
    status and whatever the payment method, the purchase is rejected with an
    HTTP error before anything happens: the database is unchanged and no
    adapter was called, nothing committed, nobody notified. When the watch
    is for sale and its owner a store, the error is the self-purchase one of
    line 356. *)
Theorem self_purchase_rejected (db : DB) (watch_id : Z) (p : PurchasePayload.t)
    (cu : Payload) :
  (forall w, In w (watches db) -> Watch.id w = Some watch_id ->
             Watch.current_owner_user_id w = sub cu) ->
  (exists code detail,
      result_of (run (purchase_watch env watch_id p cu) db)
      = Raise (HTTPException code detail))
  /\ db_of (run (purchase_watch env watch_id p cu) db) = db
  /\ trace_of (run (purchase_watch env watch_id p cu) db) = []
  /\ (forall w o,
        watch_for_sale db watch_id = Some w ->
        user_by_id db (Watch.current_owner_user_id w) = Some o ->
        User.role o = "store" ->
        result_of (run (purchase_watch env watch_id p cu) db)
        = Raise (HTTPException 400 "Você não pode comprar seu próprio relógio")).
Proof.
  intros Hmine.
  pose proof (purchase_watch_paths env db watch_id p cu) as Hpath.
  remember (run (purchase_watch env watch_id p cu) db) as r eqn:Hr. clear Hr.
  by_path Hpath;
    try (exfalso; destruct Hp as (Hw & _ & _ & Hne);
         apply watch_for_sale_row in Hw; apply Hne, Hmine; apply Hw);
    (split; [do 2 eexists; reflexivity | split; [reflexivity | split; [reflexivity|]]]);
    intros w o Hw Ho Hrole.
  - congruence.
  - rewrite Hw0 in Hw. injection Hw as <-. exfalso. exact (Hnostore o Ho Hrole).
  - reflexivity.
Qed.

(** Outside the claims: a transfer that the adapter answers with a status
    other than success stops the purchase with the payment-failed error,
    after payment was taken and with the database unchanged. *)
Lemma purchase_transfer_refused (db : DB) (watch_id : Z) (p : PurchasePayload.t)
    (cu : Payload) :
  payment_succeeded (trace_of (run (purchase_watch env watch_id p cu) db)) = true ->
  transfer_resolved (trace_of (run (purchase_watch env watch_id p cu) db)) = false ->
  (exists e, result_of (run (purchase_watch env watch_id p cu) db) = Raise e)
  /\ db_of (run (purchase_watch env watch_id p cu) db) = db.
Proof.
  pose proof (purchase_watch_paths env db watch_id p cu) as Hpath.
  remember (run (purchase_watch env watch_id p cu) db) as r eqn:Hr. clear Hr.
  intros Hpay Hres.
  by_path Hpath; try (read_trace Hpay; discriminate);
    try (split; [eexists; reflexivity | reflexivity]).
  (* a completed sale has a resolved transfer *)
  exfalso. unfold trace_of, transfer_resolved, transfer_call, transfer_outcome in *.
  cbn [snd existsb] in Hres. rewrite Hcall in Hres.
  destruct (transfer_nft env _ _ _) as [x|x].
  - rewrite Hdone in Hres. discriminate.
  - discriminate.
Qed.

End PurchaseClaims.

(** C7, as the spec states it, fails: a purchase of watch 42 once it is sold
    is refused with the not-found error 404, which is not ConflictState. *)
Lemma purchase_of_sold_watch_is_not_conflict :
  watch_for_sale sold_db 42 = None
  /\ exists e,
       result_of (run (post_purchase demo_env token_9 42 pix_purchase) sold_db) = Raise e
       /\ error_class e = NotFound
       /\ error_class e <> ConflictState.
Proof.
  split; [reflexivity|].
  exists (HTTPException 404 "Relógio não disponível para venda").
  split; [vm_compute; reflexivity|]. split; [reflexivity | discriminate].
Qed.

(** C7, amended. A purchase request for a watch that has no row in status
    for_sale (the watch is missing or in another status) always fails and
    changes nothing: a caller whose token role is user gets the not-found
    error 404, any other caller is refused with 403 by the role gate; in
    neither case is the error ConflictState, and no adapter is called. *)
Theorem purchase_unavailable_not_found (env : Adapters) (db : DB) (token : Payload)
    (watch_id : Z) (p : PurchasePayload.t) :
  watch_for_sale db watch_id = None ->
  result_of (run (post_purchase env token watch_id p) db)
  = Raise (if (token_role token =? "user")%string
           then HTTPException 404 "Relógio não disponível para venda"
           else HTTPException 403 "Permissão negada")
  /\ (forall e, result_of (run (post_purchase env token watch_id p) db) = Raise e ->
                error_class e <> ConflictState)
  /\ db_of (run (post_purchase env token watch_id p) db) = db
  /\ trace_of (run (post_purchase env token watch_id p) db) = [].
Proof.
  intros Hw.
  assert (Hrun : run (post_purchase env token watch_id p) db
                 = (Raise (if (token_role token =? "user")%string
                           then HTTPException 404 "Relógio não disponível para venda"
                           else HTTPException 403 "Permissão negada"), db, [])).
  { unfold run, post_purchase, bind. rewrite require_role_run.
    cbn [existsb]. rewrite orb_false_r.
    destruct (token_role token =? "user")%string; [|reflexivity].
    pose proof (purchase_watch_paths env db watch_id p token) as Hpath.
    unfold run in Hpath.
    destruct (purchase_watch env watch_id p token _) as [r w'].
    remember (r, committed w', trace w') as x eqn:Hx.
    by_path Hpath; try (destruct Hp as (Hw0 & _)); congruence. }
  rewrite Hrun. unfold result_of, db_of, trace_of. cbn [fst snd].
  repeat split; try reflexivity.
  intros e [= <-]. destruct (token_role token =? "user")%string; discriminate.
Qed.

(** C4: the commission of a completed purchase has no transfer reference.
    In the end-to-end scenario the sale inserts transfer 1 and one
    commission whose [transaction_id] is NULL: line 420 reads [transfer.id]
    before the session has flushed the new transfer. *)
Theorem commission_transfer_reference_is_null :
  map OwnershipTransfer.id
    (transfers (db_of (run (post_purchase demo_env token_9 42 pix_purchase) demo_db)))
  = [Some 1]
  /\ map Commission.transaction_id
       (commissions (db_of (run (post_purchase demo_env token_9 42 pix_purchase) demo_db)))
     = [None].
Proof. split; vm_compute; reflexivity. Qed.

(** The same on every completed purchase. *)
Lemma completed_purchase_commission (env : Adapters) (db : DB) (watch_id : Z)
    (p : PurchasePayload.t) (cu : Payload) (resp : PurchaseResponse.t) :
  result_of (run (purchase_watch env watch_id p cu) db) = Ok resp ->
  exists t c,
    transfers (db_of (run (purchase_watch env watch_id p cu) db))
    = (transfers db ++ [t])%list
    /\ commissions (db_of (run (purchase_watch env watch_id p cu) db))
       = (commissions db ++ [c])%list
    /\ OwnershipTransfer.id t = Some (next_id OwnershipTransfer.id (transfers db))
    /\ Commission.transaction_id c = None.
Proof.
  pose proof (purchase_watch_paths env db watch_id p cu) as Hpath.
  remember (run (purchase_watch env watch_id p cu) db) as r eqn:Hr. clear Hr.
  by_path Hpath; unfold result_of; cbn [fst]; try discriminate.
  intros _. unfold db_of, after_sale. cbn [fst snd transfers commissions insert].
  do 2 eexists. repeat split; reflexivity.
Qed.

(** ** Tokenization *)

(** C10. A tokenize call on an existing watch raises [NameError] at the
    evaluator lookup of line 108, outside any [try]: [Evaluator] is not bound
    at module scope. So tokenization changes no watch: whatever the call,
    the database is the one it started from, nothing was committed, and the
    NFT adapter was not called; the same holds behind the role gate. *)
Theorem tokenize_raises_name_error (env : Adapters) (db : DB) (watch_id : Z)
    (cu : Payload) :
  (forall w, watch_by_id db watch_id = Some w ->
             result_of (run (tokenize_watch env watch_id cu) db)
             = Raise (NameError "Evaluator"))
  /\ db_of (run (tokenize_watch env watch_id cu) db) = db
  /\ trace_of (run (tokenize_watch env watch_id cu) db) = []
  /\ db_of (run (post_tokenize env cu watch_id) db) = db.
Proof.
  assert (Hrun : run (tokenize_watch env watch_id cu) db
                 = (match watch_by_id db watch_id with
                    | Some _ => Raise (NameError "Evaluator")
                    | None => Raise (HTTPException 404 "Relógio não encontrado")
                    end, db, [])).
  { unfold run, tokenize_watch, bind, watch_by_id.
    rewrite query_first_run by reflexivity. cbn [working].
    destruct (find _ (watches db)); [|reflexivity].
    rewrite query_first_unbound by reflexivity. reflexivity. }
  repeat split.
  - intros w Hw. rewrite Hrun, Hw. reflexivity.
  - rewrite Hrun. reflexivity.
  - rewrite Hrun. reflexivity.
  - unfold post_tokenize, run, bind. rewrite require_role_run.
    destruct (existsb _ _); [|reflexivity].
    unfold run in Hrun.
    destruct (tokenize_watch env watch_id cu _) as [r w'].
    unfold db_of. cbn [fst snd]. congruence.
Qed.

(** C9: tokenizing the already tokenized watch 42 does not fail with the 400
    of line 114. The call raises [NameError] at the evaluator lookup before
    the status is looked at; the watch is left as it was. *)
Theorem tokenize_tokenized_watch_name_error :
  watch_by_id tokenized_db 42 = Some (Watch.with_status "tokenized" watch_42)
  /\ result_of (run (post_tokenize demo_env token_3 42) tokenized_db)
     = Raise (NameError "Evaluator")
  /\ error_class (NameError "Evaluator") = Unclassified
  /\ db_of (run (post_tokenize demo_env token_3 42) tokenized_db) = tokenized_db.
Proof. repeat split; vm_compute; reflexivity. Qed.

(** ** Escrow *)

(** The escrow as the contract leaves it after a confirmation. *)
Lemma escrow_confirm_delivery_run (db : DB) (escrow_id : Z) (confirmer : string)
    (e : Escrow.t) :
  escrow_by_id db escrow_id = Some e ->
  exists e',
    escrow_by_id (db_of (run (escrow_confirm_delivery escrow_id confirmer) db)) escrow_id
    = Some e'
    /\ (Escrow.status e' = "released" ->
        Escrow.status e = "released"
        \/ (Escrow.seller_confirmed e' = true /\ Escrow.evaluator_confirmed e' = true))
    /\ (Escrow.seller_confirmed e' && Escrow.evaluator_confirmed e' = false ->
        Escrow.status e' = Escrow.status e).
Proof.
  intros He. pose proof (find_by_id_key _ _ _ _ He) as Hid.
  unfold run, escrow_confirm_delivery, bind, db_set_escrow, db_commit, db_of.
  cbn [working committed pending trace fst snd fold_left].
  unfold escrow_by_id in He. rewrite He.
  cbn [working committed pending trace fst snd fold_left set_escrows escrows].
  set (confirmed :=
         if (confirmer =? "seller")%string then Escrow.with_seller_confirmed true e
         else if (confirmer =? "evaluator")%string
              then Escrow.with_evaluator_confirmed true e else e).
  assert (Hc : Escrow.id confirmed = Some escrow_id /\ Escrow.status confirmed = Escrow.status e).
  { unfold confirmed.
    destruct (confirmer =? "seller")%string; [split; [exact Hid | reflexivity]|].
    destruct (confirmer =? "evaluator")%string; split; (exact Hid || reflexivity). }
  destruct Hc as [Hcid Hcst].
  set (e' := if (Escrow.status confirmed =? "pending")%string
                && Escrow.seller_confirmed confirmed
                && Escrow.evaluator_confirmed confirmed
             then Escrow.with_status "released" confirmed else confirmed).
  assert (He'id : Escrow.id e' = Some escrow_id).
  { unfold e'. destruct (_ && _ && _); exact Hcid. }
  exists e'. split.
  - unfold escrow_by_id. cbn [escrows]. rewrite He'id.
    apply find_update_hit; [exact He'id|].
    apply find_some in He. exists e. split; [apply He | exact Hid].
  - unfold e'.
    destruct ((Escrow.status confirmed =? "pending")%string) eqn:Hp;
      destruct (Escrow.seller_confirmed confirmed) eqn:Hs;
      destruct (Escrow.evaluator_confirmed confirmed) eqn:Hv;
      cbn [andb Escrow.with_status Escrow.status Escrow.seller_confirmed
             Escrow.evaluator_confirmed];
      rewrite ?Hs, ?Hv, ?Hcst; cbn [andb];
      (split; [intros Hrel | intros Hboth]); auto; try discriminate.
Qed.

(** C5. A confirm-delivery call moves an escrow to released only when both
    the seller-confirmed and the evaluator-confirmed flag are true after it,
    and a call that leaves not both flags true does not release the escrow:
    its status is what it was. *)
Theorem escrow_released_only_when_both_confirmed (env : Adapters) (db : DB)
    (escrow_id : Z) (current_user : User.t) (e e' : Escrow.t) :
  escrow_by_id db escrow_id = Some e ->
  escrow_by_id (db_of (run (confirm_delivery env escrow_id current_user) db)) escrow_id
  = Some e' ->
  (Escrow.status e <> "released" -> Escrow.status e' = "released" ->
   Escrow.seller_confirmed e' = true /\ Escrow.evaluator_confirmed e' = true)
  /\ (Escrow.seller_confirmed e' && Escrow.evaluator_confirmed e' = false ->
      Escrow.status e' = Escrow.status e).
Proof.
  intros He.
  assert (Hcases :
    db_of (run (confirm_delivery env escrow_id current_user) db) = db
    \/ exists confirmer,
         db_of (run (confirm_delivery env escrow_id current_user) db)
         = db_of (run (escrow_confirm_delivery escrow_id confirmer) db)).
  { unfold confirm_delivery, run, try_except, bind, db_of.
    destruct (User.role current_user =? "user")%string.
    - right. exists "seller". cbn [ret].
      destruct (escrow_confirm_delivery escrow_id "seller" _) as [[r|x] w']; reflexivity.
    - destruct (User.role current_user =? "evaluator")%string.
      + right. exists "evaluator". cbn [ret].
        destruct (escrow_confirm_delivery escrow_id "evaluator" _) as [[r|x] w'];
          reflexivity.
      + left. reflexivity. }
  destruct Hcases as [-> | [confirmer ->]].
  - rewrite He. intros [= <-]. split; [tauto | reflexivity].
  - destruct (escrow_confirm_delivery_run db escrow_id confirmer e He)
      as (e'' & -> & Hrel & Hkeep).
    intros [= <-]. split; [|exact Hkeep].
    intros Hnot Hst. destruct (Hrel Hst) as [Hold | Hboth]; [contradiction | exact Hboth].
Qed.

(** ** Reachable states *)

Lemma reachable_replay (env : Adapters) (reqs : list Request) (db : DB) :
  reachable env db -> reachable env (replay env reqs db).
Proof.
  revert db. induction reqs as [|req reqs IH]; intros db Hdb; [exact Hdb|].
  cbn [replay fold_left]. apply IH. apply reachable_serve. exact Hdb.
Qed.

(** The second [purchase_watch] would not keep the ledger invariant: called
    after the listing session it leaves watch 1 sold, with an escrow row and
    no OwnershipTransfer row. The same purchase sent as a request is handed
    to the first [purchase_watch], which refuses it (the owner is not a
    store) and leaves the watch for sale. *)
Remark shadowed_purchase_breaks_invariant (env : Adapters) :
  ~ sold_has_one_sale_transfer
      (shadowed_purchase token_customer_2 1 (replay env listing_session empty_db))
  /\ (exists w,
         watches (shadowed_purchase token_customer_2 1
                    (replay env listing_session empty_db)) = [w]
         /\ Watch.status w = "sold"
         /\ transfers (shadowed_purchase token_customer_2 1
                         (replay env listing_session empty_db)) = [])
  /\ serve env (PurchaseWatch token_customer_2 1 pix_purchase)
       (replay env listing_session empty_db)
     = replay env listing_session empty_db.
Proof.
  assert (Hw : exists w,
             watches (shadowed_purchase token_customer_2 1
                        (replay env listing_session empty_db)) = [w]
             /\ Watch.status w = "sold"
             /\ transfers (shadowed_purchase token_customer_2 1
                             (replay env listing_session empty_db)) = []).
  { eexists. split; [vm_compute; reflexivity|].
    split; vm_compute; reflexivity. }
  split; [|split; [exact Hw | vm_compute; reflexivity]].
  destruct Hw as (w & Hws & Hsold & Hnone).
  intros Hinv. specialize (Hinv w).
  unfold sale_transfers_of in Hinv. rewrite Hws, Hnone in Hinv.
  specialize (Hinv (or_introl eq_refl) Hsold). discriminate Hinv.
Qed.

(** ** The end-to-end scenario and the instances of the theorems *)

(** Price 100000.00 at the platform rate gives a commission of 3000.00. *)
Example commission_of_100000 : PrimFloat.mul 100000%float platform_rate = 3000%float.
Proof. reflexivity. Qed.

(** Watch 42 at 95000.00, owned by store 7, bought by user 9 by pix: one
    transfer from 7 to 9 with fee 2850.00, the watch sold and owned by 9, one
    commission of 2850.00. *)
Example end_to_end_scenario :
  transfers (db_of (run (post_purchase demo_env token_9 42 pix_purchase) demo_db))
  = [OwnershipTransfer.mk (Some 1) (Some 42) 7 9 "nft_tx_1" "sale"
       95000%float 2850%float]
  /\ map Commission.amount_brl
       (commissions (db_of (run (post_purchase demo_env token_9 42 pix_purchase) demo_db)))
     = [2850%float]
  /\ option_map (fun w => (Watch.status w, Watch.current_owner_user_id w))
       (watch_by_id (db_of (run (post_purchase demo_env token_9 42 pix_purchase) demo_db)) 42)
     = Some ("sold", 9).
Proof. repeat split; vm_compute; reflexivity. Qed.

(** The scenario meets the conditions of the sale theorem. *)
Lemma purchase_records_sale_witness :
  watch_for_sale demo_db 42 = Some watch_42
  /\ user_by_id demo_db (Watch.current_owner_user_id watch_42) = Some store_7
  /\ User.role store_7 = "store"
  /\ Watch.current_owner_user_id watch_42 <> sub token_9
  /\ payment_succeeded
       (trace_of (run (purchase_watch demo_env 42 pix_purchase token_9) demo_db)) = true
  /\ transfer_resolved
       (trace_of (run (purchase_watch demo_env 42 pix_purchase token_9) demo_db)) = true
  /\ exists t c w',
       transfers (db_of (run (purchase_watch demo_env 42 pix_purchase token_9) demo_db))
       = (transfers demo_db ++ [t])%list
       /\ OwnershipTransfer.type t = "sale"
       /\ OwnershipTransfer.watch_id t = Some 42
       /\ OwnershipTransfer.from_user_id t = Watch.current_owner_user_id watch_42
       /\ OwnershipTransfer.to_user_id t = sub token_9
       /\ OwnershipTransfer.price_brl t = sale_price watch_42
       /\ OwnershipTransfer.admin_fee_brl t
          = PrimFloat.mul (sale_price watch_42) platform_rate
       /\ commissions (db_of (run (purchase_watch demo_env 42 pix_purchase token_9) demo_db))
          = (commissions demo_db ++ [c])%list
       /\ Commission.amount_brl c = OwnershipTransfer.admin_fee_brl t
       /\ watch_by_id (db_of (run (purchase_watch demo_env 42 pix_purchase token_9) demo_db)) 42
          = Some w'
       /\ Watch.current_owner_user_id w' = sub token_9
       /\ Watch.status w' = "sold"
       /\ commits (trace_of (run (purchase_watch demo_env 42 pix_purchase token_9) demo_db))
          = [db_of (run (purchase_watch demo_env 42 pix_purchase token_9) demo_db)].
Proof.
  assert (Hw : watch_for_sale demo_db 42 = Some watch_42) by reflexivity.
  assert (Ho : user_by_id demo_db (Watch.current_owner_user_id watch_42) = Some store_7)
    by reflexivity.
  assert (Hr : User.role store_7 = "store") by reflexivity.
  assert (Hn : Watch.current_owner_user_id watch_42 <> sub token_9) by (cbn; lia).
  assert (Hp : payment_succeeded
                 (trace_of (run (purchase_watch demo_env 42 pix_purchase token_9) demo_db))
               = true) by (vm_compute; reflexivity).
  assert (Ht : transfer_resolved
                 (trace_of (run (purchase_watch demo_env 42 pix_purchase token_9) demo_db))
               = true) by (vm_compute; reflexivity).
  repeat (split; [assumption|]).
  exact (purchase_records_sale demo_env demo_db 42 pix_purchase token_9 watch_42 store_7
           Hw Ho Hr Hn Hp Ht).
Defined.

(** The scenario with a payment adapter that declines. *)
Lemma purchase_payment_declined_witness :
  payment_declined
    (trace_of (run (purchase_watch declining_env 42 pix_purchase token_9) demo_db)) = true
  /\ result_of (run (purchase_watch declining_env 42 pix_purchase token_9) demo_db)
     = Raise (HTTPException 400 "Falha no pagamento")
  /\ db_of (run (purchase_watch declining_env 42 pix_purchase token_9) demo_db) = demo_db.
Proof.
  assert (Hd : payment_declined
                 (trace_of (run (purchase_watch declining_env 42 pix_purchase token_9)
                              demo_db)) = true) by (vm_compute; reflexivity).
  split; [exact Hd|].
  pose proof (purchase_payment_declined declining_env demo_db 42 pix_purchase token_9 Hd)
    as (Hres & Hdb & _).
  split; [exact Hres | exact Hdb].
Defined.

(** The scenario with a blockchain adapter that cannot be reached. *)
Lemma purchase_survives_unreachable_blockchain_witness :
  payment_succeeded
    (trace_of (run (purchase_watch unreachable_env 42 pix_purchase token_9) demo_db)) = true
  /\ transfer_raised
       (trace_of (run (purchase_watch unreachable_env 42 pix_purchase token_9) demo_db))
     = true
  /\ exists resp t w',
       result_of (run (purchase_watch unreachable_env 42 pix_purchase token_9) demo_db)
       = Ok resp
       /\ PurchaseResponse.nft_transfer_hash resp
          = "simulated_transfer_" ++ str_int 42 ++ "_" ++ str_int (sub token_9)
       /\ transfers (db_of (run (purchase_watch unreachable_env 42 pix_purchase token_9)
                              demo_db))
          = (transfers demo_db ++ [t])%list
       /\ OwnershipTransfer.type t = "sale"
       /\ OwnershipTransfer.stellar_tx_hash t
          = "simulated_transfer_" ++ str_int 42 ++ "_" ++ str_int (sub token_9)
       /\ watch_by_id (db_of (run (purchase_watch unreachable_env 42 pix_purchase token_9)
                                demo_db)) 42 = Some w'
       /\ Watch.status w' = "sold"
       /\ Watch.current_owner_user_id w' = sub token_9.
Proof.
  assert (Hp : payment_succeeded
                 (trace_of (run (purchase_watch unreachable_env 42 pix_purchase token_9)
                              demo_db)) = true) by (vm_compute; reflexivity).
  assert (Ht : transfer_raised
                 (trace_of (run (purchase_watch unreachable_env 42 pix_purchase token_9)
                              demo_db)) = true) by (vm_compute; reflexivity).
  split; [exact Hp|]. split; [exact Ht|].
  exact (purchase_survives_unreachable_blockchain unreachable_env demo_db 42
           pix_purchase token_9 Hp Ht).
Defined.

(** User 9 asks for watch 42 after it was sold. *)
Lemma purchase_unavailable_not_found_witness :
  watch_for_sale sold_db 42 = None
  /\ result_of (run (post_purchase demo_env token_9 42 pix_purchase) sold_db)
     = Raise (HTTPException 404 "Relógio não disponível para venda")
  /\ db_of (run (post_purchase demo_env token_9 42 pix_purchase) sold_db) = sold_db.
Proof.
  assert (Hw : watch_for_sale sold_db 42 = None) by reflexivity.
  split; [exact Hw|].
  pose proof (purchase_unavailable_not_found demo_env sold_db token_9 42 pix_purchase Hw)
    as (Hres & _ & Hdb & _).
  split; [exact Hres | exact Hdb].
Defined.

(** User 9 asks for watch 42 while owning it. *)
Lemma self_purchase_rejected_witness :
  (forall w, In w (watches relisted_db) -> Watch.id w = Some 42 ->
             Watch.current_owner_user_id w = sub token_9)
  /\ (exists code detail,
         result_of (run (purchase_watch demo_env 42 pix_purchase token_9) relisted_db)
         = Raise (HTTPException code detail))
  /\ db_of (run (purchase_watch demo_env 42 pix_purchase token_9) relisted_db) = relisted_db
  /\ trace_of (run (purchase_watch demo_env 42 pix_purchase token_9) relisted_db) = [].
Proof.
  assert (Hmine : forall w, In w (watches relisted_db) -> Watch.id w = Some 42 ->
                            Watch.current_owner_user_id w = sub token_9).
  { intros w Hin _. cbn in Hin. destruct Hin as [<- | []]. reflexivity. }
  split; [exact Hmine|].
  pose proof (self_purchase_rejected demo_env relisted_db 42 pix_purchase token_9 Hmine)
    as (Hres & Hdb & Htr & _).
  split; [exact Hres | split; [exact Hdb | exact Htr]].
Defined.

(** Evaluator 3 asks to tokenize watch 42. *)
Lemma tokenize_raises_name_error_witness :
  watch_by_id demo_db 42 = Some watch_42
  /\ result_of (run (tokenize_watch demo_env 42 token_3) demo_db)
     = Raise (NameError "Evaluator")
  /\ db_of (run (tokenize_watch demo_env 42 token_3) demo_db) = demo_db.
Proof.
  assert (Hw : watch_by_id demo_db 42 = Some watch_42) by reflexivity.
  split; [exact Hw|].
  pose proof (tokenize_raises_name_error demo_env demo_db 42 token_3) as (Hres & Hdb & _).
  split; [exact (Hres watch_42 Hw) | exact Hdb].
Defined.

(** The evaluator confirms an escrow the seller had confirmed: released. *)
Lemma escrow_released_only_when_both_confirmed_witness :
  escrow_by_id escrow_db 5 = Some escrow_5
  /\ escrow_by_id (db_of (run (confirm_delivery demo_env 5 evaluator_3) escrow_db)) 5
     = Some (Escrow.with_status "released"
               (Escrow.with_evaluator_confirmed true escrow_5))
  /\ (Escrow.status escrow_5 <> "released" ->
      Escrow.status (Escrow.with_status "released"
                       (Escrow.with_evaluator_confirmed true escrow_5)) = "released" ->
      Escrow.seller_confirmed (Escrow.with_status "released"
                                 (Escrow.with_evaluator_confirmed true escrow_5)) = true
      /\ Escrow.evaluator_confirmed (Escrow.with_status "released"
                                       (Escrow.with_evaluator_confirmed true escrow_5))
         = true).
Proof.
  assert (He : escrow_by_id escrow_db 5 = Some escrow_5) by reflexivity.
  assert (He' : escrow_by_id (db_of (run (confirm_delivery demo_env 5 evaluator_3)
                                       escrow_db)) 5
                = Some (Escrow.with_status "released"
                          (Escrow.with_evaluator_confirmed true escrow_5)))
    by (vm_compute; reflexivity).
  split; [exact He|]. split; [exact He'|].
  exact (proj1 (escrow_released_only_when_both_confirmed demo_env escrow_db 5
                  evaluator_3 _ _ He He')).
Defined.

(** A confirmation by one party alone leaves the escrow pending. *)
Example one_confirmation_does_not_release :
  option_map Escrow.status
    (escrow_by_id (db_of (run (confirm_delivery demo_env 5 user_9) escrow_db)) 5)
  = Some "pending".
Proof. vm_compute. reflexivity. Qed.

(** * Further properties of the routes *)

(** ** Keys and lookups *)

(** A fresh key is above every key in the table. *)
Lemma next_id_above {A : Type} (id : A -> option Z) (l : list A) (r : A) (k : Z) :
  In r l -> id r = Some k -> k < next_id id l.
Proof.
  unfold next_id. induction l as [|a l IH]; intros Hin Hk; [destruct Hin|].
  cbn [fold_right]. destruct Hin as [-> | Hin].
  - rewrite Hk. lia.
  - specialize (IH Hin Hk). destruct (id a); lia.
Qed.

Lemma next_id_positive {A : Type} (id : A -> option Z) (l : list A) :
  0 < next_id id l.
Proof.
  unfold next_id. induction l as [|a l IH]; cbn [fold_right]; [lia|].
  destruct (id a); lia.
Qed.

Lemma find_app_last {A : Type} (p : A -> bool) (l : list A) (x : A) :
  find p l = None -> find p (l ++ [x]) = if p x then Some x else None.
Proof.
  induction l as [|a l IH]; cbn [find app]; [reflexivity|].
  destruct (p a); [discriminate | exact IH].
Qed.

Lemma find_app_first {A : Type} (p : A -> bool) (l : list A) (x r : A) :
  find p l = Some r -> find p (l ++ [x]) = Some r.
Proof.
  induction l as [|a l IH]; cbn [find app]; [discriminate|].
  destruct (p a); [trivial | exact IH].
Qed.

(** The fresh key is not in use. *)
Lemma find_fresh_key {A : Type} (id : A -> option Z) (l : list A) :
  find (fun x => opt_Z_eqb (id x) (next_id id l)) l = None.
Proof.
  destruct (find _ l) as [r|] eqn:H; [|reflexivity].
  pose proof (find_by_id_key _ _ _ _ H) as Hk.
  apply find_some in H. destruct H as [Hin _].
  pose proof (next_id_above id l r _ Hin Hk). lia.
Qed.

(** Insert, then look up by the key just given: the inserted row. *)
Lemma find_inserted {A : Type} (id : A -> option Z) (with_id : Z -> A -> A)
    (l : list A) (row : A) :
  (forall k r, id (with_id k r) = Some k) ->
  find (fun x => opt_Z_eqb (id x) (next_id id l)) (insert id with_id l row)
  = Some (with_id (next_id id l) row).
Proof.
  intros Hid. unfold insert. rewrite find_app_last by apply find_fresh_key.
  rewrite Hid, opt_Z_eqb_refl. reflexivity.
Qed.

Lemma last_inserted {A : Type} (id : A -> option Z) (with_id : Z -> A -> A)
    (l : list A) (row : A) :
  last (map Some (insert id with_id l row)) None = Some (with_id (next_id id l) row).
Proof.
  unfold insert. rewrite map_app. cbn [map]. apply last_last.
Qed.

Lemma NoDup_snoc {A : Type} (l : list A) (x : A) :
  NoDup l -> ~ In x l -> NoDup (l ++ [x]).
Proof.
  induction l as [|a l IH]; intros Hnd Hx; cbn [app].
  - constructor; [intros [] | constructor].
  - inversion Hnd as [|? ? Ha Hl]; subst. constructor.
    + intros Hin. apply in_app_or in Hin. destruct Hin as [Hin | [-> | []]].
      * exact (Ha Hin).
      * apply Hx. left. reflexivity.
    + apply IH; [exact Hl|]. intros Hin. apply Hx. right. exact Hin.
Qed.

Lemma query_all_run {A : Type} (scope : list string) (name : string)
    (tbl : DB -> list A) (p : A -> bool) (w : World) :
  existsb (String.eqb name) scope = true ->
  query_all scope name tbl p w = (Ok (filter p (tbl (working w))), w).
Proof.
  intros H. unfold query_all, load_name, bind. rewrite H. reflexivity.
Qed.

(** ** [create_watch] *)

(** X1. A serial number that is already registered is refused with 400
    before anything is written or anyone notified, whatever the caller. *)
Theorem create_watch_duplicate_serial (db : DB) (watch : WatchCreate.t)
    (cu : Payload) (w0 : Watch.t) :
  watch_by_serial db (WatchCreate.serial_number watch) = Some w0 ->
  run (create_watch watch cu) db
  = (Raise (HTTPException 400 "Número de série já cadastrado"), db, []).
Proof.
  intros H. unfold run, create_watch, bind.
  rewrite query_first_run by reflexivity. cbn [working].
  unfold watch_by_serial in H. rewrite H. reflexivity.
Qed.

(** The run of [create_watch] on a new serial number, for a caller the role
    gate lets in. *)
Lemma create_watch_run (db : DB) (watch : WatchCreate.t) (cu : Payload) :
  watch_by_serial db (WatchCreate.serial_number watch) = None ->
  token_role cu <> "store" ->
  exists message,
    run (create_watch watch cu) db
    = (Ok (Some (Watch.with_id (next_id Watch.id (watches db))
                   (new_watch db watch cu))),
       insert_obj db (ObjWatch (new_watch db watch cu)),
       [Committed (insert_obj db (ObjWatch (new_watch db watch cu)));
        Notified (sub cu) "Relógio Registrado" message "info"]).
Proof.
  intros Hnew Hrole. unfold run, create_watch, bind.
  rewrite query_first_run by reflexivity. cbn [working].
  unfold watch_by_serial in Hnew. rewrite Hnew.
  apply String.eqb_neq in Hrole.
  unfold new_watch, evaluator_link, initial_status.
  destruct (token_role cu =? "evaluator")%string eqn:Hev.
  - rewrite query_first_run by reflexivity. cbn [working].
    destruct (find _ (evaluators db)) as [ev|].
    + destruct (Evaluator.store_id ev) as [sid|].
      * destruct (sid =? 0).
        -- cbn [ret fst snd]. rewrite Hrole. eexists.
           cbv [ret db_add db_commit refreshed create_notification emit].
           cbn [pending working committed trace app fold_left insert_obj].
           cbn [watches]. rewrite last_inserted. reflexivity.
        -- rewrite query_first_run by reflexivity. cbn [working].
           destruct (find _ (stores db)) as [s|];
             cbn [ret fst snd]; rewrite Hrole; eexists;
             cbv [ret db_add db_commit refreshed create_notification emit];
             cbn [pending working committed trace app fold_left insert_obj];
             cbn [watches]; rewrite last_inserted; reflexivity.
      * cbn [ret fst snd]. rewrite Hrole. eexists.
        cbv [ret db_add db_commit refreshed create_notification emit].
        cbn [pending working committed trace app fold_left insert_obj].
        cbn [watches]. rewrite last_inserted. reflexivity.
    + cbn [ret fst snd]. rewrite Hrole. eexists.
      cbv [ret db_add db_commit refreshed create_notification emit].
      cbn [pending working committed trace app fold_left insert_obj].
      cbn [watches]. rewrite last_inserted. reflexivity.
  - cbn [ret fst snd]. rewrite Hrole. eexists.
    cbv [ret db_add db_commit refreshed create_notification emit].
    cbn [pending working committed trace app fold_left insert_obj].
    cbn [watches]. rewrite last_inserted. reflexivity.
Qed.

Lemma get_watch_run (db : DB) (watch_id : Z) :
  run (get_watch watch_id) db
  = (match watch_by_id db watch_id with
     | Some w => Ok w
     | None => Raise (HTTPException 404 "Relógio não encontrado")
     end, db, []).
Proof.
  unfold run, get_watch, bind, watch_by_id.
  rewrite query_first_run by reflexivity. cbn [working].
  destruct (find _ (watches db)); reflexivity.
Qed.

(** The new watch under its key, and the old ones under theirs. *)
Lemma watch_by_id_inserted (db : DB) (w0 : Watch.t) :
  watch_by_id (insert_obj db (ObjWatch w0)) (next_id Watch.id (watches db))
  = Some (Watch.with_id (next_id Watch.id (watches db)) w0).
Proof.
  unfold watch_by_id. cbn [insert_obj watches].
  apply find_inserted. reflexivity.
Qed.

(** X2. An admin who registers a watch with a new serial number gets back a
    watch with status registered, owned by the admin, in no store and with
    no token; the watch is appended to the table under a fresh key in one
    commit, and GET /watches/{id} for that key returns it. *)
Theorem create_watch_by_admin (db : DB) (watch : WatchCreate.t) (cu : Payload) :
  token_role cu = "admin" ->
  watch_by_serial db (WatchCreate.serial_number watch) = None ->
  exists w,
    result_of (run (create_watch watch cu) db) = Ok (Some w)
    /\ Watch.id w = Some (next_id Watch.id (watches db))
    /\ Watch.serial_number w = WatchCreate.serial_number watch
    /\ Watch.status w = "registered"
    /\ Watch.current_owner_user_id w = sub cu
    /\ Watch.store_id w = None
    /\ Watch.nft_code w = None
    /\ watches (db_of (run (create_watch watch cu) db)) = (watches db ++ [w])%list
    /\ commits (trace_of (run (create_watch watch cu) db))
       = [db_of (run (create_watch watch cu) db)]
    /\ result_of (run (get_watch (next_id Watch.id (watches db)))
                    (db_of (run (create_watch watch cu) db))) = Ok w.
Proof.
  intros Hrole Hnew.
  destruct (create_watch_run db watch cu Hnew) as [msg Hrun].
  { rewrite Hrole. discriminate. }
  rewrite Hrun. unfold result_of, db_of, trace_of, commits. cbn [fst snd flat_map app].
  eexists. split; [reflexivity|].
  unfold new_watch, evaluator_link, initial_status. rewrite Hrole.
  cbn [String.eqb Ascii.eqb Bool.eqb fst snd Watch.with_id Watch.id Watch.serial_number
         Watch.status Watch.current_owner_user_id Watch.store_id Watch.nft_code].
  repeat split; try reflexivity.
  rewrite get_watch_run. cbn [fst].
  pose proof (watch_by_id_inserted db
                (Watch.mk None (WatchCreate.serial_number watch) (WatchCreate.brand watch)
                   (WatchCreate.model watch) (WatchCreate.year watch)
                   (WatchCreate.condition watch) (WatchCreate.description watch)
                   (WatchCreate.purchase_price_brl watch)
                   (WatchCreate.current_value_brl watch)
                   (sub cu) "registered" None None None None None)) as Hfind.
  cbn [Watch.with_id Watch.id Watch.serial_number Watch.brand Watch.model Watch.year
         Watch.condition Watch.description Watch.purchase_price_brl
         Watch.current_value_brl Watch.current_owner_user_id Watch.status
         Watch.store_id Watch.nft_code Watch.nft_issuer Watch.blockchain_address
         Watch.price_brl] in Hfind.
  rewrite Hfind. reflexivity.
Qed.

Lemma find_none_stronger {A : Type} (p q : A -> bool) (l : list A) :
  (forall x, q x = true -> p x = true) ->
  find p l = None -> find q l = None.
Proof.
  intros Hqp. induction l as [|a l IH]; cbn [find]; [reflexivity|].
  destruct (p a) eqn:Hp; [discriminate|].
  destruct (q a) eqn:Hq; [|exact IH].
  rewrite (Hqp a Hq) in Hp. discriminate.
Qed.

(** A watch inserted with status for_sale is what the purchase handlers
    find under its key. *)
Lemma watch_for_sale_inserted (db : DB) (w0 : Watch.t) :
  Watch.status w0 = "for_sale" ->
  watch_for_sale (insert_obj db (ObjWatch w0)) (next_id Watch.id (watches db))
  = Some (Watch.with_id (next_id Watch.id (watches db)) w0).
Proof.
  intros Hst. unfold watch_for_sale. cbn [insert_obj watches]. unfold insert.
  rewrite find_app_last.
  - cbn [Watch.with_id Watch.id Watch.status]. rewrite opt_Z_eqb_refl, Hst. reflexivity.
  - apply find_none_stronger with (p := fun x => opt_Z_eqb (Watch.id x)
                                                  (next_id Watch.id (watches db))).
    + intros x Hx. apply andb_true_iff in Hx. apply Hx.
    + apply find_fresh_key.
Qed.

Lemma marketplace_watches_run (db : DB) :
  run marketplace_watches db = (Ok (listed db), db, []).
Proof.
  unfold run, marketplace_watches. rewrite query_all_run by reflexivity. reflexivity.
Qed.

(** X3. A watch entered by an evaluator who works for a store is for sale at
    once, filed under that store and owned by the store's user; when that
    user has role store, any other user passes the checks the first purchase
    handler makes before payment. *)
Theorem create_watch_by_linked_evaluator (db : DB) (watch : WatchCreate.t)
    (cu : Payload) (ev : Evaluator.t) (sid : Z) (s : Store.t) (o : User.t) :
  token_role cu = "evaluator" ->
  watch_by_serial db (WatchCreate.serial_number watch) = None ->
  evaluator_of_user db (sub cu) = Some ev ->
  Evaluator.store_id ev = Some sid ->
  sid <> 0 ->
  store_by_id db sid = Some s ->
  user_by_id db (Store.user_id s) = Some o ->
  User.role o = "store" ->
  exists w,
    result_of (run (create_watch watch cu) db) = Ok (Some w)
    /\ Watch.status w = "for_sale"
    /\ Watch.current_owner_user_id w = Store.user_id s
    /\ Watch.store_id w = Some sid
    /\ forall buyer,
         sub buyer <> Store.user_id s ->
         purchasable (db_of (run (create_watch watch cu) db))
           (next_id Watch.id (watches db)) buyer w o.
Proof.
  intros Hrole Hnew Hev Hsid Hnz Hs Ho Hstore.
  destruct (create_watch_run db watch cu Hnew) as [msg Hrun].
  { rewrite Hrole. discriminate. }
  rewrite Hrun. unfold result_of, db_of. cbn [fst snd]. clear Hrun.
  assert (Hlink : evaluator_link db cu = (Some sid, Store.user_id s)).
  { unfold evaluator_link. rewrite Hrole. cbn [String.eqb Ascii.eqb Bool.eqb].
    unfold evaluator_of_user in Hev. rewrite Hev, Hsid.
    apply Z.eqb_neq in Hnz. rewrite Hnz.
    unfold store_by_id in Hs. rewrite Hs. reflexivity. }
  assert (Hst : initial_status cu = "for_sale").
  { unfold initial_status. rewrite Hrole. reflexivity. }
  assert (Hnw : new_watch db watch cu
                = Watch.mk None (WatchCreate.serial_number watch)
                    (WatchCreate.brand watch) (WatchCreate.model watch)
                    (WatchCreate.year watch) (WatchCreate.condition watch)
                    (WatchCreate.description watch)
                    (WatchCreate.purchase_price_brl watch)
                    (WatchCreate.current_value_brl watch)
                    (Store.user_id s) "for_sale" (Some sid) None None None None).
  { unfold new_watch. rewrite Hlink, Hst. reflexivity. }
  rewrite Hnw.
  eexists. split; [reflexivity|].
  repeat split; try reflexivity.
  - apply watch_for_sale_inserted. reflexivity.
  - exact Ho.
  - exact Hstore.
  - cbn [Watch.with_id Watch.current_owner_user_id]. intros E. apply H.
    symmetry. exact E.
Qed.

(** X4. A watch entered by an evaluator who has no evaluator record is for
    sale at once and owned by the evaluator: the marketplace lists it, but
    the first purchase handler refuses every buyer with the 400 of line 352,
    because its owner is not a store. *)
Theorem watch_of_unlinked_evaluator_cannot_be_bought (env : Adapters) (db : DB)
    (watch : WatchCreate.t) (cu : Payload) (u : User.t)
    (p : PurchasePayload.t) (buyer : Payload) :
  token_role cu = "evaluator" ->
  watch_by_serial db (WatchCreate.serial_number watch) = None ->
  evaluator_of_user db (sub cu) = None ->
  user_by_id db (sub cu) = Some u ->
  User.role u <> "store" ->
  (exists w,
      In w (listed (db_of (run (create_watch watch cu) db)))
      /\ Watch.id w = Some (next_id Watch.id (watches db))
      /\ Watch.current_owner_user_id w = sub cu)
  /\ run (purchase_watch env (next_id Watch.id (watches db)) p buyer)
         (db_of (run (create_watch watch cu) db))
     = (Raise (HTTPException 400
                 "Usuários só podem comprar relógios de lojas credenciadas"),
        db_of (run (create_watch watch cu) db), []).
Proof.
  intros Hrole Hnew Hev Hu Hnotstore.
  destruct (create_watch_run db watch cu Hnew) as [msg Hrun].
  { rewrite Hrole. discriminate. }
  rewrite Hrun. unfold db_of. cbn [fst snd]. clear Hrun.
  assert (Hnw : new_watch db watch cu
                = Watch.mk None (WatchCreate.serial_number watch)
                    (WatchCreate.brand watch) (WatchCreate.model watch)
                    (WatchCreate.year watch) (WatchCreate.condition watch)
                    (WatchCreate.description watch)
                    (WatchCreate.purchase_price_brl watch)
                    (WatchCreate.current_value_brl watch)
                    (sub cu) "for_sale" None None None None None).
  { unfold new_watch, evaluator_link, initial_status. rewrite Hrole.
    cbn [String.eqb Ascii.eqb Bool.eqb].
    unfold evaluator_of_user in Hev. rewrite Hev. reflexivity. }
  rewrite Hnw.
  set (nw := Watch.mk None _ _ _ _ _ _ _ _ (sub cu) "for_sale" None None None None None).
  set (n := next_id Watch.id (watches db)).
  assert (Hfs : watch_for_sale (insert_obj db (ObjWatch nw)) n = Some (Watch.with_id n nw))
    by (apply watch_for_sale_inserted; reflexivity).
  split.
  - exists (Watch.with_id n nw). split; [|split; reflexivity].
    unfold listed. apply filter_In. split; [|reflexivity].
    apply find_some in Hfs. apply Hfs.
  - pose proof (purchase_watch_paths env (insert_obj db (ObjWatch nw)) n p buyer) as Hpath.
    remember (run (purchase_watch env n p buyer) (insert_obj db (ObjWatch nw))) as r eqn:Hr.
    clear Hr.
    assert (Howner : forall w1 o1,
               watch_for_sale (insert_obj db (ObjWatch nw)) n = Some w1 ->
               user_by_id (insert_obj db (ObjWatch nw)) (Watch.current_owner_user_id w1)
               = Some o1 ->
               User.role o1 = "store" -> False).
    { intros w1 o1 H1 H2 H3. rewrite Hfs in H1. injection H1 as <-.
      cbn [Watch.with_id Watch.current_owner_user_id nw] in H2.
      unfold user_by_id in H2, Hu. cbn [insert_obj users] in H2.
      rewrite Hu in H2. injection H2 as <-. contradiction. }
    by_path Hpath;
      try (exfalso; destruct Hp as (Hp1 & Hp2 & Hp3 & _); exact (Howner _ _ Hp1 Hp2 Hp3)).
    + congruence.
    + reflexivity.
    + exfalso. exact (Howner _ _ Hw0 Ho0 Hrole0).
Qed.

(** ** Registration and login *)

Lemma register_run (db : DB) (user : UserCreate.t) (hashed pk sk : string) :
  run (register user hashed pk sk) db
  = match user_by_email db (UserCreate.email user) with
    | Some _ => (Raise (HTTPException 400 "Email já cadastrado"), db, [])
    | None =>
        let u0 := User.mk None (UserCreate.full_name user) (UserCreate.email user)
                    hashed (UserCreate.role user) (Some pk) (Some sk) in
        (Ok (Some (User.with_id (next_id User.id (users db)) u0)),
         insert_obj db (ObjUser u0), [Committed (insert_obj db (ObjUser u0))])
    end.
Proof.
  unfold run, register, bind, user_by_email.
  rewrite query_first_run by reflexivity. cbn [working].
  destruct (find _ (users db)); [reflexivity|].
  cbv [ret db_add db_commit refreshed].
  cbn [pending working committed trace app fold_left insert_obj users].
  rewrite last_inserted. reflexivity.
Qed.

Lemma login_run (verify : string -> string -> bool) (db : DB)
    (username password : string) :
  run (login verify username password) db
  = (match user_by_email db username with
     | Some u => if verify password (User.password_hash u)
                 then Ok (token_of u, u)
                 else Raise (HTTPException 401 "Credenciais inválidas")
     | None => Raise (HTTPException 401 "Credenciais inválidas")
     end, db, []).
Proof.
  unfold run, login, bind, user_by_email.
  rewrite query_first_run by reflexivity. cbn [working].
  destruct (find _ (users db)) as [u|]; [|reflexivity].
  destruct (verify password (User.password_hash u)); reflexivity.
Qed.

(** X5. Registration stores whatever role the request names, and a login
    with the same e-mail and a password the hash verifies returns exactly the
    new user with a token that carries the fresh id, the e-mail and that role
    and passes the role gate for it. *)
Theorem register_then_login (verify : string -> string -> bool) (db : DB)
    (user : UserCreate.t) (hashed pk sk : string) :
  user_by_email db (UserCreate.email user) = None ->
  verify (UserCreate.password user) hashed = true ->
  exists u,
    result_of (run (register user hashed pk sk) db) = Ok (Some u)
    /\ User.id u = Some (next_id User.id (users db))
    /\ User.role u = UserCreate.role user
    /\ users (db_of (run (register user hashed pk sk) db)) = (users db ++ [u])%list
    /\ run (login verify (UserCreate.email user) (UserCreate.password user))
           (db_of (run (register user hashed pk sk) db))
       = (Ok (mkPayload (next_id User.id (users db)) (UserCreate.email user)
                (UserCreate.role user), u),
          db_of (run (register user hashed pk sk) db), [])
    /\ result_of (run (require_role [UserCreate.role user]
                         (mkPayload (next_id User.id (users db))
                            (UserCreate.email user) (UserCreate.role user)))
                    (db_of (run (register user hashed pk sk) db)))
       = Ok (mkPayload (next_id User.id (users db)) (UserCreate.email user)
               (UserCreate.role user)).
Proof.
  intros Hnew Hverify. rewrite register_run, Hnew.
  unfold result_of, db_of. cbn [fst snd].
  eexists. split; [reflexivity|].
  repeat split; try reflexivity.
  - rewrite login_run. unfold user_by_email in *. cbn [insert_obj users]. unfold insert.
    rewrite find_app_last by exact Hnew.
    cbn [User.with_id User.email]. rewrite String.eqb_refl.
    cbn [User.with_id User.password_hash]. rewrite Hverify. reflexivity.
  - unfold run. rewrite require_role_run. cbn [token_role existsb].
    rewrite String.eqb_refl. reflexivity.
Qed.

(** X6. Login issues a token only for a stored user with the given e-mail
    whose hash verifies the password, and the token carries that user's id,
    e-mail and role; every other attempt is a 401. Login writes nothing. *)
Theorem login_sound (verify : string -> string -> bool) (db : DB)
    (username password : string) :
  db_of (run (login verify username password) db) = db
  /\ trace_of (run (login verify username password) db) = []
  /\ ((exists u,
         In u (users db)
         /\ User.email u = username
         /\ verify password (User.password_hash u) = true
         /\ result_of (run (login verify username password) db) = Ok (token_of u, u))
      \/ result_of (run (login verify username password) db)
         = Raise (HTTPException 401 "Credenciais inválidas")).
Proof.
  rewrite login_run. unfold result_of, db_of, trace_of. cbn [fst snd].
  repeat split.
  destruct (user_by_email db username) as [u|] eqn:Hu; [|right; reflexivity].
  destruct (verify password (User.password_hash u)) eqn:Hv; [|right; reflexivity].
  left. exists u. unfold user_by_email in Hu. apply find_some in Hu.
  destruct Hu as [Hin He]. apply String.eqb_eq in He. repeat split; assumption.
Qed.

(** ** Store administration *)

Lemma create_store_run (db : DB) (store : StoreCreate.t) :
  run (create_store store) db
  = match find (fun u => opt_Z_eqb (User.id u) (StoreCreate.user_id store)
                         && (User.role u =? "store")%string) (users db) with
    | None => (Raise (HTTPException 404 "Usuário não encontrado ou não é uma loja"),
               db, [])
    | Some _ =>
        match store_of_user db (StoreCreate.user_id store) with
        | Some _ => (Raise (HTTPException 400 "Usuário já possui uma loja cadastrada"),
                     db, [])
        | None =>
            let s0 := Store.mk None (StoreCreate.user_id store) (StoreCreate.name store)
                        (StoreCreate.commission_rate store) true in
            (Ok (Some (Store.with_id (next_id Store.id (stores db)) s0)),
             insert_obj db (ObjStore s0), [Committed (insert_obj db (ObjStore s0))])
        end
    end.
Proof.
  unfold run, create_store, bind, store_of_user.
  rewrite query_first_run by reflexivity. cbn [working].
  destruct (find _ (users db)); [|reflexivity].
  rewrite query_first_run by reflexivity. cbn [working].
  destruct (find _ (stores db)); [reflexivity|].
  cbv [ret db_add db_commit refreshed].
  cbn [pending working committed trace app fold_left insert_obj stores].
  rewrite last_inserted. reflexivity.
Qed.

(** X7. Creating a store never gives a user a second store, and a store that
    is created belongs to a stored user with role store and starts out
    credentialed. *)
Theorem create_store_one_per_user (db : DB) (store : StoreCreate.t) :
  NoDup (map Store.user_id (stores db)) ->
  NoDup (map Store.user_id (stores (db_of (run (create_store store) db))))
  /\ forall s,
       In s (stores (db_of (run (create_store store) db))) ->
       In s (stores db)
       \/ (Store.credentialed s = true
           /\ exists u, In u (users db) /\ User.id u = Some (Store.user_id s)
                        /\ User.role u = "store").
Proof.
  intros Hnd. rewrite create_store_run.
  destruct (find _ (users db)) as [u|] eqn:Hu.
  2:{ unfold db_of. cbn [fst snd]. split; [exact Hnd | intros s Hs; left; exact Hs]. }
  destruct (store_of_user db (StoreCreate.user_id store)) as [s1|] eqn:Hs1.
  { unfold db_of. cbn [fst snd]. split; [exact Hnd | intros s Hs; left; exact Hs]. }
  unfold db_of. cbn [fst snd insert_obj stores]. unfold insert. split.
  - rewrite map_app. cbn [map Store.with_id Store.user_id].
    apply NoDup_snoc; [exact Hnd|].
    intros Hin. apply in_map_iff in Hin. destruct Hin as (s & Hsu & Hsin).
    unfold store_of_user in Hs1.
    pose proof (find_none _ _ Hs1 s Hsin) as Hf. cbn in Hf.
    rewrite Hsu, Z.eqb_refl in Hf. discriminate.
  - intros s Hs. apply in_app_or in Hs. destruct Hs as [Hs | [<- | []]]; [left; exact Hs|].
    right. cbn [Store.with_id Store.credentialed Store.user_id]. split; [reflexivity|].
    apply find_some in Hu. destruct Hu as [Hin Hc].
    apply andb_true_iff in Hc. destruct Hc as [Hid Hr].
    exists u. repeat split; [exact Hin | apply opt_Z_eqb_true; exact Hid
                             | apply String.eqb_eq; exact Hr].
Qed.

Lemma update_update {A : Type} (id : A -> option Z) (k : Z) (r1 r2 : A) (l : list A) :
  id r1 = Some k ->
  update id (Some k) r2 (update id (Some k) r1 l) = update id (Some k) r2 l.
Proof.
  intros H1. unfold update. rewrite map_map. apply map_ext. intros a.
  destruct (opt_Z_eqb (id a) k) eqn:Ha.
  - rewrite H1, opt_Z_eqb_refl. reflexivity.
  - rewrite Ha. reflexivity.
Qed.

Lemma update_absent {A : Type} (id : A -> option Z) (k : Z) (row : A) (l : list A) :
  ~ In (Some k) (map id l) -> update id (Some k) row l = l.
Proof.
  induction l as [|a l IH]; intros Hn; [reflexivity|].
  cbn [update map] in *. destruct (opt_Z_eqb (id a) k) eqn:Ha.
  - exfalso. apply Hn. left. apply opt_Z_eqb_true. exact Ha.
  - f_equal. apply IH. intros Hin. apply Hn. right. exact Hin.
Qed.

(** Writing back the row that is already there changes nothing, when keys
    are unique. *)
Lemma update_restore {A : Type} (id : A -> option Z) (k : Z) (row : A) (l : list A) :
  NoDup (map id l) ->
  find (fun x => opt_Z_eqb (id x) k) l = Some row ->
  update id (Some k) row l = l.
Proof.
  induction l as [|a l IH]; intros Hnd Hf; [reflexivity|].
  cbn [map] in Hnd. inversion Hnd as [|? ? Ha Hl]; subst.
  cbn [find] in Hf. cbn [update map].
  destruct (opt_Z_eqb (id a) k) eqn:Hak.
  - injection Hf as ->. f_equal. apply update_absent.
    apply opt_Z_eqb_true in Hak. rewrite <- Hak. exact Ha.
  - f_equal. apply IH; assumption.
Qed.

Lemma set_stores_same (db : DB) : set_stores (stores db) db = db.
Proof. destruct db. reflexivity. Qed.

Lemma toggle_store_credential_run (db : DB) (store_id : Z) :
  run (toggle_store_credential store_id) db
  = match store_by_id db store_id with
    | None => (Raise (HTTPException 404 "Loja não encontrada"), db, [])
    | Some s =>
        let db' := set_stores (update Store.id (Store.id s) (toggled s) (stores db)) db in
        (Ok ("Loja " ++ (if negb (Store.credentialed s) then "credenciada"
                         else "descredenciada") ++ " com sucesso"),
         db', [Committed db'])
    end.
Proof.
  unfold run, toggle_store_credential, bind, store_by_id.
  rewrite query_first_run by reflexivity. cbn [working].
  destruct (find _ (stores db)); reflexivity.
Qed.

(** X8. With unique store keys, toggling the credential of a store flips its
    flag and nothing else, and toggling it a second time restores the
    database. *)
Theorem toggle_store_credential_twice (db : DB) (store_id : Z) (s : Store.t) :
  NoDup (map Store.id (stores db)) ->
  store_by_id db store_id = Some s ->
  store_by_id (db_of (run (toggle_store_credential store_id) db)) store_id
  = Some (toggled s)
  /\ db_of (run (toggle_store_credential store_id)
              (db_of (run (toggle_store_credential store_id) db))) = db.
Proof.
  intros Hnd Hs.
  pose proof (find_by_id_key _ _ _ _ Hs) as Hid.
  assert (Hone : store_by_id
                   (set_stores (update Store.id (Store.id s) (toggled s) (stores db)) db)
                   store_id = Some (toggled s)).
  { unfold store_by_id. cbn [set_stores stores]. rewrite Hid.
    apply find_update_hit; [exact Hid|].
    apply find_some in Hs. exists s. split; [apply Hs | exact Hid]. }
  assert (Hrun1 : db_of (run (toggle_store_credential store_id) db)
                  = set_stores (update Store.id (Store.id s) (toggled s) (stores db)) db).
  { rewrite toggle_store_credential_run, Hs. reflexivity. }
  rewrite Hrun1. split; [exact Hone|].
  rewrite toggle_store_credential_run, Hone. unfold db_of. cbn [fst snd].
  cbn [set_stores stores users evaluators watches transfers commissions escrows].
  assert (Hid' : Store.id (toggled s) = Some store_id) by exact Hid.
  rewrite Hid', Hid.
  rewrite update_update by exact Hid.
  assert (Hback : toggled (toggled s) = s).
  { destruct s. unfold toggled. cbn. rewrite negb_involutive. reflexivity. }
  rewrite Hback.
  rewrite update_restore by assumption.
  destruct db. reflexivity.
Qed.

Lemma create_evaluator_run (db : DB) (evaluator : EvaluatorCreate.t) :
  run (create_evaluator evaluator) db
  = match find (fun u => opt_Z_eqb (User.id u) (EvaluatorCreate.user_id evaluator)
                         && (User.role u =? "evaluator")%string) (users db) with
    | None => (Raise (HTTPException 404 "Usuário não encontrado ou não é um avaliador"),
               db, [])
    | Some _ =>
        match store_by_id db (EvaluatorCreate.store_id evaluator) with
        | None => (Raise (HTTPException 404 "Loja não encontrada"), db, [])
        | Some _ =>
            let e0 := Evaluator.mk None (EvaluatorCreate.user_id evaluator)
                        (Some (EvaluatorCreate.store_id evaluator)) in
            (Ok (Some (Evaluator.with_id (next_id Evaluator.id (evaluators db)) e0)),
             insert_obj db (ObjEvaluator e0),
             [Committed (insert_obj db (ObjEvaluator e0))])
        end
    end.
Proof.
  unfold run, create_evaluator, bind, store_by_id.
  rewrite query_first_run by reflexivity. cbn [working].
  destruct (find _ (users db)); [|reflexivity].
  rewrite query_first_run by reflexivity. cbn [working].
  destruct (find _ (stores db)); [|reflexivity].
  cbv [ret db_add db_commit refreshed].
  cbn [pending working committed trace app fold_left insert_obj evaluators].
  rewrite last_inserted. reflexivity.
Qed.

(** X9. Unlike store creation, evaluator creation checks for no existing
    record: a request that succeeded once succeeds again, and the same user
    then has two evaluator rows for the same store under different keys. *)
Theorem create_evaluator_allows_duplicates (db : DB) (evaluator : EvaluatorCreate.t)
    (e1 : Evaluator.t) :
  result_of (run (create_evaluator evaluator) db) = Ok (Some e1) ->
  exists e2,
    result_of (run (create_evaluator evaluator)
                 (db_of (run (create_evaluator evaluator) db))) = Ok (Some e2)
    /\ evaluators (db_of (run (create_evaluator evaluator)
                            (db_of (run (create_evaluator evaluator) db))))
       = (evaluators db ++ [e1; e2])%list
    /\ Evaluator.user_id e1 = EvaluatorCreate.user_id evaluator
    /\ Evaluator.user_id e2 = EvaluatorCreate.user_id evaluator
    /\ Evaluator.store_id e1 = Evaluator.store_id e2
    /\ Evaluator.id e1 <> Evaluator.id e2.
Proof.
  pose proof (create_evaluator_run db evaluator) as H1.
  destruct (find _ (users db)) as [u|] eqn:Hu;
    [|rewrite H1; discriminate].
  destruct (store_by_id db _) as [s|] eqn:Hs; [|rewrite H1; discriminate].
  cbv zeta in H1. rewrite H1. clear H1. unfold result_of at 1. unfold db_of.
  cbn [fst snd]. intros [= <-].
  rewrite create_evaluator_run. cbn [insert_obj users]. rewrite Hu.
  unfold store_by_id in *. cbn [stores]. rewrite Hs.
  unfold result_of. cbn [fst snd insert_obj evaluators].
  eexists. split; [reflexivity|].
  unfold insert. rewrite <- app_assoc. cbn [app].
  repeat split; try reflexivity.
  cbn [Evaluator.with_id Evaluator.id]. intros [= E]. unfold insert in E.
  pose proof (next_id_above Evaluator.id _ _ (next_id Evaluator.id (evaluators db))
                (in_elt (Evaluator.with_id (next_id Evaluator.id (evaluators db))
                           (Evaluator.mk None (EvaluatorCreate.user_id evaluator)
                              (Some (EvaluatorCreate.store_id evaluator))))
                        (evaluators db) []) eq_refl) as Habove.
  lia.
Qed.

(** ** Escrow route *)

(** X10. A caller whose role is neither user nor evaluator is not answered
    with the 403 the route raises for it: the 403 is raised inside the [try]
    block, caught by [except Exception] and comes out as a 500 that quotes
    it. Nothing is written. *)
Theorem confirm_delivery_forbidden_role_is_500 (env : Adapters) (db : DB)
    (escrow_id : Z) (current_user : User.t) :
  User.role current_user <> "user" ->
  User.role current_user <> "evaluator" ->
  run (confirm_delivery env escrow_id current_user) db
  = (Raise (HTTPException 500
              ("Erro na confirmação: "
               ++ py_str env
                    (HTTPException 403
                       "Apenas vendedores e avaliadores podem confirmar entrega"))),
     db, []).
Proof.
  intros Hu He. apply String.eqb_neq in Hu. apply String.eqb_neq in He.
  unfold run, confirm_delivery, try_except, bind. rewrite Hu, He. reflexivity.
Qed.

(** ** More on the first purchase handler *)

Section PurchaseEdges.

Variable env : Adapters.

(** The checks before payment, passed. *)
Lemma purchase_watch_checked (db : DB) (watch_id : Z) (p : PurchasePayload.t)
    (cu : Payload) (w : Watch.t) (o : User.t) :
  purchasable db watch_id cu w o ->
  forall e,
    validate_payment p (mkWorld db db [] []) = (Raise e, mkWorld db db [] []) ->
    run (purchase_watch env watch_id p cu) db
    = (Raise (HTTPException 500 ("Erro na simulação de pagamento: " ++ py_str env e)),
       db, []).
Proof.
  intros (Hw & Ho & Hr & Hn) e Hv.
  unfold run, purchase_watch, bind.
  rewrite query_first_run by reflexivity. cbn [working].
  unfold watch_for_sale in Hw. rewrite Hw.
  rewrite query_first_run by reflexivity. cbn [working].
  unfold user_by_id in Ho. rewrite Ho, Hr.
  apply Z.eqb_neq in Hn. rewrite Hn. cbn [String.eqb Ascii.eqb Bool.eqb negb].
  unfold process_payment, try_except, bind. rewrite Hv. reflexivity.
Qed.

(** X11. Missing payment fields do not come out as a 400: the 400 raised by
    the validation of lines 366-373 is caught by the [except Exception] of
    line 377 and becomes a 500 that quotes it. The payment adapter is not
    called and nothing is written. *)
Theorem purchase_invalid_payment_is_500 (db : DB) (watch_id : Z)
    (p : PurchasePayload.t) (cu : Payload) (w : Watch.t) (o : User.t) :
  purchasable db watch_id cu w o ->
  (PurchasePayload.payment_method p = "pix" ->
   truthy_str (PurchasePayload.cpf p) = false ->
   run (purchase_watch env watch_id p cu) db
   = (Raise (payment_error_500 env "CPF é obrigatório para PIX"), db, []))
  /\ (PurchasePayload.payment_method p = "credit_card" ->
      all_truthy [PurchasePayload.card_number p; PurchasePayload.card_name p;
                  PurchasePayload.card_expiry p; PurchasePayload.card_cvv p] = false ->
      run (purchase_watch env watch_id p cu) db
      = (Raise (payment_error_500 env "Dados do cartão incompletos"), db, []))
  /\ (PurchasePayload.payment_method p = "credit_card" ->
      all_truthy [PurchasePayload.card_number p; PurchasePayload.card_name p;
                  PurchasePayload.card_expiry p; PurchasePayload.card_cvv p] = true ->
      truthy_str (PurchasePayload.cpf p) = false ->
      run (purchase_watch env watch_id p cu) db
      = (Raise (payment_error_500 env "CPF é obrigatório para pagamento com cartão"),
         db, [])).
Proof.
  intros Hp. repeat split.
  - intros Hm Hc. apply (purchase_watch_checked db watch_id p cu w o Hp).
    unfold validate_payment. rewrite Hm, Hc. reflexivity.
  - intros Hm Hc. apply (purchase_watch_checked db watch_id p cu w o Hp).
    unfold validate_payment. rewrite Hm, Hc. reflexivity.
  - intros Hm Hc Hcpf. apply (purchase_watch_checked db watch_id p cu w o Hp).
    unfold validate_payment. rewrite Hm, Hc, Hcpf. reflexivity.
Qed.

(** Once validation has passed, the payment adapter is the first thing
    called. *)
Lemma purchase_watch_reaches_payment (db : DB) (watch_id : Z)
    (p : PurchasePayload.t) (cu : Payload) (w : Watch.t) (o : User.t) :
  purchasable db watch_id cu w o ->
  validate_payment p (mkWorld db db [] []) = (Ok tt, mkWorld db db [] []) ->
  exists rest,
    trace_of (run (purchase_watch env watch_id p cu) db) = payment_call env w p :: rest.
Proof.
  intros (Hw & Ho & Hr & Hn) Hv.
  unfold run, purchase_watch, bind.
  rewrite query_first_run by reflexivity. cbn [working].
  unfold watch_for_sale in Hw. rewrite Hw.
  rewrite query_first_run by reflexivity. cbn [working].
  unfold user_by_id in Ho. rewrite Ho, Hr.
  apply Z.eqb_neq in Hn. rewrite Hn. cbn [String.eqb Ascii.eqb Bool.eqb negb].
  unfold process_payment, try_except, bind. rewrite Hv.
  unfold call_payment, bind, emit. cbn [committed working pending trace app].
  fold (sale_price w). fold (payment_call env w p).
  destruct (simulate_payment_conversion env _ _ _) as [r|e];
    [|eexists; reflexivity].
  cbn [ret fst snd].
  destruct (PaymentResult.status r =? "success")%string; [|eexists; reflexivity].
  rewrite query_first_run by reflexivity. cbn [working].
  rewrite query_first_run by reflexivity. cbn [working].
  rewrite Ho.
  destruct (find (fun u => opt_Z_eqb (User.id u) (sub cu)) (users db)) as [b|];
    [|eexists; reflexivity].
  rewrite transfer_token_run.
  destruct (TransferResult.status _ =? "success")%string; [|eexists; reflexivity].
  unfold logged. cbn [committed working pending trace app].
  rewrite record_sale_run. eexists. reflexivity.
Qed.

(** X12. A payment method other than credit_card and pix is not validated at
    all: whatever fields the request carries, the payment adapter is called,
    with the resolved price, that method, and the requested number of
    instalments or 1. *)
Theorem purchase_other_method_unvalidated (db : DB) (watch_id : Z)
    (p : PurchasePayload.t) (cu : Payload) (w : Watch.t) (o : User.t) :
  purchasable db watch_id cu w o ->
  PurchasePayload.payment_method p <> "credit_card" ->
  PurchasePayload.payment_method p <> "pix" ->
  exists rest,
    trace_of (run (purchase_watch env watch_id p cu) db)
    = PaymentCall (sale_price w) (PurchasePayload.payment_method p)
        (int_or (PurchasePayload.installments p) 1)
        (simulate_payment_conversion env (sale_price w)
           (PurchasePayload.payment_method p)
           (int_or (PurchasePayload.installments p) 1)) :: rest.
Proof.
  intros Hp Hc Hx.
  apply (purchase_watch_reaches_payment db watch_id p cu w o Hp).
  apply String.eqb_neq in Hc. apply String.eqb_neq in Hx.
  unfold validate_payment. rewrite Hc, Hx. reflexivity.
Qed.


(** X13. A watch without a current value (unset, or zero) is sold at the
    default of line 359: a completed purchase records a transfer at
    50000.00 with an admin fee of 1500.00 and a commission of 1500.00. *)
Theorem purchase_default_price (db : DB) (watch_id : Z) (p : PurchasePayload.t)
    (cu : Payload) (w : Watch.t) (resp : PurchaseResponse.t) :
  watch_for_sale db watch_id = Some w ->
  Watch.current_value_brl w = None \/ Watch.current_value_brl w = Some 0%float ->
  result_of (run (purchase_watch env watch_id p cu) db) = Ok resp ->
  exists t c,
    transfers (db_of (run (purchase_watch env watch_id p cu) db))
    = (transfers db ++ [t])%list
    /\ OwnershipTransfer.price_brl t = 50000%float
    /\ OwnershipTransfer.admin_fee_brl t = 1500%float
    /\ commissions (db_of (run (purchase_watch env watch_id p cu) db))
       = (commissions db ++ [c])%list
    /\ Commission.amount_brl c = 1500%float.
Proof.
  intros Hw Hval.
  assert (Hprice : sale_price w = 50000%float).
  { unfold sale_price. destruct Hval as [-> | ->]; reflexivity. }
  pose proof (purchase_watch_paths env db watch_id p cu) as Hpath.
  remember (run (purchase_watch env watch_id p cu) db) as r eqn:Hr. clear Hr.
  by_path Hpath; unfold result_of; cbn [fst]; try discriminate.
  intros _. destruct Hp as (Hw' & _). rewrite Hw in Hw'. injection Hw' as <-.
  unfold db_of, after_sale. cbn [fst snd transfers commissions insert].
  rewrite Hprice. do 2 eexists. repeat split; reflexivity.
Qed.

(** X14. When the payment adapter raises, the purchase fails with a 500,
    the token transfer is not attempted and nothing is written. *)
Theorem purchase_payment_adapter_raises (db : DB) (watch_id : Z)
    (p : PurchasePayload.t) (cu : Payload) :
  payment_raised (trace_of (run (purchase_watch env watch_id p cu) db)) = true ->
  (exists detail,
      result_of (run (purchase_watch env watch_id p cu) db)
      = Raise (HTTPException 500 detail))
  /\ db_of (run (purchase_watch env watch_id p cu) db) = db
  /\ commits (trace_of (run (purchase_watch env watch_id p cu) db)) = []
  /\ List.length (trace_of (run (purchase_watch env watch_id p cu) db)) = 1%nat.
Proof.
  pose proof (purchase_watch_paths env db watch_id p cu) as Hpath.
  remember (run (purchase_watch env watch_id p cu) db) as r eqn:Hr. clear Hr.
  intros Hraised.
  by_path Hpath;
    try (unfold payment_raised, trace_of, transfer_call in Hraised;
         cbn [snd existsb] in Hraised; rewrite ?Hcall in Hraised;
         cbn in Hraised; discriminate).
  unfold result_of, db_of, trace_of, commits. cbn [fst snd length].
  rewrite Hcall. cbn [flat_map app].
  repeat split; try reflexivity. eexists. reflexivity.
Qed.

(** X15. When the token names a user who has no row, the purchase stops
    with 404 "Usuário não encontrado" only after the payment adapter has
    reported success: the payment was taken, the token transfer is not
    attempted and nothing is written. *)
Theorem purchase_buyer_without_row (db : DB) (watch_id : Z)
    (p : PurchasePayload.t) (cu : Payload) :
  user_by_id db (sub cu) = None ->
  payment_succeeded (trace_of (run (purchase_watch env watch_id p cu) db)) = true ->
  result_of (run (purchase_watch env watch_id p cu) db)
  = Raise (HTTPException 404 "Usuário não encontrado")
  /\ db_of (run (purchase_watch env watch_id p cu) db) = db
  /\ List.length (trace_of (run (purchase_watch env watch_id p cu) db)) = 1%nat.
Proof.
  intros Hnorow.
  pose proof (purchase_watch_paths env db watch_id p cu) as Hpath.
  remember (run (purchase_watch env watch_id p cu) db) as r eqn:Hr. clear Hr.
  intros Hpay.
  by_path Hpath; try (read_trace Hpay; discriminate); try congruence.
  repeat split.
Qed.

(** X16. When the token-transfer adapter answers with a status other than
    success, the purchase fails with the payment-failed 400 after the payment
    adapter has reported success; nothing is written, so the payment stands
    without a sale. *)
Theorem purchase_transfer_refused_after_payment (db : DB) (watch_id : Z)
    (p : PurchasePayload.t) (cu : Payload) :
  transfer_refused (trace_of (run (purchase_watch env watch_id p cu) db)) = true ->
  payment_succeeded (trace_of (run (purchase_watch env watch_id p cu) db)) = true
  /\ result_of (run (purchase_watch env watch_id p cu) db)
     = Raise (HTTPException 400 "Falha no pagamento")
  /\ db_of (run (purchase_watch env watch_id p cu) db) = db
  /\ commits (trace_of (run (purchase_watch env watch_id p cu) db)) = [].
Proof.
  pose proof (purchase_watch_paths env db watch_id p cu) as Hpath.
  remember (run (purchase_watch env watch_id p cu) db) as r eqn:Hr. clear Hr.
  intros Href.
  by_path Hpath;
    try (unfold transfer_refused, trace_of in Href;
         cbn [snd existsb] in Href; rewrite ?Hcall in Href;
         cbn in Href; discriminate).
  - unfold result_of, db_of, trace_of, commits, payment_succeeded, transfer_call.
    cbn [fst snd existsb flat_map app]. rewrite Hcall, Hstatus.
    repeat split; reflexivity.
  - exfalso. unfold transfer_refused, trace_of, transfer_call, transfer_outcome in *.
    cbn [snd existsb] in Href. rewrite Hcall in Href.
    destruct (transfer_nft env _ _ _) as [x|x].
    + rewrite Hdone in Href. discriminate.
    + discriminate.
Qed.

End PurchaseEdges.

(** ** Listing, relisting and the escrow purchase *)

Lemma find_update_hit_where {A : Type} (id : A -> option Z) (q : A -> bool) (k : Z)
    (row : A) (l : list A) :
  id row = Some k ->
  q row = true ->
  (exists r, In r l /\ id r = Some k) ->
  find (fun x => opt_Z_eqb (id x) k && q x) (update id (Some k) row l) = Some row.
Proof.
  intros Hrow Hq. induction l as [|a l IH]; intros (r & Hin & Hr).
  - destruct Hin.
  - cbn [update map find]. destruct (opt_Z_eqb (id a) k) eqn:Ha.
    + rewrite Hrow, opt_Z_eqb_refl, Hq. reflexivity.
    + rewrite Ha. cbn [andb]. apply IH. destruct Hin as [-> | Hin].
      * rewrite Hr, opt_Z_eqb_refl in Ha. discriminate.
      * exists r. split; assumption.
Qed.

(** A status or price edit of a watch found under a key, seen by the
    purchase handlers. *)
Lemma watch_for_sale_updated (db db0 : DB) (watch_id : Z) (w w' : Watch.t) :
  In w (watches db) ->
  Watch.id w = Some watch_id ->
  Watch.id w' = Some watch_id ->
  Watch.status w' = "for_sale" ->
  watch_for_sale (set_watches (update Watch.id (Some watch_id) w' (watches db)) db0)
    watch_id = Some w'.
Proof.
  intros Hin Hid Hid' Hst. unfold watch_for_sale.
  cbn [set_watches watches].
  apply (find_update_hit_where Watch.id
           (fun x => (Watch.status x =? "for_sale")%string)).
  - exact Hid'.
  - rewrite Hst. reflexivity.
  - exists w. split; assumption.
Qed.

Lemma watch_by_id_updated (db db0 : DB) (watch_id : Z) (w w' : Watch.t) :
  In w (watches db) ->
  Watch.id w = Some watch_id ->
  Watch.id w' = Some watch_id ->
  watch_by_id (set_watches (update Watch.id (Some watch_id) w' (watches db)) db0)
    watch_id = Some w'.
Proof.
  intros Hin Hid Hid'. unfold watch_by_id. cbn [set_watches watches].
  apply find_update_hit; [exact Hid'|]. exists w. split; assumption.
Qed.

Lemma purchase_watch'_run (db : DB) (watch_id : Z) (cu : Payload) :
  run (purchase_watch' watch_id cu) db
  = match watch_for_sale db watch_id with
    | None => (Raise (HTTPException 404 "Relógio não encontrado ou não disponível"),
               db, [])
    | Some w =>
        let db1 := insert_obj db (ObjEscrow (new_escrow watch_id w cu)) in
        let db2 := set_watches (update Watch.id (Watch.id w)
                                  (Watch.with_status "sold" w) (watches db1)) db1 in
        (Ok (Some (next_id Escrow.id (escrows db)), Watch.price_brl w, watch_id),
         db2, [Committed db1; Committed db2])
    end.
Proof.
  unfold run, purchase_watch', bind, watch_for_sale.
  rewrite query_first_run by reflexivity. cbn [working].
  destruct (find _ (watches db)) as [w|]; [|reflexivity].
  cbv [ret db_add db_commit refreshed db_set_watch].
  cbn [pending working committed trace app fold_left].
  fold (new_escrow watch_id w cu).
  cbn [insert_obj escrows]. rewrite last_inserted. reflexivity.
Qed.

(** X17. The second purchase handler, on a watch that is for sale, takes no
    payment and checks neither the owner's role nor that the buyer differs
    from the owner: it opens a pending escrow for the caller against the
    current owner at the watch's listed price, marks the watch sold and
    leaves its owner, the transfers and the commissions as they were, in
    two commits. *)
Theorem purchase_watch'_opens_escrow (db : DB) (watch_id : Z) (cu : Payload)
    (w : Watch.t) :
  watch_for_sale db watch_id = Some w ->
  result_of (run (purchase_watch' watch_id cu) db)
  = Ok (Some (next_id Escrow.id (escrows db)), Watch.price_brl w, watch_id)
  /\ escrows (db_of (run (purchase_watch' watch_id cu) db))
     = (escrows db
        ++ [Escrow.mk (Some (next_id Escrow.id (escrows db))) (Some watch_id)
              (Some (sub cu)) (Some (Watch.current_owner_user_id w))
              (Watch.price_brl w) "pending" false false])%list
  /\ watch_by_id (db_of (run (purchase_watch' watch_id cu) db)) watch_id
     = Some (Watch.with_status "sold" w)
  /\ transfers (db_of (run (purchase_watch' watch_id cu) db)) = transfers db
  /\ commissions (db_of (run (purchase_watch' watch_id cu) db)) = commissions db
  /\ List.length (commits (trace_of (run (purchase_watch' watch_id cu) db))) = 2%nat
  /\ payment_succeeded (trace_of (run (purchase_watch' watch_id cu) db)) = false.
Proof.
  intros Hw. rewrite purchase_watch'_run, Hw.
  pose proof (watch_for_sale_row _ _ _ Hw) as (Hin & Hid & _).
  unfold result_of, db_of, trace_of. cbn [fst snd].
  repeat split.
  rewrite Hid. cbn [insert_obj watches].
  apply watch_by_id_updated with (w := w); [exact Hin | exact Hid | exact Hid].
Qed.

Lemma put_watch_for_sale_run (db : DB) (watch_id : Z) (sale_data : SaleData)
    (cu : Payload) (w : Watch.t) :
  (token_role cu <> "store" /\ watch_by_id db watch_id = Some w)
  \/ (token_role cu = "store"
      /\ exists s, store_of_user db (sub cu) = Some s
                   /\ find (fun x => opt_Z_eqb (Watch.id x) watch_id
                                     && match Watch.store_id x, Store.id s with
                                        | Some a, Some b => a =? b
                                        | _, _ => false
                                        end) (watches db) = Some w) ->
  let db' := set_watches (update Watch.id (Watch.id w) (put_up sale_data w) (watches db)) db in
  run (put_watch_for_sale watch_id sale_data cu) db
  = (Ok (Watch.id w, Watch.price_brl (put_up sale_data w)), db', [Committed db']).
Proof.
  intros [(Hr & Hw) | (Hr & s & Hs & Hw)]; unfold run, put_watch_for_sale, bind.
  - apply String.eqb_neq in Hr. rewrite Hr.
    rewrite query_first_run by reflexivity. cbn [working].
    unfold watch_by_id in Hw. rewrite Hw. reflexivity.
  - rewrite Hr. cbn [String.eqb Ascii.eqb Bool.eqb].
    rewrite query_first_run by reflexivity. cbn [working].
    unfold store_of_user in Hs. rewrite Hs.
    rewrite query_first_run by reflexivity. cbn [working].
    rewrite Hw. reflexivity.
Qed.

(** X18. A caller who is not a store (behind the gate: an admin) can put any
    existing watch up for sale, whatever its status: afterwards the purchase
    handlers find it for sale with its owner unchanged. The listed price is
    the number in the request; it is the current value only when the request
    has no [price_brl] key, and it is empty when the request carries
    [price_brl: null]. The price the first purchase handler charges is not
    affected, and no transfer is touched. *)
Theorem put_watch_for_sale_by_admin (db : DB) (watch_id : Z) (sale_data : SaleData)
    (cu : Payload) (w : Watch.t) :
  token_role cu <> "store" ->
  watch_by_id db watch_id = Some w ->
  exists w',
    watch_for_sale (db_of (run (put_watch_for_sale watch_id sale_data cu) db)) watch_id
    = Some w'
    /\ Watch.current_owner_user_id w' = Watch.current_owner_user_id w
    /\ Watch.price_brl w' = match sale_data with
                            | NoPrice => Watch.current_value_brl w
                            | PriceNull => None
                            | PriceNumber x => Some x
                            end
    /\ sale_price w' = sale_price w
    /\ transfers (db_of (run (put_watch_for_sale watch_id sale_data cu) db)) = transfers db.
Proof.
  intros Hr Hw.
  rewrite (put_watch_for_sale_run db watch_id sale_data cu w) by (left; split; assumption).
  pose proof (find_by_id_key _ _ _ _ Hw) as Hid.
  apply find_some in Hw. destruct Hw as [Hin _].
  unfold db_of. cbn [fst snd]. rewrite Hid.
  exists (put_up sale_data w). split.
  - apply watch_for_sale_updated with (w := w); try assumption; reflexivity.
  - repeat split.
Qed.

(** X19. A store is let through by the store the watch is filed under, not
    by ownership: it can put a watch of its inventory up for sale again
    after the watch was sold and belongs to someone else. The owner stays
    who it was. *)
Theorem put_watch_for_sale_by_store (db : DB) (watch_id : Z) (sale_data : SaleData)
    (cu : Payload) (s : Store.t) (sid : Z) (w : Watch.t) :
  token_role cu = "store" ->
  store_of_user db (sub cu) = Some s ->
  Store.id s = Some sid ->
  In w (watches db) ->
  Watch.id w = Some watch_id ->
  Watch.store_id w = Some sid ->
  (forall x, In x (watches db) -> Watch.id x = Some watch_id -> x = w) ->
  exists w',
    watch_for_sale (db_of (run (put_watch_for_sale watch_id sale_data cu) db)) watch_id
    = Some w'
    /\ Watch.status w' = "for_sale"
    /\ Watch.current_owner_user_id w' = Watch.current_owner_user_id w.
Proof.
  intros Hr Hs Hsid Hin Hid Hst Huniq.
  assert (Hfind : find (fun x => opt_Z_eqb (Watch.id x) watch_id
                                 && match Watch.store_id x, Store.id s with
                                    | Some a, Some b => a =? b
                                    | _, _ => false
                                    end) (watches db) = Some w).
  { destruct (find _ (watches db)) as [x|] eqn:Hx.
    - apply find_some in Hx. destruct Hx as [Hxin Hxp].
      apply andb_true_iff in Hxp. destruct Hxp as [Hxid _].
      f_equal. apply Huniq; [exact Hxin | apply opt_Z_eqb_true; exact Hxid].
    - pose proof (find_none _ _ Hx w Hin) as Hf. cbn beta in Hf.
      rewrite Hid, Hst, Hsid, opt_Z_eqb_refl, Z.eqb_refl in Hf. discriminate. }
  rewrite (put_watch_for_sale_run db watch_id sale_data cu w)
    by (right; split; [exact Hr | exists s; split; assumption]).
  unfold db_of. cbn [fst snd]. rewrite Hid.
  exists (put_up sale_data w). split.
  - apply watch_for_sale_updated with (w := w); try assumption; reflexivity.
  - split; reflexivity.
Qed.

(** X20. The price given to /sell is what the second purchase handler puts
    in escrow: after an admin lists a watch at a price, an escrow purchase
    opens a pending escrow for exactly that amount against the watch's
    owner. *)
Theorem sell_then_escrow_purchase (db : DB) (watch_id : Z) (x : float)
    (cu buyer : Payload) (w : Watch.t) :
  token_role cu <> "store" ->
  watch_by_id db watch_id = Some w ->
  escrows (db_of (run (purchase_watch' watch_id buyer)
                    (db_of (run (put_watch_for_sale watch_id (PriceNumber x) cu) db))))
  = (escrows db
     ++ [Escrow.mk (Some (next_id Escrow.id (escrows db))) (Some watch_id)
           (Some (sub buyer)) (Some (Watch.current_owner_user_id w))
           (Some x) "pending" false false])%list.
Proof.
  intros Hr Hw.
  rewrite (put_watch_for_sale_run db watch_id (PriceNumber x) cu w) by (left; split; assumption).
  pose proof (find_by_id_key _ _ _ _ Hw) as Hid.
  apply find_some in Hw. destruct Hw as [Hin _].
  unfold db_of at 2. cbn [fst snd]. rewrite Hid.
  rewrite purchase_watch'_run.
  rewrite (watch_for_sale_updated db db watch_id w (put_up (PriceNumber x) w))
    by (try assumption; reflexivity).
  unfold db_of. cbn [fst snd]. reflexivity.
Qed.

Lemma list_for_sale_run (db : DB) (watch_id : Z) (price : float) (cu : Payload)
    (u : User.t) (w : Watch.t) :
  user_by_id db (sub cu) = Some u ->
  User.role u = "store" ->
  find (fun x => opt_Z_eqb (Watch.id x) watch_id
                 && (Watch.current_owner_user_id x =? sub cu)) (watches db) = Some w ->
  let db' := set_watches (update Watch.id (Watch.id w) (Watch.with_status "for_sale" w)
                            (watches db)) db in
  run (list_for_sale watch_id price cu) db
  = (Ok ("Relógio listado para venda pela loja", price), db', [Committed db']).
Proof.
  intros Hu Hr Hw. unfold run, list_for_sale, bind.
  rewrite query_first_run by reflexivity. cbn [working].
  unfold user_by_id in Hu. rewrite Hu, Hr. cbn [String.eqb Ascii.eqb Bool.eqb negb].
  rewrite query_first_run by reflexivity. cbn [working].
  rewrite Hw. reflexivity.
Qed.

(** X21. When a store lists a watch it owns, the watch becomes for sale and
    any other user passes the checks the first purchase handler makes before
    payment. Only the status changes: the price in the listing request is
    echoed and not stored, so the database is the same whatever price was
    named. *)
Theorem list_for_sale_makes_purchasable (db : DB) (watch_id : Z) (price : float)
    (cu : Payload) (u : User.t) (w : Watch.t) :
  user_by_id db (sub cu) = Some u ->
  User.role u = "store" ->
  In w (watches db) ->
  Watch.id w = Some watch_id ->
  Watch.current_owner_user_id w = sub cu ->
  (forall x, In x (watches db) -> Watch.id x = Some watch_id -> x = w) ->
  (forall buyer,
      sub buyer <> sub cu ->
      purchasable (db_of (run (list_for_sale watch_id price cu) db)) watch_id buyer
        (Watch.with_status "for_sale" w) u)
  /\ forall other_price,
       db_of (run (list_for_sale watch_id other_price cu) db)
       = db_of (run (list_for_sale watch_id price cu) db).
Proof.
  intros Hu Hr Hin Hid Hown Huniq.
  assert (Hfind : find (fun x => opt_Z_eqb (Watch.id x) watch_id
                                 && (Watch.current_owner_user_id x =? sub cu))
                    (watches db) = Some w).
  { destruct (find _ (watches db)) as [x|] eqn:Hx.
    - apply find_some in Hx. destruct Hx as [Hxin Hxp].
      apply andb_true_iff in Hxp. destruct Hxp as [Hxid _].
      f_equal. apply Huniq; [exact Hxin | apply opt_Z_eqb_true; exact Hxid].
    - pose proof (find_none _ _ Hx w Hin) as Hf. cbn beta in Hf.
      rewrite Hid, Hown, opt_Z_eqb_refl, Z.eqb_refl in Hf. discriminate. }
  split.
  - intros buyer Hb.
    rewrite (list_for_sale_run db watch_id price cu u w Hu Hr Hfind).
    unfold db_of. cbn [fst snd]. rewrite Hid.
    repeat split.
    + apply watch_for_sale_updated with (w := w); try assumption; reflexivity.
    + cbn [Watch.with_status Watch.current_owner_user_id]. rewrite Hown. exact Hu.
    + exact Hr.
    + cbn [Watch.with_status Watch.current_owner_user_id]. rewrite Hown.
      intros E. apply Hb. symmetry. exact E.
  - intros other.
    rewrite (list_for_sale_run db watch_id price cu u w Hu Hr Hfind).
    rewrite (list_for_sale_run db watch_id other cu u w Hu Hr Hfind).
    reflexivity.
Qed.

(** X22. The marketplace route returns the watches with status for_sale,
    and the first purchase handler answers 404 "Relógio não disponível para
    venda" exactly for the ids that no listed watch carries. *)
Theorem purchase_404_iff_not_listed (env : Adapters) (db : DB) (watch_id : Z)
    (p : PurchasePayload.t) (cu : Payload) :
  run marketplace_watches db = (Ok (listed db), db, [])
  /\ (result_of (run (purchase_watch env watch_id p cu) db)
      = Raise (HTTPException 404 "Relógio não disponível para venda")
      <-> forall w, In w (listed db) -> Watch.id w <> Some watch_id).
Proof.
  split; [apply marketplace_watches_run|].
  assert (Hiff : watch_for_sale db watch_id = None
                 <-> forall w, In w (listed db) -> Watch.id w <> Some watch_id).
  { unfold watch_for_sale, listed. split.
    - intros Hnone w Hw Hid. apply filter_In in Hw. destruct Hw as [Hin Hst].
      pose proof (find_none _ _ Hnone w Hin) as Hf. cbn beta in Hf.
      rewrite Hid, opt_Z_eqb_refl, Hst in Hf. discriminate.
    - intros Hall. destruct (find _ (watches db)) as [w|] eqn:Hf; [|reflexivity].
      exfalso. apply find_some in Hf. destruct Hf as [Hin Hp].
      apply andb_true_iff in Hp. destruct Hp as [Hid Hst].
      apply (Hall w); [apply filter_In; split; assumption|].
      apply opt_Z_eqb_true. exact Hid. }
  rewrite <- Hiff.
  pose proof (purchase_watch_paths env db watch_id p cu) as Hpath.
  remember (run (purchase_watch env watch_id p cu) db) as r eqn:Hr. clear Hr.
  by_path Hpath; unfold result_of; cbn [fst];
    try (destruct Hp as (Hw0 & _));
    (split; [intros E; try discriminate E; try assumption
            | intros E; try congruence; try reflexivity]).
Qed.

Lemma watch_history_run (db : DB) (watch_id : Z) :
  run (watch_history watch_id) db = (Ok (history_of db watch_id), db, []).
Proof.
  unfold run, watch_history. rewrite query_all_run by reflexivity. reflexivity.
Qed.

(** X23. After a completed purchase the history route of the watch returns
    what it returned before followed by the one new sale transfer, from the
    previous owner to the buyer; the history of every other watch is
    unchanged. *)
Theorem purchase_extends_history (env : Adapters) (db : DB) (watch_id : Z)
    (p : PurchasePayload.t) (cu : Payload) (resp : PurchaseResponse.t) :
  result_of (run (purchase_watch env watch_id p cu) db) = Ok resp ->
  exists t,
    result_of (run (watch_history watch_id)
                 (db_of (run (purchase_watch env watch_id p cu) db)))
    = Ok (history_of db watch_id ++ [t])%list
    /\ OwnershipTransfer.type t = "sale"
    /\ OwnershipTransfer.to_user_id t = sub cu
    /\ (exists w, watch_for_sale db watch_id = Some w
                  /\ OwnershipTransfer.from_user_id t = Watch.current_owner_user_id w)
    /\ forall other,
         other <> watch_id ->
         history_of (db_of (run (purchase_watch env watch_id p cu) db)) other
         = history_of db other.
Proof.
  pose proof (purchase_watch_paths env db watch_id p cu) as Hpath.
  remember (run (purchase_watch env watch_id p cu) db) as r eqn:Hr. clear Hr.
  by_path Hpath; unfold result_of at 1; cbn [fst]; try discriminate.
  intros _. destruct Hp as (Hw & _).
  pose proof (watch_for_sale_row _ _ _ Hw) as (_ & Hid & _).
  unfold db_of. cbn [fst snd]. rewrite watch_history_run.
  unfold result_of, history_of, after_sale. cbn [fst transfers]. unfold insert.
  eexists. split.
  - rewrite filter_app. cbn [filter OwnershipTransfer.with_id OwnershipTransfer.watch_id].
    rewrite Hid, opt_Z_eqb_refl. reflexivity.
  - cbn [OwnershipTransfer.with_id OwnershipTransfer.type OwnershipTransfer.to_user_id
           OwnershipTransfer.from_user_id].
    repeat split.
    + exists w0. split; [exact Hw | reflexivity].
    + intros other Hother. rewrite filter_app.
      cbn [filter OwnershipTransfer.with_id OwnershipTransfer.watch_id].
      rewrite Hid. cbn [opt_Z_eqb].
      apply not_eq_sym in Hother. apply Z.eqb_neq in Hother. rewrite Hother.
      apply app_nil_r.
Qed.

(** ** The effect of a request *)

Section HandlerEffects.

Variable buyer_ok : User.t -> Prop.
Variable shadowed : Prop.

Lemma gate_effect {A : Type} (roles : list string) (token : Payload)
    (h : Payload -> M A) (db : DB) :
  (existsb (String.eqb (token_role token)) roles = true ->
   db_effect buyer_ok shadowed db (db_of (run (h token) db))) ->
  db_effect buyer_ok shadowed db (db_of (run (bind (require_role roles token) h) db)).
Proof.
  intros H. unfold run, bind. rewrite require_role_run.
  destruct (existsb _ roles); [apply H; reflexivity | apply effect_none].
Qed.

Lemma register_effect (db : DB) (user : UserCreate.t) (hashed pk sk : string) :
  db_effect buyer_ok shadowed db (db_of (run (register user hashed pk sk) db)).
Proof.
  rewrite register_run.
  destruct (user_by_email db (UserCreate.email user)) eqn:Hu.
  - apply effect_none.
  - apply effect_user. exact Hu.
Qed.

Lemma create_watch_effect (db : DB) (watch : WatchCreate.t) (cu : Payload) :
  db_effect buyer_ok shadowed db (db_of (run (create_watch watch cu) db)).
Proof.
  destruct (watch_by_serial db (WatchCreate.serial_number watch)) as [w|] eqn:Hs.
  - replace (db_of (run (create_watch watch cu) db)) with db; [apply effect_none|].
    unfold run, create_watch, bind.
    rewrite query_first_run by reflexivity. cbn [working].
    unfold watch_by_serial in Hs. rewrite Hs. reflexivity.
  - destruct (token_role cu =? "store")%string eqn:Hr.
    + replace (db_of (run (create_watch watch cu) db)) with db; [apply effect_none|].
      apply String.eqb_eq in Hr.
      unfold run, create_watch, bind.
      rewrite query_first_run by reflexivity. cbn [working].
      unfold watch_by_serial in Hs. rewrite Hs, Hr. reflexivity.
    + apply String.eqb_neq in Hr.
      destruct (create_watch_run db watch cu Hs Hr) as [msg ->].
      unfold db_of. cbn [fst snd]. apply effect_watch.
      * exact Hs.
      * unfold new_watch, initial_status. cbn [Watch.status].
        destruct (token_role cu =? "admin")%string; [left; reflexivity|].
        destruct (token_role cu =? "evaluator")%string; [right | left]; reflexivity.
Qed.

Lemma tokenize_watch_effect (env : Adapters) (db : DB) (watch_id : Z) (cu : Payload) :
  db_of (run (tokenize_watch env watch_id cu) db) = db.
Proof.
  unfold run, tokenize_watch, bind.
  rewrite query_first_run by reflexivity. cbn [working].
  destruct (find _ (watches db)); [|reflexivity].
  rewrite query_first_unbound by reflexivity. reflexivity.
Qed.

Lemma list_for_sale_effect (db : DB) (watch_id : Z) (price : float) (cu : Payload) :
  db_effect buyer_ok shadowed db (db_of (run (list_for_sale watch_id price cu) db)).
Proof.
  unfold run, list_for_sale, bind.
  rewrite query_first_run by reflexivity. cbn [working].
  destruct (find _ (users db)) as [u|]; [|apply effect_none].
  destruct (negb (User.role u =? "store")%string); [apply effect_none|].
  rewrite query_first_run by reflexivity. cbn [working].
  destruct (find _ (watches db)) as [w|] eqn:Hw; [|apply effect_none].
  apply find_some in Hw. destruct Hw as [Hin Hp].
  apply andb_true_iff in Hp. destruct Hp as [Hid _]. apply opt_Z_eqb_true in Hid.
  unfold db_of. cbn. rewrite Hid.
  apply effect_status with (w := w); try assumption; reflexivity.
Qed.

Lemma put_watch_for_sale_effect (db : DB) (watch_id : Z) (sale_data : SaleData)
    (cu : Payload) :
  db_effect buyer_ok shadowed db (db_of (run (put_watch_for_sale watch_id sale_data cu) db)).
Proof.
  assert (Hdone : forall w,
             In w (watches db) -> Watch.id w = Some watch_id ->
             db_effect buyer_ok shadowed db
               (set_watches
                  (update Watch.id (Watch.id w) (put_up sale_data w) (watches db)) db)).
  { intros w Hin Hid. rewrite Hid.
    apply effect_status with (w := w); try assumption; reflexivity. }
  unfold run, put_watch_for_sale, bind.
  destruct (token_role cu =? "store")%string.
  - rewrite query_first_run by reflexivity. cbn [working].
    destruct (find _ (stores db)) as [s|]; [|apply effect_none].
    rewrite query_first_run by reflexivity. cbn [working].
    destruct (find _ (watches db)) as [w|] eqn:Hw; [|apply effect_none].
    apply find_some in Hw. destruct Hw as [Hin Hp].
    apply andb_true_iff in Hp. destruct Hp as [Hid _]. apply opt_Z_eqb_true in Hid.
    apply (Hdone w Hin Hid).
  - rewrite query_first_run by reflexivity. cbn [working].
    destruct (find _ (watches db)) as [w|] eqn:Hw; [|apply effect_none].
    pose proof (find_by_id_key _ _ _ _ Hw) as Hid.
    apply find_some in Hw. destruct Hw as [Hin _].
    apply (Hdone w Hin Hid).
Qed.

(** A sale: the watch was for sale and owned by a store row, and the buyer
    has a row. *)
Lemma purchase_watch_effect (env : Adapters) (db : DB) (watch_id : Z)
    (p : PurchasePayload.t) (cu : Payload) :
  (forall b, user_by_id db (sub cu) = Some b -> buyer_ok b) ->
  db_effect buyer_ok shadowed db (db_of (run (purchase_watch env watch_id p cu) db)).
Proof.
  intros Hok.
  pose proof (purchase_watch_paths env db watch_id p cu) as Hpath.
  remember (run (purchase_watch env watch_id p cu) db) as r eqn:Hr. clear Hr.
  by_path Hpath; unfold db_of; cbn [fst snd]; try apply effect_none.
  destruct Hp as (Hw & Ho & Hrole & Hne).
  apply effect_sale with (o := o0) (b := b0) (k := watch_id); try assumption.
  apply Hok. exact Hbuyer.
Qed.

Lemma purchase_watch'_effect (db : DB) (watch_id : Z) (cu : Payload) :
  shadowed ->
  db_effect buyer_ok shadowed db (db_of (run (purchase_watch' watch_id cu) db)).
Proof.
  intros Hshadowed. rewrite purchase_watch'_run.
  destruct (watch_for_sale db watch_id) as [w|] eqn:Hw; [|apply effect_none].
  apply watch_for_sale_row in Hw. destruct Hw as (Hin & Hid & _).
  unfold db_of. cbn [fst snd insert_obj watches]. rewrite Hid.
  apply (effect_escrow_sale buyer_ok shadowed db w (new_escrow watch_id w cu) watch_id
           Hshadowed Hin Hid).
Qed.

Lemma shadowed_purchase_effect (token : Payload) (watch_id : Z) (db : DB) :
  shadowed ->
  db_effect buyer_ok shadowed db (shadowed_purchase token watch_id db).
Proof.
  intros Hshadowed. unfold shadowed_purchase.
  apply gate_effect. intros _. apply purchase_watch'_effect. exact Hshadowed.
Qed.

Lemma confirm_delivery_effect (env : Adapters) (db : DB) (escrow_id : Z)
    (current_user : User.t) :
  db_effect buyer_ok shadowed db (db_of (run (confirm_delivery env escrow_id current_user) db)).
Proof.
  assert (Hc : forall confirmer,
             db_effect buyer_ok shadowed db (db_of (run (escrow_confirm_delivery escrow_id confirmer) db))).
  { intros confirmer. unfold run, escrow_confirm_delivery, bind.
    cbn [working].
    destruct (find _ (escrows db)) as [e|] eqn:He; [|apply effect_none].
    pose proof (find_by_id_key _ _ _ _ He) as Hid.
    unfold db_of. cbn.
    match goal with
    | |- db_effect _ _ _ (set_escrows (update _ (Escrow.id ?x) _ _) _) =>
        assert (Hx : Escrow.id x = Some escrow_id)
    end.
    { destruct (confirmer =? "seller")%string;
        [|destruct (confirmer =? "evaluator")%string];
        match goal with
        | |- Escrow.id (if ?c then _ else _) = _ => destruct c
        end; exact Hid. }
    rewrite Hx. apply effect_escrow. exact Hx. }
  unfold confirm_delivery, run, try_except, bind, db_of.
  destruct (User.role current_user =? "user")%string.
  - specialize (Hc "seller"). unfold run, db_of in Hc. cbn [ret].
    destruct (escrow_confirm_delivery escrow_id "seller" _) as [[r|x] w']; exact Hc.
  - destruct (User.role current_user =? "evaluator")%string.
    + specialize (Hc "evaluator"). unfold run, db_of in Hc. cbn [ret].
      destruct (escrow_confirm_delivery escrow_id "evaluator" _) as [[r|x] w']; exact Hc.
    + apply effect_none.
Qed.

(** Whatever the request, the database it leaves is the old one changed in
    one of the listed ways. The hypothesis is about the one request that can
    sell a watch: what is known of the row of a buyer who passed the gate. *)
Lemma serve_effect (env : Adapters) (req : Request) (db : DB) :
  (forall token watch_id purchase b,
      req = PurchaseWatch token watch_id purchase ->
      token_role token = "user" ->
      user_by_id db (sub token) = Some b -> buyer_ok b) ->
  db_effect buyer_ok shadowed db (serve env req db).
Proof.
  intros Hbuyer. destruct req; cbn [serve].
  - apply register_effect.
  - apply gate_effect. intros _. apply create_watch_effect.
  - unfold post_tokenize. apply gate_effect. intros _.
    rewrite tokenize_watch_effect. apply effect_none.
  - apply gate_effect. intros _. apply list_for_sale_effect.
  - unfold post_purchase. apply gate_effect. intros Hgate.
    apply purchase_watch_effect. intros b Hb.
    apply (Hbuyer token watch_id purchase b eq_refl); [|exact Hb].
    cbn [existsb] in Hgate. rewrite orb_false_r in Hgate.
    apply String.eqb_eq. exact Hgate.
  - apply gate_effect. intros _. apply put_watch_for_sale_effect.
  - apply confirm_delivery_effect.
Qed.

Lemma serve_admin_effect (req : AdminRequest) (db : DB) :
  db_effect buyer_ok shadowed db (serve_admin req db).
Proof.
  destruct req; cbn [serve_admin]; apply gate_effect with (h := fun _ => _); intros _.
  - rewrite create_store_run.
    destruct (find _ (users db)) as [u|] eqn:Hu; [|apply effect_none].
    destruct (store_of_user db (StoreCreate.user_id store)) eqn:Hs; [apply effect_none|].
    apply find_some in Hu. destruct Hu as [Hin Hu].
    apply andb_true_iff in Hu. destruct Hu as [Hid Hrole].
    apply effect_store with (u := u).
    + exact Hs.
    + exact Hin.
    + apply opt_Z_eqb_true. exact Hid.
    + apply String.eqb_eq. exact Hrole.
  - rewrite create_evaluator_run.
    destruct (find _ (users db)) as [u|] eqn:Hu; [|apply effect_none].
    destruct (store_by_id db _) as [s|] eqn:Hs; [|apply effect_none].
    apply find_some in Hu. destruct Hu as [Hin Hu].
    apply andb_true_iff in Hu. destruct Hu as [Hid Hrole].
    apply effect_evaluator
      with (u := u) (s := s) (k := EvaluatorCreate.store_id evaluator).
    + exact Hin.
    + apply opt_Z_eqb_true. exact Hid.
    + apply String.eqb_eq. exact Hrole.
    + reflexivity.
    + exact Hs.
  - rewrite toggle_store_credential_run.
    destruct (store_by_id db store_id) as [s|] eqn:Hs; [|apply effect_none].
    pose proof (find_by_id_key _ _ _ _ Hs) as Hid.
    apply find_some in Hs. destruct Hs as [Hin _].
    unfold db_of. cbn [fst snd]. rewrite Hid.
    apply effect_store_update with (s := s); try assumption; reflexivity.
Qed.

(** ** Invariants of the reachable states *)

Lemma keys_ok_insert {A : Type} (id : A -> option Z) (with_id : Z -> A -> A)
    (l : list A) (row : A) :
  (forall k r, id (with_id k r) = Some k) ->
  keys_ok id l -> keys_ok id (insert id with_id l row).
Proof.
  intros Hid [Hnd Hnn]. unfold keys_ok, insert. rewrite map_app. cbn [map].
  rewrite Hid. split.
  - apply NoDup_snoc; [exact Hnd|].
    intros Hin. apply in_map_iff in Hin. destruct Hin as (r & Hr & Hrin).
    pose proof (next_id_above id l r _ Hrin Hr). lia.
  - intros Hin. apply in_app_or in Hin. destruct Hin as [Hin | [Hin | []]].
    + exact (Hnn Hin).
    + discriminate Hin.
Qed.

Lemma map_id_update {A : Type} (id : A -> option Z) (k : Z) (row : A) (l : list A) :
  id row = Some k -> map id (update id (Some k) row l) = map id l.
Proof.
  intros Hrow. unfold update. rewrite map_map. apply map_ext. intros a.
  destruct (opt_Z_eqb (id a) k) eqn:Ha; [|reflexivity].
  apply opt_Z_eqb_true in Ha. congruence.
Qed.

Lemma keys_ok_update {A : Type} (id : A -> option Z) (k : Z) (row : A) (l : list A) :
  id row = Some k -> keys_ok id l -> keys_ok id (update id (Some k) row l).
Proof.
  intros Hrow H. unfold keys_ok. rewrite map_id_update by exact Hrow. exact H.
Qed.

(** With unique keys, two rows under one key are one row. *)
Lemma unique_by_key {A : Type} (id : A -> option Z) (l : list A) (a b : A) :
  NoDup (map id l) -> In a l -> In b l -> id a = id b -> a = b.
Proof.
  induction l as [|x l IH]; intros Hnd Ha Hb Hab; [destruct Ha|].
  cbn [map] in Hnd. inversion Hnd as [|? ? Hx Hl]; subst.
  destruct Ha as [-> | Ha], Hb as [-> | Hb].
  - reflexivity.
  - exfalso. apply Hx. rewrite Hab. apply in_map. exact Hb.
  - exfalso. apply Hx. rewrite <- Hab. apply in_map. exact Ha.
  - apply IH; assumption.
Qed.

(** A column that the new row shares with the old one is unchanged by the
    update. *)
Lemma map_column_update {A B : Type} (id : A -> option Z) (f : A -> B) (k : Z)
    (old row : A) (l : list A) :
  NoDup (map id l) -> In old l -> id old = Some k -> f row = f old ->
  map f (update id (Some k) row l) = map f l.
Proof.
  intros Hnd Hin Hid Hf. unfold update. rewrite map_map.
  apply map_ext_in. intros a Ha.
  destruct (opt_Z_eqb (id a) k) eqn:Hak; [|reflexivity].
  apply opt_Z_eqb_true in Hak.
  rewrite (unique_by_key id l a old Hnd Ha Hin) by congruence. exact Hf.
Qed.

Lemma in_update {A : Type} (id : A -> option Z) (k : Z) (row x : A) (l : list A) :
  In x (update id (Some k) row l) -> In x l \/ x = row.
Proof.
  unfold update. intros H. apply in_map_iff in H. destruct H as (a & Ha & Hin).
  destruct (opt_Z_eqb (id a) k); [right | left]; congruence.
Qed.

Lemma effect_keeps_keys (db db' : DB) :
  db_effect buyer_ok shadowed db db' -> db_keys_ok db -> db_keys_ok db'.
Proof.
  intros He (Hu & Hs & Hv & Hw & Ht & Hc & Hx).
  destruct He as [ | u0 Hnew | w0 Hnew Hst | w w' k Hin Hid Hid' Hsame Howner Hst
                 | w o b buyer tx k Hfs Ho Hstore Hne Hb Hbok
                 | w e0 k Hshadowed Hin Hid | e' k Hid
                 | s0 u0 Hnew Hu0 Hu0id Hu0role
                 | e0 u0 s0 k Hu0 Hu0id Hu0role Hsid Hs0
                 | s s' k Hin Hid Hid' Huid ];
    try (pose proof (watch_for_sale_row _ _ _ Hfs) as (Hin & Hid & _));
    unfold db_keys_ok, after_sale;
    cbn [insert_obj set_watches set_escrows set_stores users stores evaluators
           watches transfers commissions escrows];
    repeat (split; [assumption|]); try assumption;
    repeat match goal with
           | |- _ /\ _ => split
           | |- keys_ok _ (insert _ _ _ _) => apply keys_ok_insert; [reflexivity|]
           | |- keys_ok _ (update _ (Some _) _ _) => apply keys_ok_update
           | |- keys_ok _ (update _ (Watch.id _) _ _) => rewrite Hid
           | |- _ => assumption
           end.
Qed.

Lemma not_in_by_find {A B : Type} (f : A -> B) (eqb : B -> B -> bool) (v : B)
    (l : list A) :
  (forall b, eqb b b = true) ->
  find (fun a => eqb (f a) v) l = None -> ~ In v (map f l).
Proof.
  intros Hrefl Hnone Hin. apply in_map_iff in Hin. destruct Hin as (a & Ha & Hin).
  pose proof (find_none _ _ Hnone a Hin) as Hf. cbn beta in Hf.
  rewrite Ha, Hrefl in Hf. discriminate.
Qed.

Lemma effect_keeps_unique (db db' : DB) :
  db_effect buyer_ok shadowed db db' -> db_keys_ok db -> db_unique_ok db -> db_unique_ok db'.
Proof.
  intros He (_ & (Hsk & _) & _ & (Hwk & _) & _) (Hser & Hem & Hsu).
  destruct He as [ | u0 Hnew | w0 Hnew Hst | w w' k Hin Hid Hid' Hsame Howner Hst
                 | w o b buyer tx k Hfs Ho Hstore Hne Hb Hbok
                 | w e0 k Hshadowed Hin Hid | e' k Hid
                 | s0 u0 Hnew Hu0 Hu0id Hu0role
                 | e0 u0 s0 k Hu0 Hu0id Hu0role Hsid Hs0
                 | s s' k Hin Hid Hid' Huid ];
    try (pose proof (watch_for_sale_row _ _ _ Hfs) as (Hin & Hid & _));
    unfold db_unique_ok, after_sale;
    cbn [insert_obj set_watches set_escrows set_stores users stores evaluators
           watches transfers commissions escrows];
    repeat split; try assumption.
  - unfold insert. rewrite map_app. apply NoDup_snoc; [exact Hem|].
    apply (not_in_by_find User.email String.eqb); [apply String.eqb_refl | exact Hnew].
  - unfold insert. rewrite map_app. apply NoDup_snoc; [exact Hser|].
    apply (not_in_by_find Watch.serial_number String.eqb);
      [apply String.eqb_refl | exact Hnew].
  - rewrite (map_column_update Watch.id Watch.serial_number k w w') by assumption.
    exact Hser.
  - rewrite Hid.
    rewrite (map_column_update Watch.id Watch.serial_number k w) by
      (try assumption; reflexivity).
    exact Hser.
  - rewrite (map_column_update Watch.id Watch.serial_number k w) by
      (try assumption; reflexivity).
    exact Hser.
  - unfold insert. rewrite map_app. apply NoDup_snoc; [exact Hsu|].
    apply (not_in_by_find Store.user_id Z.eqb); [apply Z.eqb_refl | exact Hnew].
  - rewrite (map_column_update Store.id Store.user_id k s s') by assumption.
    exact Hsu.
Qed.

Lemma effect_keeps_statuses (db db' : DB) :
  db_effect buyer_ok shadowed db db' ->
  (forall w, In w (watches db) -> status_in_use (Watch.status w)) ->
  forall w, In w (watches db') -> status_in_use (Watch.status w).
Proof.
  intros He Hall.
  destruct He as [ | u0 Hnew | w0 Hnew Hst | w w' k Hin Hid Hid' Hsame Howner Hst
                 | w o b buyer tx k Hfs Ho Hstore Hne Hb Hbok
                 | w e0 k Hshadowed Hin Hid | e' k Hid
                 | s0 u0 Hnew Hu0 Hu0id Hu0role
                 | e0 u0 s0 k Hu0 Hu0id Hu0role Hsid Hs0
                 | s s' k Hin Hid Hid' Huid ];
    try (pose proof (watch_for_sale_row _ _ _ Hfs) as (Hin & Hid & _));
    unfold after_sale;
    cbn [insert_obj set_watches set_escrows set_stores watches];
    try exact Hall; intros x Hx.
  - unfold insert in Hx. apply in_app_or in Hx. destruct Hx as [Hx | [<- | []]].
    + apply Hall. exact Hx.
    + cbn [Watch.with_id Watch.status]. unfold status_in_use. tauto.
  - apply in_update in Hx. destruct Hx as [Hx | ->]; [apply Hall; exact Hx|].
    unfold status_in_use. tauto.
  - rewrite Hid in Hx. apply in_update in Hx.
    destruct Hx as [Hx | ->]; [apply Hall; exact Hx|].
    unfold status_in_use. cbn. tauto.
  - apply in_update in Hx. destruct Hx as [Hx | ->]; [apply Hall; exact Hx|].
    unfold status_in_use. cbn. tauto.
Qed.

Lemma effect_keeps_ledger (db db' : DB) :
  db_effect buyer_ok shadowed db db' -> ledger_ok db -> ledger_ok db'.
Proof.
  intros He (Hmirror & Hsales & Hcomm & Href).
  destruct He as [ | u0 Hnew | w0 Hnew Hst | w w' k Hin Hid Hid' Hsame Howner Hst
                 | w o b buyer tx k Hfs Ho Hstore Hne Hb Hbok
                 | w e0 k Hshadowed Hin Hid | e' k Hid
                 | s0 u0 Hnew Hu0 Hu0id Hu0role
                 | e0 u0 s0 k Hu0 Hu0id Hu0role Hsid Hs0
                 | s s' k Hin Hid Hid' Huid ];
    try (pose proof (watch_for_sale_row _ _ _ Hfs) as (Hin & Hid & _));
    unfold ledger_ok, after_sale;
    cbn [insert_obj set_watches set_escrows set_stores users stores evaluators
           watches transfers commissions escrows];
    repeat split; try assumption.
  - intros x Hx. unfold insert. rewrite map_app. apply in_or_app. left.
    apply Href. exact Hx.
  - intros x Hx. rewrite map_id_update by exact Hid'. apply Href. exact Hx.
  - unfold insert. rewrite !map_app. cbn [map]. rewrite Hmirror. reflexivity.
  - unfold insert. apply Forall_app. split; [exact Hsales|].
    constructor; [|constructor]. repeat split. exact Hne.
  - unfold insert. apply Forall_app. split; [exact Hcomm|].
    constructor; [|constructor]. repeat split.
  - intros x Hx. rewrite Hid. rewrite map_id_update by exact Hid.
    unfold insert in Hx. apply in_app_or in Hx. destruct Hx as [Hx | [<- | []]].
    + apply Href. exact Hx.
    + cbn [OwnershipTransfer.with_id OwnershipTransfer.watch_id].
      apply in_map. exact Hin.
  - intros x Hx. rewrite map_id_update by exact Hid. apply Href. exact Hx.
Qed.

End HandlerEffects.

Lemma empty_db_ok :
  db_keys_ok empty_db /\ db_unique_ok empty_db /\ ledger_ok empty_db
  /\ forall w, In w (watches empty_db) -> status_in_use (Watch.status w).
Proof.
  unfold db_keys_ok, db_unique_ok, ledger_ok, keys_ok. cbn.
  repeat split; try constructor; try tauto.
Qed.

(** All four invariants, together, along any sequence of operations. *)
Lemma reachable_all_ok (env : Adapters) (db : DB) :
  reachable_all env db ->
  db_keys_ok db /\ db_unique_ok db /\ ledger_ok db
  /\ forall w, In w (watches db) -> status_in_use (Watch.status w).
Proof.
  assert (Hstep : forall d d',
             db_effect (fun _ => True) True d d' ->
             (db_keys_ok d /\ db_unique_ok d /\ ledger_ok d
              /\ forall w, In w (watches d) -> status_in_use (Watch.status w)) ->
             db_keys_ok d' /\ db_unique_ok d' /\ ledger_ok d'
             /\ forall w, In w (watches d') -> status_in_use (Watch.status w)).
  { intros d d' He (Hk & Hu & Hl & Hs).
    split; [exact (effect_keeps_keys _ _ d d' He Hk)|].
    split; [exact (effect_keeps_unique _ _ d d' He Hk Hu)|].
    split; [exact (effect_keeps_ledger _ _ d d' He Hl)|].
    exact (effect_keeps_statuses _ _ d d' He Hs). }
  induction 1 as [| d req _ IH | d req _ IH | d token watch_id _ IH].
  - apply empty_db_ok.
  - apply (Hstep d); [apply serve_effect; trivial | exact IH].
  - apply (Hstep d); [apply serve_admin_effect | exact IH].
  - apply (Hstep d); [apply shadowed_purchase_effect; exact I | exact IH].
Qed.

Lemma reachable_in_all (env : Adapters) (db : DB) :
  reachable env db -> reachable_all env db.
Proof.
  induction 1; [apply reachable_all_empty | apply reachable_all_serve; assumption].
Qed.

Lemma reachable_replay_all (env : Adapters) (reqs : list (Request + AdminRequest))
    (db : DB) :
  reachable_all env db -> reachable_all env (replay_all env reqs db).
Proof.
  revert db. induction reqs as [|req reqs IH]; intros db Hdb; [exact Hdb|].
  cbn [replay_all fold_left]. apply IH.
  destruct req; [apply reachable_all_serve | apply reachable_all_admin]; exact Hdb.
Qed.

(** X25. In every state that the operations produce from an empty database
    no two watches share a serial number, no two users an e-mail, and no
    user has two stores: the checks the handlers make by hand before
    inserting are enough. *)
Theorem reachable_unique_columns (env : Adapters) (db : DB) :
  reachable_all env db -> db_unique_ok db.
Proof. intros H. apply (reachable_all_ok env db H). Qed.

Lemma filter_none {A : Type} (p : A -> bool) (l : list A) :
  (forall x, In x l -> p x = false) -> filter p l = [].
Proof.
  induction l as [|a l IH]; intros H; [reflexivity|].
  cbn [filter]. rewrite (H a (or_introl eq_refl)).
  apply IH. intros x Hx. apply H. right. exact Hx.
Qed.

Lemma list_watches_for_sale_run (db : DB) (cu : Payload) :
  run (list_watches_for_sale cu) db
  = (if (token_role cu =? "store")%string then
       match store_of_user db (sub cu) with
       | None => Raise (HTTPException 404 "Loja não encontrada")
       | Some s =>
           Ok (filter (fun w => match Watch.store_id w, Store.id s with
                                | Some a, Some b => a =? b
                                | _, _ => false
                                end && ready_for_sale w) (watches db))
       end
     else Ok (filter ready_for_sale (watches db)), db, []).
Proof.
  unfold run, list_watches_for_sale, bind, store_of_user.
  destruct (token_role cu =? "store")%string.
  - rewrite query_first_run by reflexivity. cbn [working].
    destruct (find _ (stores db)); [|reflexivity].
    rewrite query_all_run by reflexivity. reflexivity.
  - rewrite query_all_run by reflexivity. reflexivity.
Qed.

(** X26. In every such state each watch has status registered, for_sale or
    sold: no operation gives a watch the status tokenized or evaluated. So
    the route that lists the watches "available for sale", which selects
    exactly those two statuses, never returns a watch: its answer is an empty
    list, or for a store user without a store the 404. *)
Theorem reachable_statuses (env : Adapters) (db : DB) (cu : Payload) :
  reachable_all env db ->
  (forall w, In w (watches db) -> status_in_use (Watch.status w))
  /\ (result_of (run (list_watches_for_sale cu) db) = Ok []
      \/ result_of (run (list_watches_for_sale cu) db)
         = Raise (HTTPException 404 "Loja não encontrada")).
Proof.
  intros H. destruct (reachable_all_ok env db H) as (_ & _ & _ & Hst).
  split; [exact Hst|].
  assert (Hnot : forall w, In w (watches db) -> ready_for_sale w = false).
  { intros w Hw. unfold ready_for_sale.
    destruct (Hst w Hw) as [-> | [-> | ->]]; reflexivity. }
  rewrite list_watches_for_sale_run. unfold result_of. cbn [fst].
  destruct (token_role cu =? "store")%string.
  - destruct (store_of_user db (sub cu)); [|right; reflexivity].
    left. f_equal. apply filter_none. intros w Hw.
    rewrite (Hnot w Hw). apply andb_false_r.
  - left. f_equal. apply filter_none. exact Hnot.
Qed.

(** X27. In every such state the two ledgers agree row by row: the k-th
    commission amount is the k-th transfer's admin fee; every transfer is a
    sale between two different users whose fee is its price times the
    platform rate and whose watch exists; every commission is a sale
    commission for user 1 without a transfer reference. *)
Theorem reachable_ledger (env : Adapters) (db : DB) :
  reachable_all env db -> ledger_ok db.
Proof. intros H. apply (reachable_all_ok env db H). Qed.

(** ** Instances of the further properties *)

(** Serial SN-42 is taken in the sample database. *)
Lemma create_watch_duplicate_serial_witness :
  watch_by_serial demo_db (WatchCreate.serial_number duplicate_watch) = Some watch_42
  /\ run (create_watch duplicate_watch token_admin) demo_db
     = (Raise (HTTPException 400 "Número de série já cadastrado"), demo_db, []).
Proof.
  assert (H : watch_by_serial demo_db (WatchCreate.serial_number duplicate_watch)
              = Some watch_42) by reflexivity.
  split; [exact H|].
  exact (create_watch_duplicate_serial demo_db duplicate_watch token_admin watch_42 H).
Defined.

(** The admin registers the Seiko. *)
Lemma create_watch_by_admin_witness :
  token_role token_admin = "admin"
  /\ watch_by_serial demo_db (WatchCreate.serial_number seiko_watch) = None
  /\ exists w,
       result_of (run (create_watch seiko_watch token_admin) demo_db) = Ok (Some w)
       /\ Watch.id w = Some (next_id Watch.id (watches demo_db))
       /\ Watch.status w = "registered".
Proof.
  assert (H1 : token_role token_admin = "admin") by reflexivity.
  assert (H2 : watch_by_serial demo_db (WatchCreate.serial_number seiko_watch) = None)
    by reflexivity.
  split; [exact H1|]. split; [exact H2|].
  destruct (create_watch_by_admin demo_db seiko_watch token_admin H1 H2)
    as (w & Hr & Hid & _ & Hst & _).
  exists w. split; [exact Hr | split; [exact Hid | exact Hst]].
Defined.

(** Evaluator 3 of store 1 enters the Seiko. *)
Lemma create_watch_by_linked_evaluator_witness :
  token_role token_3 = "evaluator"
  /\ watch_by_serial linked_db (WatchCreate.serial_number seiko_watch) = None
  /\ evaluator_of_user linked_db (sub token_3) = Some (Evaluator.mk (Some 1) 3 (Some 1))
  /\ store_by_id linked_db 1 = Some store_row_1
  /\ user_by_id linked_db (Store.user_id store_row_1) = Some store_7
  /\ exists w,
       result_of (run (create_watch seiko_watch token_3) linked_db) = Ok (Some w)
       /\ Watch.status w = "for_sale"
       /\ Watch.current_owner_user_id w = 7.
Proof.
  assert (H1 : token_role token_3 = "evaluator") by reflexivity.
  assert (H2 : watch_by_serial linked_db (WatchCreate.serial_number seiko_watch) = None)
    by reflexivity.
  assert (H3 : evaluator_of_user linked_db (sub token_3)
               = Some (Evaluator.mk (Some 1) 3 (Some 1))) by reflexivity.
  assert (H4 : store_by_id linked_db 1 = Some store_row_1) by reflexivity.
  assert (H5 : user_by_id linked_db (Store.user_id store_row_1) = Some store_7)
    by reflexivity.
  repeat (split; [assumption|]).
  destruct (create_watch_by_linked_evaluator linked_db seiko_watch token_3
              (Evaluator.mk (Some 1) 3 (Some 1)) 1 store_row_1 store_7
              H1 H2 H3 eq_refl ltac:(lia) H4 H5 eq_refl)
    as (w & Hr & Hst & Hown & _).
  exists w. split; [exact Hr | split; [exact Hst | exact Hown]].
Defined.

(** Evaluator 3 without an evaluator record enters the Seiko; customer 9
    tries to buy it. *)
Lemma watch_of_unlinked_evaluator_cannot_be_bought_witness :
  token_role token_3 = "evaluator"
  /\ watch_by_serial unlinked_db (WatchCreate.serial_number seiko_watch) = None
  /\ evaluator_of_user unlinked_db (sub token_3) = None
  /\ user_by_id unlinked_db (sub token_3) = Some evaluator_3
  /\ User.role evaluator_3 <> "store"
  /\ run (purchase_watch demo_env (next_id Watch.id (watches unlinked_db))
            pix_purchase token_9)
         (db_of (run (create_watch seiko_watch token_3) unlinked_db))
     = (Raise (HTTPException 400
                 "Usuários só podem comprar relógios de lojas credenciadas"),
        db_of (run (create_watch seiko_watch token_3) unlinked_db), []).
Proof.
  assert (H1 : token_role token_3 = "evaluator") by reflexivity.
  assert (H2 : watch_by_serial unlinked_db (WatchCreate.serial_number seiko_watch) = None)
    by reflexivity.
  assert (H3 : evaluator_of_user unlinked_db (sub token_3) = None) by reflexivity.
  assert (H4 : user_by_id unlinked_db (sub token_3) = Some evaluator_3) by reflexivity.
  assert (H5 : User.role evaluator_3 <> "store") by (cbn; discriminate).
  repeat (split; [assumption|]).
  exact (proj2 (watch_of_unlinked_evaluator_cannot_be_bought demo_env unlinked_db
                  seiko_watch token_3 evaluator_3 pix_purchase token_9 H1 H2 H3 H4 H5)).
Defined.

(** Somebody registers as admin and logs in. *)
Lemma register_then_login_witness :
  user_by_email demo_db (UserCreate.email admin_4) = None
  /\ sample_verify (UserCreate.password admin_4) "h-pw4" = true
  /\ exists u,
       result_of (run (register admin_4 "h-pw4" "GADM" "SADM") demo_db) = Ok (Some u)
       /\ User.role u = "admin"
       /\ result_of (run (login sample_verify "admin4@example.com" "pw4")
                       (db_of (run (register admin_4 "h-pw4" "GADM" "SADM") demo_db)))
          = Ok (mkPayload (next_id User.id (users demo_db)) "admin4@example.com" "admin",
                u).
Proof.
  assert (H1 : user_by_email demo_db (UserCreate.email admin_4) = None) by reflexivity.
  assert (H2 : sample_verify (UserCreate.password admin_4) "h-pw4" = true) by reflexivity.
  split; [exact H1|]. split; [exact H2|].
  destruct (register_then_login sample_verify demo_db admin_4 "h-pw4" "GADM" "SADM" H1 H2)
    as (u & Hr & _ & Hrole & _ & Hlogin & _).
  exists u. split; [exact Hr|]. split; [exact Hrole|].
  exact (f_equal (fun r => fst (fst r)) Hlogin).
Defined.

(** A second store for user 7 is refused; store 1 stays the only one. *)
Lemma create_store_one_per_user_witness :
  NoDup (map Store.user_id (stores linked_db))
  /\ NoDup (map Store.user_id
              (stores (db_of (run (create_store (StoreCreate.mk 7 "Outra" 0.5%float))
                                linked_db)))).
Proof.
  assert (H : NoDup (map Store.user_id (stores linked_db))).
  { cbn. constructor; [intros [] | constructor]. }
  split; [exact H|].
  exact (proj1 (create_store_one_per_user linked_db
                  (StoreCreate.mk 7 "Outra" 0.5%float) H)).
Defined.

(** Store 1 loses its credential and gets it back. *)
Lemma toggle_store_credential_twice_witness :
  NoDup (map Store.id (stores linked_db))
  /\ store_by_id linked_db 1 = Some store_row_1
  /\ db_of (run (toggle_store_credential 1)
              (db_of (run (toggle_store_credential 1) linked_db))) = linked_db.
Proof.
  assert (H1 : NoDup (map Store.id (stores linked_db))).
  { cbn. constructor; [intros [] | constructor]. }
  assert (H2 : store_by_id linked_db 1 = Some store_row_1) by reflexivity.
  split; [exact H1|]. split; [exact H2|].
  exact (proj2 (toggle_store_credential_twice linked_db 1 store_row_1 H1 H2)).
Defined.

(** Evaluator 3 is attached to store 1 a second and a third time. *)
Lemma create_evaluator_allows_duplicates_witness :
  result_of (run (create_evaluator (EvaluatorCreate.mk 3 1)) linked_db)
  = Ok (Some (Evaluator.mk (Some 2) 3 (Some 1)))
  /\ exists e2,
       result_of (run (create_evaluator (EvaluatorCreate.mk 3 1))
                    (db_of (run (create_evaluator (EvaluatorCreate.mk 3 1)) linked_db)))
       = Ok (Some e2)
       /\ Evaluator.user_id e2 = 3.
Proof.
  assert (H : result_of (run (create_evaluator (EvaluatorCreate.mk 3 1)) linked_db)
              = Ok (Some (Evaluator.mk (Some 2) 3 (Some 1)))) by (vm_compute; reflexivity).
  split; [exact H|].
  destruct (create_evaluator_allows_duplicates linked_db (EvaluatorCreate.mk 3 1) _ H)
    as (e2 & Hr & _ & _ & Hu & _).
  exists e2. split; [exact Hr | exact Hu].
Defined.

(** Store user 7 tries to confirm a delivery. *)
Lemma confirm_delivery_forbidden_role_is_500_witness :
  User.role store_7 <> "user"
  /\ User.role store_7 <> "evaluator"
  /\ db_of (run (confirm_delivery demo_env 5 store_7) escrow_db) = escrow_db.
Proof.
  assert (H1 : User.role store_7 <> "user") by (cbn; discriminate).
  assert (H2 : User.role store_7 <> "evaluator") by (cbn; discriminate).
  split; [exact H1|]. split; [exact H2|].
  rewrite (confirm_delivery_forbidden_role_is_500 demo_env escrow_db 5 store_7 H1 H2).
  reflexivity.
Defined.

(** Customer 9 tries pix without a CPF on watch 42. *)
Lemma purchase_invalid_payment_is_500_witness :
  purchasable demo_db 42 token_9 watch_42 store_7
  /\ PurchasePayload.payment_method pix_without_cpf = "pix"
  /\ truthy_str (PurchasePayload.cpf pix_without_cpf) = false
  /\ run (purchase_watch demo_env 42 pix_without_cpf token_9) demo_db
     = (Raise (payment_error_500 demo_env "CPF é obrigatório para PIX"), demo_db, []).
Proof.
  assert (H1 : purchasable demo_db 42 token_9 watch_42 store_7).
  { repeat split; try reflexivity. cbn. lia. }
  assert (H2 : PurchasePayload.payment_method pix_without_cpf = "pix") by reflexivity.
  assert (H3 : truthy_str (PurchasePayload.cpf pix_without_cpf) = false) by reflexivity.
  split; [exact H1|]. split; [exact H2|]. split; [exact H3|].
  exact (proj1 (purchase_invalid_payment_is_500 demo_env demo_db 42 pix_without_cpf
                  token_9 watch_42 store_7 H1) H2 H3).
Defined.

(** Customer 9 pays watch 42 by boleto in three instalments. *)
Lemma purchase_other_method_unvalidated_witness :
  purchasable demo_db 42 token_9 watch_42 store_7
  /\ PurchasePayload.payment_method boleto_purchase <> "credit_card"
  /\ PurchasePayload.payment_method boleto_purchase <> "pix"
  /\ exists rest,
       trace_of (run (purchase_watch demo_env 42 boleto_purchase token_9) demo_db)
       = PaymentCall (sale_price watch_42) "boleto" 3
           (simulate_payment_conversion demo_env (sale_price watch_42) "boleto" 3)
         :: rest.
Proof.
  assert (H1 : purchasable demo_db 42 token_9 watch_42 store_7).
  { repeat split; try reflexivity. cbn. lia. }
  assert (H2 : PurchasePayload.payment_method boleto_purchase <> "credit_card")
    by (cbn; discriminate).
  assert (H3 : PurchasePayload.payment_method boleto_purchase <> "pix")
    by (cbn; discriminate).
  split; [exact H1|]. split; [exact H2|]. split; [exact H3|].
  exact (purchase_other_method_unvalidated demo_env demo_db 42 boleto_purchase
           token_9 watch_42 store_7 H1 H2 H3).
Defined.

(** Watch 42 without a current value is bought at the default price. *)
Lemma purchase_default_price_witness :
  exists w resp,
    watch_for_sale unpriced_db 42 = Some w
    /\ Watch.current_value_brl w = None
    /\ result_of (run (purchase_watch demo_env 42 pix_purchase token_9) unpriced_db)
       = Ok resp
    /\ exists t c,
         transfers (db_of (run (purchase_watch demo_env 42 pix_purchase token_9)
                             unpriced_db))
         = (transfers unpriced_db ++ [t])%list
         /\ OwnershipTransfer.price_brl t = 50000%float
         /\ OwnershipTransfer.admin_fee_brl t = 1500%float
         /\ commissions (db_of (run (purchase_watch demo_env 42 pix_purchase token_9)
                                  unpriced_db))
            = (commissions unpriced_db ++ [c])%list
         /\ Commission.amount_brl c = 1500%float.
Proof.
  destruct (watch_for_sale unpriced_db 42) as [w|] eqn:Hw; [|discriminate Hw].
  destruct (result_of (run (purchase_watch demo_env 42 pix_purchase token_9) unpriced_db))
    as [resp|e] eqn:Hr; [|discriminate Hr].
  assert (Hv : Watch.current_value_brl w = None).
  { injection Hw as <-. reflexivity. }
  exists w, resp. split; [reflexivity|]. split; [exact Hv|]. split; [reflexivity|].
  exact (purchase_default_price demo_env unpriced_db 42 pix_purchase token_9 w resp
           Hw (or_introl Hv) Hr).
Defined.

(** The payment gateway times out. *)
Lemma purchase_payment_adapter_raises_witness :
  payment_raised
    (trace_of (run (purchase_watch failing_payment_env 42 pix_purchase token_9) demo_db))
  = true
  /\ db_of (run (purchase_watch failing_payment_env 42 pix_purchase token_9) demo_db)
     = demo_db.
Proof.
  assert (H : payment_raised
                (trace_of (run (purchase_watch failing_payment_env 42 pix_purchase
                                  token_9) demo_db)) = true) by reflexivity.
  split; [exact H|].
  exact (proj1 (proj2 (purchase_payment_adapter_raises failing_payment_env demo_db 42
                         pix_purchase token_9 H))).
Defined.

(** A token whose user has no row pays for watch 42. *)
Lemma purchase_buyer_without_row_witness :
  user_by_id demo_db (sub token_99) = None
  /\ payment_succeeded
       (trace_of (run (purchase_watch demo_env 42 pix_purchase token_99) demo_db)) = true
  /\ result_of (run (purchase_watch demo_env 42 pix_purchase token_99) demo_db)
     = Raise (HTTPException 404 "Usuário não encontrado").
Proof.
  assert (H1 : user_by_id demo_db (sub token_99) = None) by reflexivity.
  assert (H2 : payment_succeeded
                 (trace_of (run (purchase_watch demo_env 42 pix_purchase token_99)
                              demo_db)) = true) by reflexivity.
  split; [exact H1|]. split; [exact H2|].
  exact (proj1 (purchase_buyer_without_row demo_env demo_db 42 pix_purchase token_99
                  H1 H2)).
Defined.

(** The blockchain adapter answers failed after the payment went through. *)
Lemma purchase_transfer_refused_after_payment_witness :
  transfer_refused
    (trace_of (run (purchase_watch refusing_env 42 pix_purchase token_9) demo_db)) = true
  /\ result_of (run (purchase_watch refusing_env 42 pix_purchase token_9) demo_db)
     = Raise (HTTPException 400 "Falha no pagamento")
  /\ db_of (run (purchase_watch refusing_env 42 pix_purchase token_9) demo_db) = demo_db.
Proof.
  assert (H : transfer_refused
                (trace_of (run (purchase_watch refusing_env 42 pix_purchase token_9)
                             demo_db)) = true) by reflexivity.
  split; [exact H|].
  destruct (purchase_transfer_refused_after_payment refusing_env demo_db 42
              pix_purchase token_9 H) as (_ & Hr & Hdb & _).
  split; [exact Hr | exact Hdb].
Defined.

(** Customer 9 buys watch 42 through the second purchase handler. *)
Lemma purchase_watch'_opens_escrow_witness :
  watch_for_sale demo_db 42 = Some watch_42
  /\ watch_by_id (db_of (run (purchase_watch' 42 token_9) demo_db)) 42
     = Some (Watch.with_status "sold" watch_42)
  /\ transfers (db_of (run (purchase_watch' 42 token_9) demo_db)) = transfers demo_db.
Proof.
  assert (H : watch_for_sale demo_db 42 = Some watch_42) by reflexivity.
  split; [exact H|].
  destruct (purchase_watch'_opens_escrow demo_db 42 token_9 watch_42 H)
    as (_ & _ & Hw & Ht & _).
  split; [exact Hw | exact Ht].
Defined.

(** The admin puts the sold watch 42 back on sale with a null price: the
    listed price is empty, not the current value of 95000.00. *)
Lemma put_watch_for_sale_by_admin_witness :
  token_role token_admin <> "store"
  /\ watch_by_id sold_db 42 = Some (Watch.with_status "sold" watch_42)
  /\ exists w',
       watch_for_sale (db_of (run (put_watch_for_sale 42 PriceNull token_admin) sold_db))
         42 = Some w'
       /\ Watch.current_owner_user_id w' = 7
       /\ Watch.price_brl w' = None.
Proof.
  assert (H1 : token_role token_admin <> "store") by (cbn; discriminate).
  assert (H2 : watch_by_id sold_db 42 = Some (Watch.with_status "sold" watch_42))
    by reflexivity.
  split; [exact H1|]. split; [exact H2|].
  destruct (put_watch_for_sale_by_admin sold_db 42 PriceNull token_admin _ H1 H2)
    as (w' & Hw & Hown & Hprice & _).
  exists w'. split; [exact Hw|]. split; [exact Hown | exact Hprice].
Defined.

(** Store user 7 puts watch 42, filed under store 1 and owned by customer 9,
    on sale. *)
Lemma put_watch_for_sale_by_store_witness :
  exists w,
    token_role token_store_7 = "store"
    /\ store_of_user filed_db (sub token_store_7) = Some store_row_1
    /\ Store.id store_row_1 = Some 1
    /\ In w (watches filed_db)
    /\ Watch.id w = Some 42
    /\ Watch.store_id w = Some 1
    /\ (forall x, In x (watches filed_db) -> Watch.id x = Some 42 -> x = w)
    /\ exists w',
         watch_for_sale
           (db_of (run (put_watch_for_sale 42 (PriceNumber 90000%float) token_store_7)
                     filed_db)) 42 = Some w'
         /\ Watch.status w' = "for_sale"
         /\ Watch.current_owner_user_id w' = 9.
Proof.
  destruct (watch_by_id filed_db 42) as [w|] eqn:Hw; [|discriminate Hw].
  injection Hw as Hw.
  assert (H1 : token_role token_store_7 = "store") by reflexivity.
  assert (H2 : store_of_user filed_db (sub token_store_7) = Some store_row_1)
    by reflexivity.
  assert (H3 : Store.id store_row_1 = Some 1) by reflexivity.
  assert (H4 : In w (watches filed_db)) by (left; exact Hw).
  assert (H5 : Watch.id w = Some 42) by (rewrite <- Hw; reflexivity).
  assert (H6 : Watch.store_id w = Some 1) by (rewrite <- Hw; reflexivity).
  assert (H7 : forall x, In x (watches filed_db) -> Watch.id x = Some 42 -> x = w).
  { intros x [Hx|[]] _. rewrite <- Hx. exact Hw. }
  exists w. repeat (split; [assumption|]).
  destruct (put_watch_for_sale_by_store filed_db 42 (PriceNumber 90000%float) token_store_7
              store_row_1 1 w H1 H2 H3 H4 H5 H6 H7) as (w' & Hfs & Hst & Hown).
  exists w'. split; [exact Hfs|]. split; [exact Hst|].
  rewrite Hown, <- Hw. reflexivity.
Defined.

(** The admin relists the sold watch 42 at 90000 and customer 9 takes it
    through the second purchase handler. *)
Lemma sell_then_escrow_purchase_witness :
  token_role token_admin <> "store"
  /\ watch_by_id sold_db 42 = Some (Watch.with_status "sold" watch_42)
  /\ escrows (db_of (run (purchase_watch' 42 token_9)
                       (db_of (run (put_watch_for_sale 42 (PriceNumber 90000%float)
                                      token_admin) sold_db))))
     = [Escrow.mk (Some 1) (Some 42) (Some 9) (Some 7) (Some 90000%float)
          "pending" false false].
Proof.
  assert (H1 : token_role token_admin <> "store") by (cbn; discriminate).
  assert (H2 : watch_by_id sold_db 42 = Some (Watch.with_status "sold" watch_42))
    by reflexivity.
  split; [exact H1|]. split; [exact H2|].
  exact (sell_then_escrow_purchase sold_db 42 90000%float token_admin token_9 _ H1 H2).
Defined.

(** Store user 7 lists the sold watch 42; customer 9 can then buy it. *)
Lemma list_for_sale_makes_purchasable_witness :
  user_by_id sold_db (sub token_store_7) = Some store_7
  /\ User.role store_7 = "store"
  /\ In (Watch.with_status "sold" watch_42) (watches sold_db)
  /\ Watch.id (Watch.with_status "sold" watch_42) = Some 42
  /\ Watch.current_owner_user_id (Watch.with_status "sold" watch_42) = sub token_store_7
  /\ (forall x, In x (watches sold_db) -> Watch.id x = Some 42 ->
                x = Watch.with_status "sold" watch_42)
  /\ sub token_9 <> sub token_store_7
  /\ purchasable (db_of (run (list_for_sale 42 1000%float token_store_7) sold_db)) 42
       token_9 (Watch.with_status "for_sale" (Watch.with_status "sold" watch_42))
       store_7.
Proof.
  assert (H1 : user_by_id sold_db (sub token_store_7) = Some store_7) by reflexivity.
  assert (H2 : User.role store_7 = "store") by reflexivity.
  assert (H3 : In (Watch.with_status "sold" watch_42) (watches sold_db))
    by (left; reflexivity).
  assert (H4 : Watch.id (Watch.with_status "sold" watch_42) = Some 42) by reflexivity.
  assert (H5 : Watch.current_owner_user_id (Watch.with_status "sold" watch_42)
               = sub token_store_7) by reflexivity.
  assert (H6 : forall x, In x (watches sold_db) -> Watch.id x = Some 42 ->
                         x = Watch.with_status "sold" watch_42).
  { intros x [Hx|[]] _. symmetry. exact Hx. }
  assert (H7 : sub token_9 <> sub token_store_7) by (cbn; lia).
  repeat (split; [assumption|]).
  exact (proj1 (list_for_sale_makes_purchasable sold_db 42 1000%float token_store_7
                  store_7 _ H1 H2 H3 H4 H5 H6) token_9 H7).
Defined.

(** After customer 9 bought watch 42 its history has one more entry. *)
Lemma purchase_extends_history_witness :
  exists resp,
    result_of (run (purchase_watch demo_env 42 pix_purchase token_9) demo_db) = Ok resp
    /\ exists t,
         result_of (run (watch_history 42)
                      (db_of (run (purchase_watch demo_env 42 pix_purchase token_9)
                                demo_db)))
         = Ok (history_of demo_db 42 ++ [t])%list
         /\ OwnershipTransfer.type t = "sale"
         /\ OwnershipTransfer.to_user_id t = sub token_9.
Proof.
  destruct (result_of (run (purchase_watch demo_env 42 pix_purchase token_9) demo_db))
    as [resp|e] eqn:Hr; [|discriminate Hr].
  exists resp. split; [reflexivity|].
  destruct (purchase_extends_history demo_env demo_db 42 pix_purchase token_9 resp Hr)
    as (t & Hh & Hty & Hto & _).
  exists t. split; [exact Hh|]. split; [exact Hty | exact Hto].
Defined.

(** The database a whole sale session leaves behind. *)
Lemma reachable_unique_columns_witness :
  reachable_all demo_env (replay_all demo_env setup_session empty_db)
  /\ db_unique_ok (replay_all demo_env setup_session empty_db).
Proof.
  assert (H : reachable_all demo_env (replay_all demo_env setup_session empty_db))
    by (apply reachable_replay_all; apply reachable_all_empty).
  split; [exact H|].
  exact (reachable_unique_columns demo_env _ H).
Defined.

Lemma reachable_statuses_witness :
  reachable_all demo_env (replay_all demo_env setup_session empty_db)
  /\ forall w, In w (watches (replay_all demo_env setup_session empty_db)) ->
               status_in_use (Watch.status w).
Proof.
  assert (H : reachable_all demo_env (replay_all demo_env setup_session empty_db))
    by (apply reachable_replay_all; apply reachable_all_empty).
  split; [exact H|].
  exact (proj1 (reachable_statuses demo_env _ token_admin H)).
Defined.

Lemma reachable_ledger_witness :
  reachable_all demo_env (replay_all demo_env setup_session empty_db)
  /\ ledger_ok (replay_all demo_env setup_session empty_db).
Proof.
  assert (H : reachable_all demo_env (replay_all demo_env setup_session empty_db))
    by (apply reachable_replay_all; apply reachable_all_empty).
  split; [exact H|].
  exact (reachable_ledger demo_env _ H).
Defined.

(** ** Tokens and listings after a session *)

Lemma get_current_user_run (db : DB) (cu : Payload) :
  run (get_current_user cu) db
  = (match user_by_id db (sub cu) with
     | Some u => Ok u
     | None => Raise (HTTPException 404 "Usuário não encontrado")
     end, db, []).
Proof.
  unfold run, get_current_user, bind, user_by_id.
  rewrite query_first_run by reflexivity. cbn [working].
  destruct (find _ (users db)); reflexivity.
Qed.

Lemma my_watches_run (db : DB) (cu : Payload) :
  run (my_watches cu) db
  = (Ok (filter (fun w => Watch.current_owner_user_id w =? sub cu) (watches db)), db, []).
Proof.
  unfold run, my_watches. rewrite query_all_run by reflexivity. reflexivity.
Qed.

Lemma list_watches_run (db : DB) :
  run list_watches db = (Ok (watches db), db, []).
Proof.
  unfold run, list_watches. rewrite query_all_run by reflexivity.
  cbn [working]. f_equal. f_equal. f_equal.
  induction (watches db) as [|a l IH]; [reflexivity|]. cbn [filter]. rewrite IH.
  reflexivity.
Qed.

(** X28. In every state that the operations produce from an empty database,
    the token a login issues identifies the user who logged in: GET /auth/me
    with that token returns exactly the user login returned, and writes
    nothing. *)
Theorem login_token_identifies_user (env : Adapters)
    (verify : string -> string -> bool) (db : DB) (username password : string)
    (tok : Payload) (u : User.t) :
  reachable_all env db ->
  result_of (run (login verify username password) db) = Ok (tok, u) ->
  run (get_current_user tok) db = (Ok u, db, [])
  /\ User.id u = Some (sub tok)
  /\ token_email tok = username
  /\ token_role tok = User.role u.
Proof.
  intros Hreach Hlogin.
  destruct (reachable_all_ok env db Hreach) as (((Hnd & Hnone) & _) & _).
  rewrite login_run in Hlogin. unfold result_of in Hlogin. cbn [fst] in Hlogin.
  destruct (user_by_email db username) as [u'|] eqn:Hu; [|discriminate Hlogin].
  destruct (verify password (User.password_hash u')); [|discriminate Hlogin].
  injection Hlogin as <- <-.
  unfold user_by_email in Hu. apply find_some in Hu. destruct Hu as [Hin He].
  apply String.eqb_eq in He.
  destruct (User.id u') as [k|] eqn:Hk.
  2:{ exfalso. apply Hnone. rewrite <- Hk. apply in_map. exact Hin. }
  unfold token_of. cbn [sub token_email token_role]. rewrite Hk. cbn [the_id].
  split; [|split; [reflexivity | split; [exact He | reflexivity]]].
  rewrite get_current_user_run. cbn [sub]. unfold user_by_id.
  destruct (find (fun x => opt_Z_eqb (User.id x) k) (users db)) as [u2|] eqn:Hf.
  - pose proof (find_by_id_key _ _ _ _ Hf) as Hk2.
    apply find_some in Hf. destruct Hf as [Hin2 _].
    rewrite (unique_by_key User.id (users db) u2 u' Hnd Hin2 Hin); [reflexivity|].
    congruence.
  - exfalso. pose proof (find_none _ _ Hf u' Hin) as Hno. cbn beta in Hno.
    rewrite Hk, opt_Z_eqb_refl in Hno. discriminate.
Qed.

(** X29. A completed purchase moves the watch from one owner's list to the
    other's: afterwards GET /watches/my of the buyer holds the watch, marked
    sold, GET /watches/my of nobody else holds a watch with that id, and
    GET /watches/ returns as many watches as before. *)
Theorem purchase_moves_watch_to_buyer (env : Adapters) (db : DB) (watch_id : Z)
    (p : PurchasePayload.t) (cu : Payload) (resp : PurchaseResponse.t) :
  result_of (run (purchase_watch env watch_id p cu) db) = Ok resp ->
  (exists w' mine,
      result_of (run (my_watches cu) (db_of (run (purchase_watch env watch_id p cu) db)))
      = Ok mine
      /\ In w' mine
      /\ Watch.id w' = Some watch_id
      /\ Watch.status w' = "sold")
  /\ (forall other theirs x,
         sub other <> sub cu ->
         result_of (run (my_watches other)
                      (db_of (run (purchase_watch env watch_id p cu) db)))
         = Ok theirs ->
         In x theirs -> Watch.id x <> Some watch_id)
  /\ exists every,
       result_of (run list_watches (db_of (run (purchase_watch env watch_id p cu) db)))
       = Ok every
       /\ List.length every = List.length (watches db).
Proof.
  pose proof (purchase_watch_paths env db watch_id p cu) as Hpath.
  remember (run (purchase_watch env watch_id p cu) db) as r eqn:Hr. clear Hr.
  by_path Hpath; unfold result_of at 1; cbn [fst]; try discriminate.
  intros _. destruct Hp as (Hw & _).
  pose proof (watch_for_sale_row _ _ _ Hw) as (Hin & Hid & _).
  unfold db_of. cbn [fst snd].
  split; [|split].
  - exists (Watch.with_status "sold" (Watch.with_current_owner_user_id (sub cu) w0)).
    eexists. rewrite my_watches_run. unfold result_of. cbn [fst].
    split; [reflexivity|]. split; [|split; [exact Hid | reflexivity]].
    apply filter_In. split.
    + unfold after_sale. cbn [watches]. rewrite Hid. unfold update.
      apply in_map_iff. exists w0. split; [|exact Hin].
      rewrite Hid, opt_Z_eqb_refl. reflexivity.
    + cbn. apply Z.eqb_refl.
  - intros other theirs x Hother Hrun Hx Hxid.
    rewrite my_watches_run in Hrun. unfold result_of in Hrun. cbn [fst] in Hrun.
    injection Hrun as <-. apply filter_In in Hx. destruct Hx as [Hx Hown'].
    apply Z.eqb_eq in Hown'.
    unfold after_sale in Hx. cbn [watches] in Hx. rewrite Hid in Hx.
    unfold update in Hx. apply in_map_iff in Hx. destruct Hx as (a & Ha & _).
    destruct (opt_Z_eqb (Watch.id a) watch_id) eqn:Hak.
    + subst x. cbn in Hown'. apply Hother. symmetry. exact Hown'.
    + subst x. rewrite Hxid, opt_Z_eqb_refl in Hak. discriminate.
  - eexists. rewrite list_watches_run. unfold result_of. cbn [fst].
    split; [reflexivity|].
    unfold after_sale. cbn [watches]. unfold update. apply length_map.
Qed.

(** The customer of the sale session logs in afterwards. *)
Lemma login_token_identifies_user_witness :
  reachable_all demo_env (replay_all demo_env setup_session empty_db)
  /\ result_of (run (login (fun _ hashed => (hashed =? "h3")%string)
                       "cliente3@example.com" "pw3")
                  (replay_all demo_env setup_session empty_db))
     = Ok (mkPayload 3 "cliente3@example.com" "user",
           User.mk (Some 3) "Cliente Tres" "cliente3@example.com" "h3" "user"
             (Some "GCUS") (Some "SCUS"))
  /\ run (get_current_user (mkPayload 3 "cliente3@example.com" "user"))
         (replay_all demo_env setup_session empty_db)
     = (Ok (User.mk (Some 3) "Cliente Tres" "cliente3@example.com" "h3" "user"
              (Some "GCUS") (Some "SCUS")),
        replay_all demo_env setup_session empty_db, []).
Proof.
  assert (H : reachable_all demo_env (replay_all demo_env setup_session empty_db))
    by (apply reachable_replay_all; apply reachable_all_empty).
  assert (Hl : result_of (run (login (fun _ hashed => (hashed =? "h3")%string)
                                 "cliente3@example.com" "pw3")
                            (replay_all demo_env setup_session empty_db))
               = Ok (mkPayload 3 "cliente3@example.com" "user",
                     User.mk (Some 3) "Cliente Tres" "cliente3@example.com" "h3" "user"
                       (Some "GCUS") (Some "SCUS")))
    by (vm_compute; reflexivity).
  split; [exact H|]. split; [exact Hl|].
  exact (proj1 (login_token_identifies_user demo_env _ _ _ _ _ _ H Hl)).
Defined.

(** Customer 9 bought watch 42; store user 7 no longer has it. *)
Lemma purchase_moves_watch_to_buyer_witness :
  exists resp,
    result_of (run (purchase_watch demo_env 42 pix_purchase token_9) demo_db) = Ok resp
    /\ forall theirs x,
         result_of (run (my_watches token_store_7)
                      (db_of (run (purchase_watch demo_env 42 pix_purchase token_9)
                                demo_db))) = Ok theirs ->
         In x theirs -> Watch.id x <> Some 42.
Proof.
  destruct (result_of (run (purchase_watch demo_env 42 pix_purchase token_9) demo_db))
    as [resp|e] eqn:Hr; [|discriminate Hr].
  exists resp. split; [reflexivity|].
  assert (Hne : sub token_store_7 <> sub token_9) by (cbn; lia).
  intros theirs x.
  exact (proj1 (proj2 (purchase_moves_watch_to_buyer demo_env demo_db 42 pix_purchase
                         token_9 resp Hr)) token_store_7 theirs x Hne).
Defined.

(** * The ledger invariant over the routes *)

(** ** Tables *)

Lemma in_update_cases {A : Type} (id : A -> option Z) (k : Z) (row x : A)
    (l : list A) :
  In x (update id (Some k) row l) -> (In x l /\ id x <> Some k) \/ x = row.
Proof.
  unfold update. intros H. apply in_map_iff in H. destruct H as (a & Ha & Hin).
  destruct (opt_Z_eqb (id a) k) eqn:Hk; [right; congruence|].
  left. subst x. split; [exact Hin|].
  intros E. rewrite E, opt_Z_eqb_refl in Hk. discriminate.
Qed.

Lemma in_update_hit {A : Type} (id : A -> option Z) (k : Z) (row a : A) (l : list A) :
  In a l -> id a = Some k -> In row (update id (Some k) row l).
Proof.
  intros Hin Hid. unfold update. apply in_map_iff. exists a. split; [|exact Hin].
  rewrite Hid, opt_Z_eqb_refl. reflexivity.
Qed.

Lemma user_by_id_registered (db : DB) (u0 o : User.t) (k : Z) :
  user_by_id db k = Some o -> user_by_id (insert_obj db (ObjUser u0)) k = Some o.
Proof.
  unfold user_by_id. cbn [insert_obj users]. unfold insert. apply find_app_first.
Qed.

(** ** Sale transfers of a watch *)

(** The sale transfers of a watch depend on its key and on the transfer
    table only. *)
Lemma sale_transfers_frame (d d' : DB) (a b : Watch.t) :
  transfers d' = transfers d -> Watch.id b = Watch.id a ->
  sale_transfers_of d' b = sale_transfers_of d a.
Proof.
  intros Ht Hid. unfold sale_transfers_of. rewrite Ht, Hid. reflexivity.
Qed.

(** No transfer references the key the next watch will get. *)
Lemma sale_transfers_fresh (db d' : DB) (w0 : Watch.t) :
  ledger_ok db -> transfers d' = transfers db ->
  sale_transfers_of d' (Watch.with_id (next_id Watch.id (watches db)) w0) = [].
Proof.
  intros (_ & _ & _ & Href) Ht. unfold sale_transfers_of. rewrite Ht.
  apply filter_none. intros x Hx. cbn [Watch.with_id Watch.id].
  specialize (Href x Hx). apply in_map_iff in Href. destruct Href as (r & Hr & Hin).
  destruct (OwnershipTransfer.watch_id x) as [a|]; [|reflexivity].
  pose proof (next_id_above Watch.id (watches db) r a Hin Hr) as Hlt.
  assert (Hne : (a =? next_id Watch.id (watches db)) = false) by (apply Z.eqb_neq; lia).
  rewrite Hne. reflexivity.
Qed.

(** After a sale the sold watch has one more sale transfer and every other
    watch has the ones it had. *)
Lemma sale_transfers_after_sale (db : DB) (w x : Watch.t) (buyer k : Z)
    (tx_hash : string) :
  Watch.id w = Some k ->
  sale_transfers_of (after_sale db w buyer tx_hash) x
  = if opt_Z_eqb (Watch.id x) k
    then (sale_transfers_of db x
          ++ [OwnershipTransfer.mk (Some (next_id OwnershipTransfer.id (transfers db)))
                (Some k) (Watch.current_owner_user_id w) buyer tx_hash "sale"
                (sale_price w) (PrimFloat.mul (sale_price w) platform_rate)])%list
    else sale_transfers_of db x.
Proof.
  intros Hid. unfold sale_transfers_of, after_sale. cbn [transfers]. unfold insert.
  rewrite filter_app. cbn [filter OwnershipTransfer.with_id OwnershipTransfer.watch_id
                             OwnershipTransfer.type].
  rewrite Hid. destruct (Watch.id x) as [j|]; cbn [opt_Z_eqb].
  - rewrite Z.eqb_sym. destruct (j =? k); cbn [andb];
      [reflexivity | apply app_nil_r].
  - apply app_nil_r.
Qed.

(** ** One step *)

(** A request whose buyers have rows of role user, with the second purchase
    handler out of reach, keeps the ledger invariant and the guard against a
    second sale. *)
Lemma effect_keeps_sales (db db' : DB) :
  db_effect (fun b => User.role b = "user") False db db' ->
  ledger_ok db ->
  sold_has_one_sale_transfer db /\ resale_guard db ->
  sold_has_one_sale_transfer db' /\ resale_guard db'.
Proof.
  intros He Hledger [Hsold Hguard].
  destruct He as [ | u0 Hnew | w0 Hnew Hst | w w' k Hin Hid Hid' Hsame Howner Hst
                 | w o b buyer tx k Hfs Ho Hstore Hne Hb Hbok
                 | w e0 k Hshadowed Hin Hid | e' k Hid
                 | s0 u0 Hnew Hu0 Hu0id Hu0role
                 | e0 u0 s0 k Hu0 Hu0id Hu0role Hsid Hs0
                 | s s' k Hin Hid Hid' Huid ].
  - split; assumption.
  - (* a user registers *)
    split.
    + intros x Hx Hs. rewrite <- (Hsold x Hx Hs). f_equal.
    + intros x Hx Hne. destruct (Hguard x Hx Hne) as (o & Ho & Hrole).
      exists o. split; [apply user_by_id_registered; exact Ho | exact Hrole].
  - (* a watch is entered *)
    split.
    + intros x Hx Hs. cbn [insert_obj watches] in Hx. unfold insert in Hx.
      apply in_app_or in Hx. destruct Hx as [Hx | [<- | []]].
      * rewrite <- (Hsold x Hx Hs). f_equal.
      * cbn [Watch.with_id Watch.status] in Hs.
        destruct Hst as [Hst | Hst]; rewrite Hst in Hs; discriminate Hs.
    + intros x Hx Hne. cbn [insert_obj watches] in Hx. unfold insert in Hx.
      apply in_app_or in Hx. destruct Hx as [Hx | [<- | []]].
      * apply (Hguard x Hx Hne).
      * exfalso. apply Hne. apply sale_transfers_fresh; [exact Hledger | reflexivity].
  - (* a watch is put up for sale *)
    split.
    + intros x Hx Hs. cbn [set_watches watches] in Hx.
      apply in_update_cases in Hx. destruct Hx as [[Hx _] | ->].
      * rewrite <- (Hsold x Hx Hs). f_equal.
      * rewrite Hst in Hs. discriminate Hs.
    + intros x Hx Hne. cbn [set_watches watches] in Hx.
      apply in_update_cases in Hx. destruct Hx as [[Hx _] | ->].
      * apply (Hguard x Hx Hne).
      * rewrite Howner. apply (Hguard w Hin).
        rewrite (sale_transfers_frame db _ w w') in Hne;
          [exact Hne | reflexivity | congruence].
  - (* a sale *)
    pose proof (watch_for_sale_row _ _ _ Hfs) as (Hin & Hid & Hforsale).
    assert (Hfirst : sale_transfers_of db w = []).
    { destruct (sale_transfers_of db w) as [|t ts] eqn:Hts; [reflexivity|].
      destruct (Hguard w Hin) as (o' & Ho' & Hrole'); [rewrite Hts; discriminate|].
      rewrite Ho in Ho'. injection Ho' as <-. rewrite Hstore in Hrole'.
      discriminate Hrole'. }
    split.
    + intros x Hx Hs. rewrite (sale_transfers_after_sale db w x buyer k tx Hid).
      unfold after_sale in Hx. cbn [watches] in Hx. rewrite Hid in Hx.
      apply in_update_cases in Hx. destruct Hx as [[Hx Hxid] | ->].
      * assert (Hk : opt_Z_eqb (Watch.id x) k = false).
        { destruct (opt_Z_eqb (Watch.id x) k) eqn:E; [|reflexivity].
          apply opt_Z_eqb_true in E. contradiction. }
        rewrite Hk. apply (Hsold x Hx). exact Hs.
      * cbn [Watch.with_status Watch.with_current_owner_user_id Watch.id].
        rewrite Hid, opt_Z_eqb_refl.
        rewrite (sale_transfers_frame db db w
                   (Watch.with_status "sold"
                      (Watch.with_current_owner_user_id buyer w)))
          by reflexivity.
        rewrite Hfirst. reflexivity.
    + intros x Hx Hne'. rewrite (sale_transfers_after_sale db w x buyer k tx Hid) in Hne'.
      unfold after_sale in Hx. cbn [watches] in Hx. rewrite Hid in Hx.
      unfold user_by_id, after_sale. cbn [users]. fold (user_by_id db).
      apply in_update_cases in Hx. destruct Hx as [[Hx Hxid] | ->].
      * assert (Hk : opt_Z_eqb (Watch.id x) k = false).
        { destruct (opt_Z_eqb (Watch.id x) k) eqn:E; [|reflexivity].
          apply opt_Z_eqb_true in E. contradiction. }
        rewrite Hk in Hne'. apply (Hguard x Hx Hne').
      * exists b. cbn [Watch.with_status Watch.with_current_owner_user_id
                         Watch.current_owner_user_id].
        split; [exact Hb | exact Hbok].
  - destruct Hshadowed.
  - split; assumption.
  - split; assumption.
  - split; assumption.
  - split; assumption.
Qed.

(** ** Tokens *)

(** An issued token is the token of a stored user. *)
Lemma issued_row (verify : string -> string -> bool) (db : DB) (token : Payload) :
  issued verify db token -> exists u, In u (users db) /\ token = token_of u.
Proof.
  intros (username & password & user & Hlogin).
  rewrite login_run in Hlogin. unfold result_of in Hlogin. cbn [fst] in Hlogin.
  destruct (user_by_email db username) as [u|] eqn:Hu; [|discriminate Hlogin].
  destruct (verify password (User.password_hash u)); [|discriminate Hlogin].
  injection Hlogin as <- _. exists u. split; [|reflexivity].
  unfold user_by_email in Hu. apply find_some in Hu. apply Hu.
Qed.

(** With unique user keys, the row found for an issued token has the role
    the token carries. *)
Lemma issued_role (verify : string -> string -> bool) (db : DB) (token : Payload)
    (b : User.t) :
  db_keys_ok db -> issued verify db token ->
  user_by_id db (sub token) = Some b -> User.role b = token_role token.
Proof.
  intros ((Hnd & Hnone) & _) Hissued Hb.
  destruct (issued_row verify db token Hissued) as (u & Hin & ->).
  unfold token_of in *. cbn [sub token_role] in *.
  destruct (User.id u) as [k|] eqn:Hk.
  2:{ exfalso. apply Hnone. rewrite <- Hk. apply in_map. exact Hin. }
  cbn [the_id] in Hb.
  pose proof (find_by_id_key _ _ _ _ Hb) as Hbk.
  apply find_some in Hb. destruct Hb as [Hbin _].
  rewrite (unique_by_key User.id (users db) b u Hnd Hbin Hin); [reflexivity|].
  congruence.
Qed.

(** ** Reachable states *)

Lemma reachable_public_all (env : Adapters) (verify : string -> string -> bool)
    (db : DB) :
  reachable_public env verify db -> reachable_all env db.
Proof.
  induction 1; [apply reachable_all_empty | apply reachable_all_serve
               | apply reachable_all_admin]; assumption.
Qed.

Lemma reachable_public_ok (env : Adapters) (verify : string -> string -> bool)
    (db : DB) :
  reachable_public env verify db ->
  sold_has_one_sale_transfer db /\ resale_guard db.
Proof.
  induction 1 as [| d req Hd IH Hauth | d req Hd IH Hauth].
  - split; intros w [].
  - pose proof (reachable_all_ok env d (reachable_public_all env verify d Hd))
      as (Hkeys & _ & Hledger & _).
    apply (effect_keeps_sales d); [|exact Hledger | exact IH].
    apply serve_effect. intros token watch_id purchase b -> Hrole Hb.
    cbn [authentic] in Hauth.
    rewrite (issued_role verify d token b Hkeys Hauth Hb). exact Hrole.
  - pose proof (reachable_all_ok env d (reachable_public_all env verify d Hd))
      as (_ & _ & Hledger & _).
    apply (effect_keeps_sales d); [|exact Hledger | exact IH].
    apply serve_admin_effect.
Qed.


Lemma reachable_public_replay (env : Adapters) (verify : string -> string -> bool)
    (reqs : list (Request + AdminRequest)) (db : DB) :
  reachable_public env verify db ->
  authentic_all env verify reqs db ->
  reachable_public env verify (replay_all env reqs db).
Proof.
  revert db. induction reqs as [|req reqs IH]; intros db Hdb Hauth; [exact Hdb|].
  cbn [replay_all fold_left]. destruct req as [r | a]; cbn [authentic_all] in Hauth;
    destruct Hauth as [Hreq Hrest]; apply IH; try exact Hrest.
  - apply public_serve; assumption.
  - apply public_admin; assumption.
Qed.

(** A token whose role is not the role of the user row it names breaks the
    guard: user 3 has a row of role store and buys watch 1 under a token
    that says user; once an admin has put the watch up for sale again, user
    5 buys it from user 3, and the watch is sold with two sale transfers.
    [login] issues no such token. *)
Example forged_token_sells_twice :
  let db := replay_all demo_env forged_session empty_db in
  map Watch.status (watches db) = ["sold"]
  /\ map OwnershipTransfer.type (transfers db) = ["sale"; "sale"]
  /\ map OwnershipTransfer.watch_id (transfers db) = [Some 1; Some 1].
Proof. vm_compute. repeat split. Qed.


(** * References between the tables *)

Lemma in_update_miss {A : Type} (id : A -> option Z) (k : Z) (row a : A) (l : list A) :
  In a l -> id a <> Some k -> In a (update id (Some k) row l).
Proof.
  intros Hin Hid. unfold update. apply in_map_iff. exists a. split; [|exact Hin].
  destruct (opt_Z_eqb (id a) k) eqn:E; [|reflexivity].
  apply opt_Z_eqb_true in E. contradiction.
Qed.

Lemma user_row_found (db : DB) (k : Z) (u : User.t) :
  user_by_id db k = Some u -> user_row db k u.
Proof.
  intros H. split; [|exact (find_by_id_key _ _ _ _ H)].
  unfold user_by_id in H. apply find_some in H. apply H.
Qed.

Lemma store_row_found (db : DB) (k : Z) (s : Store.t) :
  store_by_id db k = Some s -> store_row db k s.
Proof.
  intros H. split; [|exact (find_by_id_key _ _ _ _ H)].
  unfold store_by_id in H. apply find_some in H. apply H.
Qed.

(** Whatever a request does, the references it leaves resolve if they did
    before: rows are never deleted, and every inserted row names rows that
    the handler has just found. *)
Lemma effect_keeps_references (buyer_ok : User.t -> Prop) (shadowed : Prop)
    (db db' : DB) :
  db_effect buyer_ok shadowed db db' -> references_ok db -> references_ok db'.
Proof.
  intros He (Hstores & Hevals & Htransfers).
  destruct He as [ | u0 Hnew | w0 Hnew Hst | w w' k Hin Hid Hid' Hsame Howner Hst
                 | w o b buyer tx k Hfs Ho Hstore Hne Hb Hbok
                 | w e0 k Hshadowed Hin Hid | e' k Hid
                 | s0 u0 Hnew Hu0 Hu0id Hu0role
                 | e0 u0 s0 k Hu0 Hu0id Hu0role Hsid Hs0
                 | s s' k Hin Hid Hid' Huid ].
  - exact (conj Hstores (conj Hevals Htransfers)).
  - (* a user registers *)
    assert (Hrow : forall j u, user_row db j u -> user_row (insert_obj db (ObjUser u0)) j u).
    { intros j u [Hu Hj]. split; [|exact Hj].
      cbn [insert_obj users]. unfold insert. apply in_or_app. left. exact Hu. }
    split; [|split].
    + intros s Hs. destruct (Hstores s Hs) as (u & Hu & Hrole).
      exists u. split; [apply Hrow; exact Hu | exact Hrole].
    + intros e He. destruct (Hevals e He) as ((u & Hu & Hrole) & Hst).
      split; [|exact Hst]. exists u. split; [apply Hrow; exact Hu | exact Hrole].
    + intros x Hx. destruct (Htransfers x Hx) as ((o & Ho & Hrole) & (b & Hb)).
      split; [exists o; split; [apply Hrow; exact Ho | exact Hrole]|].
      exists b. apply Hrow. exact Hb.
  - exact (conj Hstores (conj Hevals Htransfers)).
  - exact (conj Hstores (conj Hevals Htransfers)).
  - (* a sale *)
    split; [exact Hstores|]. split; [exact Hevals|].
    intros x Hx. unfold after_sale in Hx. cbn [transfers] in Hx. unfold insert in Hx.
    apply in_app_or in Hx. destruct Hx as [Hx | [<- | []]].
    + apply (Htransfers x Hx).
    + cbn [OwnershipTransfer.with_id OwnershipTransfer.from_user_id
             OwnershipTransfer.to_user_id].
      split.
      * exists o. split; [exact (user_row_found db _ o Ho) | exact Hstore].
      * exists b. exact (user_row_found db _ b Hb).
  - exact (conj Hstores (conj Hevals Htransfers)).
  - exact (conj Hstores (conj Hevals Htransfers)).
  - (* a store is created *)
    assert (Hrow : forall j s, store_row db j s -> store_row (insert_obj db (ObjStore s0)) j s).
    { intros j s [Hs Hj]. split; [|exact Hj].
      cbn [insert_obj stores]. unfold insert. apply in_or_app. left. exact Hs. }
    split; [|split; [|exact Htransfers]].
    + intros s Hs. cbn [insert_obj stores] in Hs. unfold insert in Hs.
      apply in_app_or in Hs. destruct Hs as [Hs | [<- | []]].
      * apply (Hstores s Hs).
      * exists u0. cbn [Store.with_id Store.user_id].
        split; [split; assumption | exact Hu0role].
    + intros e He. destruct (Hevals e He) as (Hu & (j & s & Hj & Hs)).
      split; [exact Hu|]. exists j, s. split; [exact Hj | apply Hrow; exact Hs].
  - (* an evaluator is created *)
    split; [exact Hstores|]. split; [|exact Htransfers].
    intros e He. cbn [insert_obj evaluators] in He. unfold insert in He.
    apply in_app_or in He. destruct He as [He | [<- | []]].
    + apply (Hevals e He).
    + cbn [Evaluator.with_id Evaluator.user_id Evaluator.store_id]. split.
      * exists u0. split; [split; assumption | exact Hu0role].
      * exists k, s0. split; [exact Hsid | exact (store_row_found db k s0 Hs0)].
  - (* a store is updated *)
    split; [|split; [|exact Htransfers]].
    + intros x Hx. cbn [set_stores stores] in Hx. apply in_update in Hx.
      destruct Hx as [Hx | ->]; [apply (Hstores x Hx)|].
      rewrite Huid. apply (Hstores s Hin).
    + intros e He. destruct (Hevals e He) as (Hu & (j & s0 & Hj & [Hs0 Hs0id])).
      split; [exact Hu|]. exists j.
      destruct (Z.eq_dec j k) as [-> | Hjk].
      * exists s'. split; [exact Hj|]. split; [|exact Hid'].
        cbn [set_stores stores]. apply (in_update_hit Store.id k s' s); assumption.
      * exists s0. split; [exact Hj|]. split; [|exact Hs0id].
        cbn [set_stores stores]. apply in_update_miss; [exact Hs0|].
        rewrite Hs0id. intros E. injection E as E. contradiction.
Qed.

(** X24. In every state that the operations produce from an empty database
    the references between the tables resolve: every store belongs to a
    stored user of role store, every evaluator is a stored user of role
    evaluator attached to a stored store, and every transfer goes from a
    stored user of role store to a stored user. No constraint of the schema
    is used: the lookups the handlers make before they insert are enough. *)
Theorem reachable_references (env : Adapters) (db : DB) :
  reachable_all env db -> references_ok db.
Proof.
  induction 1 as [| d req _ IH | d req _ IH | d token watch_id _ IH].
  - split; [|split]; intros x [].
  - apply (effect_keeps_references (fun _ => True) True d); [|exact IH].
    apply serve_effect. trivial.
  - apply (effect_keeps_references (fun _ => True) True d); [|exact IH].
    apply serve_admin_effect.
  - apply (effect_keeps_references (fun _ => True) True d); [|exact IH].
    apply shadowed_purchase_effect. exact I.
Qed.

(** The store, the evaluator and the transfer of the sale session. *)
Lemma reachable_references_witness :
  reachable_all demo_env (replay_all demo_env setup_session empty_db)
  /\ references_ok (replay_all demo_env setup_session empty_db)
  /\ List.length (stores (replay_all demo_env setup_session empty_db)) = 1%nat
  /\ List.length (evaluators (replay_all demo_env setup_session empty_db)) = 1%nat
  /\ List.length (transfers (replay_all demo_env setup_session empty_db)) = 1%nat.
Proof.
  assert (H : reachable_all demo_env (replay_all demo_env setup_session empty_db))
    by (apply reachable_replay_all; apply reachable_all_empty).
  split; [exact H|]. split; [exact (reachable_references demo_env _ H)|].
  repeat split; vm_compute; reflexivity.
Defined.
